(** * ESP32miniFDR: barometer acquisition and flight data recorder

    A shallow embedding of [src/barometer.cpp] and [src/fdr.cpp].

    Conventions of the model.
    - [uint32_t] values are [Z] with the wrap-around written out
      ([u32]); [uint8_t] values likewise ([u8]).
    - A C [float] is an IEEE 754 binary32 value ([float]): NaN, an
      infinity, a zero of either sign or a finite rational.  Every
      operation rounds its exact result to the nearest binary32 value,
      ties to even ([round32]).
    - The I2C bus, the two sensor drivers, the SPIFFS store and the clock
      are outside the repository.  Their answers are inputs of the model:
      a [Bus] of history-dependent answers for the sensor side, an [env]
      for the recorder side. *)

From Stdlib Require Import ZArith QArith Qround Qabs Qpower Qreduction.
From Stdlib Require Import List Bool Lia.
From Stdlib Require Import Strings.String Strings.Ascii Strings.Byte.
From Stdlib Require Import Floats.SpecFloat.
Import ListNotations.

Local Open Scope Z_scope.

(* ====================================================================== *)
(** ** Machine integers *)

Definition u32 (z : Z) : Z := z mod 2 ^ 32.
Definition u8 (z : Z) : Z := z mod 2 ^ 8.

(* ====================================================================== *)
(** ** Floats: IEEE 754 binary32

    A C [float] is NaN, an infinity, the negative zero, or a finite
    rational ([Num 0] is the positive zero).  Every operation computes the
    exact result and rounds it to the nearest binary32 value, ties to
    even, as the hardware does. *)

Inductive float : Type :=
| NaN
| Inf (negative : bool)
| NegZero
| Num (q : Q).

Definition pow2 (k : Z) : Q := (2 ^ k)%Q.

(** The dyadic number [m * 2^k]. *)
Definition dyadic (m k : Z) : Q := (inject_Z m * pow2 k)%Q.

(** The nearest integer, the even one of the two at a tie. *)
Definition nearest_even (x : Q) : Z :=
  let f := Qfloor x in
  match (x - inject_Z f ?= 1 # 2)%Q with
  | Lt => f
  | Gt => f + 1
  | Eq => if Z.even f then f else f + 1
  end.

(** The exponent of the grid on which a number of absolute value [ax] is
    rounded: the least [k' >= k] with [ax < 2^(k' + 24)]. *)
Fixpoint exponent_from (fuel : nat) (k : Z) (ax : Q) : option Z :=
  match fuel with
  | O => None
  | S fuel =>
    if Qle_bool (pow2 (k + 24)) ax then exponent_from fuel (k + 1) ax else Some k
  end.

Definition zero (negative : bool) : float :=
  if negative then NegZero else Num 0.

Definition Qneg (x : Q) : bool := negb (Qle_bool 0 x).

(** Rounding to binary32: 24 bits of precision, exponents of the last
    place from -149 (subnormal numbers included) to 104, overflow to an
    infinity.  [zero_sign] is the sign of the result when [x] is 0. *)
Definition round32 (zero_sign : bool) (x : Q) : float :=
  if Qeq_bool x 0 then zero zero_sign
  else
    match exponent_from 254 (-149) (Qabs x) with
    | None => Inf (Qneg x)
    | Some k =>
      let m := nearest_even (x / pow2 k) in
      if m =? 0 then zero (Qneg x)
      else if (Z.abs m =? 2 ^ 24) && (k =? 104) then Inf (Qneg x)
      else Num (Qred (dyadic m k))
    end.

Definition isnan (x : float) : bool :=
  match x with NaN => true | _ => false end.

(** The value of a finite float. *)
Definition finite (x : float) : option Q :=
  match x with
  | NaN | Inf _ => None
  | NegZero => Some 0%Q
  | Num q => Some q
  end.

(** A number: neither NaN nor an infinity. *)
Definition isnumber (x : float) : bool :=
  match finite x with Some _ => true | None => false end.

Definition signbit (x : float) : bool :=
  match x with
  | NaN => false
  | Inf s => s
  | NegZero => true
  | Num q => Qneg q
  end.

Definition iszero (x : float) : bool :=
  match finite x with Some q => Qeq_bool q 0 | None => false end.

Definition fopp (x : float) : float :=
  match x with
  | NaN => NaN
  | Inf s => Inf (negb s)
  | NegZero => Num 0
  | Num q => if Qeq_bool q 0 then NegZero else Num (- q)
  end.

(** A sum that is exactly 0 is -0 only when both terms are negative. *)
Definition fadd (x y : float) : float :=
  match finite x, finite y with
  | Some a, Some b => round32 (signbit x && signbit y) (a + b)
  | Some _, None => y
  | None, Some _ => x
  | None, None =>
    match x, y with
    | Inf a, Inf b => if Bool.eqb a b then x else NaN
    | _, _ => NaN
    end
  end.

Definition fsub (x y : float) : float := fadd x (fopp y).

Definition fmul (x y : float) : float :=
  let s := xorb (signbit x) (signbit y) in
  match finite x, finite y with
  | Some a, Some b => round32 s (a * b)
  | _, _ =>
    if isnan x || isnan y || iszero x || iszero y then NaN else Inf s
  end.

Definition fdiv (x y : float) : float :=
  let s := xorb (signbit x) (signbit y) in
  match finite x, finite y with
  | Some a, Some b =>
    if Qeq_bool b 0 then (if Qeq_bool a 0 then NaN else Inf s)
    else round32 s (a / b)
  | Some _, None => if isnan y then NaN else zero s
  | None, Some _ => if isnan x then NaN else Inf s
  | None, None => NaN
  end.

(** Ordered comparisons are false as soon as one side is NaN. *)
Definition fle (x y : float) : bool :=
  match x, y with
  | NaN, _ | _, NaN => false
  | Inf true, _ => true
  | _, Inf false => true
  | Inf false, _ => false
  | _, Inf true => false
  | _, _ =>
    match finite x, finite y with
    | Some a, Some b => Qle_bool a b
    | _, _ => false
    end
  end.

Definition fge (x y : float) : bool := fle y x.

(** Equality of values: NaN stands for one undefined value, the two zeros
    are told apart, rationals are compared as numbers. *)
Definition feq (x y : float) : Prop :=
  match x, y with
  | NaN, NaN => True
  | Inf a, Inf b => a = b
  | NegZero, NegZero => True
  | Num a, Num b => (a == b)%Q
  | _, _ => False
  end.

(** The conversion [(float)z] of an integer. *)
Definition of_Z (z : Z) : float := round32 false (inject_Z z).

(** The values a C [float] can hold. *)
Definition binary32 (x : float) : Prop :=
  match x with
  | Num q =>
    exists m k : Z,
      (q == dyadic m k)%Q /\ -149 <= k <= 104 /\ Z.abs m < 2 ^ 24 /\
      (k = -149 \/ 2 ^ 23 <= Z.abs m)
  | _ => True
  end.

(** [nearest_even] on the quotient of two integers. *)
Definition nearest_even_div (N D : Z) : Z :=
  let f := N / D in
  match 2 * (N mod D) ?= D with
  | Lt => f
  | Gt => f + 1
  | Eq => if Z.even f then f else f + 1
  end.

(** The value of a finite result with mantissa [m] on the grid [2^k]. *)
Definition rounded (negative : bool) (m k : Z) : float :=
  if m =? 0 then zero negative
  else if (Z.abs m =? 2 ^ 24) && (k =? 104) then Inf negative
  else Num (Qred (dyadic m k)).

Declare Scope float_scope.
Delimit Scope float_scope with flt.
Infix "+" := fadd : float_scope.
Infix "-" := fsub : float_scope.
Infix "*" := fmul : float_scope.
Infix "/" := fdiv : float_scope.
Infix "==" := feq (at level 70, no associativity) : float_scope.

(** *** The same operations in the Standard Library's [SpecFloat]

    [SFadd 24 128] and the like are the library's specification of
    binary32 arithmetic; the operations above are compared with them on
    sample values. *)

Definition of_spec_float (x : spec_float) : float :=
  match x with
  | S754_nan => NaN
  | S754_infinity s => Inf s
  | S754_zero s => zero s
  | S754_finite s m e => Num (dyadic (if s then Z.neg m else Z.pos m) e)
  end.

Definition spec_finite (m e : Z) : spec_float :=
  match m with
  | Z0 => S754_zero false
  | Zpos p => S754_finite false p e
  | Zneg p => S754_finite true p e
  end.

Definition feqb (x y : float) : bool :=
  match x, y with
  | NaN, NaN => true
  | Inf a, Inf b => Bool.eqb a b
  | NegZero, NegZero => true
  | Num a, Num b => Qeq_bool a b
  | _, _ => false
  end.

Definition agrees (f : float -> float -> float)
  (g : spec_float -> spec_float -> spec_float) (x y : spec_float) : bool :=
  feqb (of_spec_float (g x y)) (f (of_spec_float x) (of_spec_float y)).

(** Special values, subnormal numbers, the largest numbers, ties, and the
    constants and readings of the sources. *)
Definition spec_samples : list spec_float :=
  [S754_nan; S754_infinity false; S754_infinity true;
   S754_zero false; S754_zero true;
   spec_finite 1 (-149); spec_finite (-3) (-149); spec_finite 6 (-149);
   spec_finite 8388609 (-148); spec_finite 11184811 (-148);
   spec_finite 16777215 104; spec_finite (-16777215) 104;
   spec_finite 8388608 (-25);      (* 0.25 *)
   spec_finite 12582912 (-24);     (* 0.75 *)
   spec_finite 13107200 (-17);     (* 100 *)
   spec_finite 8192000 (-13);      (* 1000 *)
   spec_finite 12441600 (-7);      (* 97200 Pa *)
   spec_finite 9419571 (-13);      (* 1149.8499755859375 *)
   spec_finite 16384001 0;
   spec_finite (-12000001) (-14)].

Definition agree_on_samples (f : float -> float -> float)
  (g : spec_float -> spec_float -> spec_float) : bool :=
  forallb (fun x => forallb (agrees f g x) spec_samples) spec_samples.

Definition fle_agrees_on_samples : bool :=
  forallb
    (fun x => forallb
       (fun y => Bool.eqb (SFleb x y) (fle (of_spec_float x) (of_spec_float y)))
       spec_samples)
    spec_samples.

(* ====================================================================== *)
(** ** Sensor acquisition: [barometer.cpp] *)

Module Barometer.

(** *** Configuration constants *)

Definition BME280_ADDRESS_PRIMARY : Z := 0x76.
Definition BME280_ADDRESS_SECONDARY : Z := 0x77.
Definition BME280_CHIP_ID : Z := 0x58.
Definition BAD_READS_MAX : Z := 3.
Definition PRESSURE_EMA_ALPHA : float := Num (1 # 4).
Definition TEMPERATURE_MIN : float := Num (-40).
Definition TEMPERATURE_MAX : float := Num 85.
Definition PRESSURE_MIN : float := Num 300.
Definition PRESSURE_MAX : float := Num 1100.

(** *** Static runtime variables *)

(** Sampling profile last written to a driver object by [setSampling]. *)
Inductive profile : Type :=
| Unset
| HighPrecision
| Fast.

Record state : Type := mkState {
  bme : profile;            (* static Adafruit_BME280 bme *)
  bmp : profile;            (* static Adafruit_BMP280 bmp *)
  bme_ok : bool;
  bmp_used : bool;
  bad_read_count : Z;
  lastTemp : float;
  lastPressure : float;
  pressure_ema : float;
  deviceCount : Z
}.

(** The values of the static initialisers. *)
Definition boot : state :=
  mkState Unset Unset false false 0 NaN NaN NaN 0.

Definition set_bme (v : profile) (s : state) : state :=
  mkState v (bmp s) (bme_ok s) (bmp_used s) (bad_read_count s)
          (lastTemp s) (lastPressure s) (pressure_ema s) (deviceCount s).
Definition set_bmp (v : profile) (s : state) : state :=
  mkState (bme s) v (bme_ok s) (bmp_used s) (bad_read_count s)
          (lastTemp s) (lastPressure s) (pressure_ema s) (deviceCount s).
Definition set_bme_ok (v : bool) (s : state) : state :=
  mkState (bme s) (bmp s) v (bmp_used s) (bad_read_count s)
          (lastTemp s) (lastPressure s) (pressure_ema s) (deviceCount s).
Definition set_bmp_used (v : bool) (s : state) : state :=
  mkState (bme s) (bmp s) (bme_ok s) v (bad_read_count s)
          (lastTemp s) (lastPressure s) (pressure_ema s) (deviceCount s).
Definition set_bad_read_count (v : Z) (s : state) : state :=
  mkState (bme s) (bmp s) (bme_ok s) (bmp_used s) v
          (lastTemp s) (lastPressure s) (pressure_ema s) (deviceCount s).
Definition set_lastTemp (v : float) (s : state) : state :=
  mkState (bme s) (bmp s) (bme_ok s) (bmp_used s) (bad_read_count s)
          v (lastPressure s) (pressure_ema s) (deviceCount s).
Definition set_lastPressure (v : float) (s : state) : state :=
  mkState (bme s) (bmp s) (bme_ok s) (bmp_used s) (bad_read_count s)
          (lastTemp s) v (pressure_ema s) (deviceCount s).
Definition set_pressure_ema (v : float) (s : state) : state :=
  mkState (bme s) (bmp s) (bme_ok s) (bmp_used s) (bad_read_count s)
          (lastTemp s) (lastPressure s) v (deviceCount s).
Definition set_deviceCount (v : Z) (s : state) : state :=
  mkState (bme s) (bmp s) (bme_ok s) (bmp_used s) (bad_read_count s)
          (lastTemp s) (lastPressure s) (pressure_ema s) v.

(** *** The bus and the drivers, as seen by this module *)

Inductive bus_call : Type :=
| WireProbe (address : Z)     (* beginTransmission / endTransmission *)
| BmeBegin (address : Z)      (* bme.begin(address) *)
| ChipIdRead (address : Z)    (* register 0xD0 *)
| BmpBegin (address : Z).     (* bmp.begin(address) *)

Inductive driver : Type :=
| BME280
| BMP280.

(** Every answer may depend on the calls made so far in the cycle, so a
    retry of the same call can succeed after a first failure. *)
Record Bus : Type := mkBus {
  wire_ack : list bus_call -> Z -> bool;
  bme_begin : list bus_call -> Z -> bool;
  wire_read_id : list bus_call -> Z -> option Z;
  bmp_begin : list bus_call -> Z -> bool;
  readTemperature : driver -> float;
  readPressure : driver -> float    (* pascals *)
}.

(** A computation that performs bus calls: it reads the calls made so far
    and returns them extended. *)
Definition io (A : Type) : Type := list bus_call -> A * list bus_call.

Definition ret {A} (a : A) : io A := fun log => (a, log).
Definition bind {A B} (m : io A) (k : A -> io B) : io B :=
  fun log => let (a, log') := m log in k a log'.

Notation "x <- m ;; k" := (bind m (fun x => k))
  (at level 61, m at next level, right associativity).
Notation "' p <- m ;; k" := (bind m (fun x => match x with p => k end))
  (at level 61, p pattern, m at next level, right associativity).

Definition call {A} (answer : list bus_call -> A) (c : bus_call) : io A :=
  fun log => (answer log, log ++ [c]).

(** *** Helper functions *)

Definition configureBME280HighPrecision (s : state) : state :=
  set_bme HighPrecision s.
Definition configureBMP280HighPrecision (s : state) : state :=
  set_bmp HighPrecision s.
Definition configureBME280FastMode (s : state) : state :=
  set_bme Fast s.
Definition configureBMP280FastMode (s : state) : state :=
  set_bmp Fast s.

Definition validateSensorReadings (temperature pressure : float) : bool :=
  (fge temperature TEMPERATURE_MIN && fle temperature TEMPERATURE_MAX) &&
  (fge pressure PRESSURE_MIN && fle pressure PRESSURE_MAX).

Definition initializePressureEMA (initial_pressure : float) (s : state) : state :=
  if isnan (pressure_ema s) then set_pressure_ema initial_pressure s else s.

Definition updatePressureEMA (raw_pressure : float) (s : state) : state :=
  set_pressure_ema
    (PRESSURE_EMA_ALPHA * raw_pressure +
     (Num 1 - PRESSURE_EMA_ALPHA) * pressure_ema s)%flt s.

(** *** Public API and the scan *)

Definition barometer_init (bus : Bus) (s : state) : state :=
  let s := set_bme_ok (bme_begin bus [] BME280_ADDRESS_PRIMARY) s in
  let s := set_bmp_used false s in
  let s := set_bad_read_count 0 s in
  let s := set_lastTemp NaN s in
  let s := set_lastPressure NaN s in
  let s := set_deviceCount 0 s in
  if bme_ok s then configureBME280HighPrecision s else s.

Definition attemptBME280Init (bus : Bus) (address : Z) (s : state)
  : io (bool * state) :=
  ok <- call (fun log => bme_begin bus log address) (BmeBegin address) ;;
  if negb ok then ret (false, s)
  else ret (true, configureBME280HighPrecision
                    (set_bmp_used false (set_bme_ok true s))).

Definition attemptBMP280Init (bus : Bus) (address : Z) (s : state)
  : io (bool * state) :=
  ok <- call (fun log => bmp_begin bus log address) (BmpBegin address) ;;
  if negb ok then ret (false, s)
  else ret (true, configureBMP280HighPrecision
                    (set_bmp_used true (set_bme_ok true s))).

(** [chipid] is passed by reference: it keeps its value when nothing is
    available to read. *)
Definition readChipID (bus : Bus) (address : Z) (chipid : Z) : io (bool * Z) :=
  r <- call (fun log => wire_read_id bus log address) (ChipIdRead address) ;;
  match r with
  | None => ret (false, chipid)
  | Some v => ret (true, u8 v)
  end.

(** The body of the [for] loop of [scanAndTryInit], over the addresses
    still to visit.  Returning without a recursive call is the [break]. *)
Fixpoint scan_loop (bus : Bus) (addresses : list Z) (count chipid : Z)
  (s : state) {struct addresses} : io (Z * state) :=
  match addresses with
  | [] => ret (count, s)
  | i :: rest =>
    ack <- call (fun log => wire_ack bus log i) (WireProbe i) ;;
    if ack then
      let count := u8 (count + 1) in
      if (i =? BME280_ADDRESS_PRIMARY) && negb (bme_ok s) then
        ' (ok1, s) <- attemptBME280Init bus BME280_ADDRESS_PRIMARY s ;;
        if ok1 then ret (count, s) else
        ' (_, chipid) <- readChipID bus BME280_ADDRESS_PRIMARY chipid ;;
        ' (ok3, s) <- attemptBME280Init bus BME280_ADDRESS_PRIMARY s ;;
        if ok3 then ret (count, s) else
        ' (ok4, s) <- attemptBME280Init bus BME280_ADDRESS_SECONDARY s ;;
        if ok4 then ret (count, s) else
        if chipid =? BME280_CHIP_ID then
          ' (ok5, s) <- attemptBMP280Init bus BME280_ADDRESS_PRIMARY s ;;
          if ok5 then ret (count, s)
          else scan_loop bus rest count chipid s
        else scan_loop bus rest count chipid s
      else scan_loop bus rest count chipid s
    else scan_loop bus rest count chipid s
  end.

(** The addresses [1 .. 119] of [for (byte i = 1; i < 120; i++)]. *)
Definition scan_addresses : list Z := map Z.of_nat (seq 1 119).

Definition scanAndTryInit (bus : Bus) (s : state) : io state :=
  ' (count, s) <- scan_loop bus scan_addresses 0 0 s ;;
  ret (set_deviceCount count s).

(** The driver object that [barometer_process] reads: [bmp] when
    [bmp_used], [bme] otherwise. *)
Definition read_driver (s : state) : driver :=
  if bmp_used s then BMP280 else BME280.

Definition read_temperature (bus : Bus) (s : state) : float :=
  readTemperature bus (read_driver s).

Definition read_raw_pressure (bus : Bus) (s : state) : float :=
  (readPressure bus (read_driver s) / Num 100)%flt.

(** The part of [barometer_process] after the [bme_ok] test. *)
Definition read_cycle (bus : Bus) (s : state) : state :=
  let temperature := read_temperature bus s in
  let raw_pressure := read_raw_pressure bus s in
  let s := initializePressureEMA raw_pressure s in
  let s := updatePressureEMA raw_pressure s in
  let s := set_lastTemp temperature s in
  let s := set_lastPressure (pressure_ema s) s in
  if validateSensorReadings temperature raw_pressure then
    set_bad_read_count 0 s
  else
    let s := set_bad_read_count (bad_read_count s + 1) s in
    if bad_read_count s >=? BAD_READS_MAX then
      set_bad_read_count 0 (set_bmp_used false (set_bme_ok false s))
    else s.

Definition barometer_process (bus : Bus) (s : state) : io state :=
  if negb (bme_ok s) then scanAndTryInit bus s
  else ret (read_cycle bus s).

Definition barometer_isReady (s : state) : bool := bme_ok s.
Definition barometer_isBMP (s : state) : bool := bmp_used s.
Definition barometer_getTemperature (s : state) : float := lastTemp s.
Definition barometer_getPressure (s : state) : float := lastPressure s.

Definition barometer_setFastMode (fast : bool) (s : state) : state :=
  if negb (bme_ok s) then s
  else if bmp_used s then
    if fast then configureBMP280FastMode s else configureBMP280HighPrecision s
  else
    if fast then configureBME280FastMode s else configureBME280HighPrecision s.

End Barometer.

(* ====================================================================== *)
(** ** Status light: [led.cpp] *)

Module Led.

(** The colour last shown on the single pixel. *)
Definition state : Type := (Z * Z * Z)%type.

Definition led_setColor (r g b : Z) (_ : state) : state := (u8 r, u8 g, u8 b).
Definition led_setBlue (l : state) : state := led_setColor 0 0 255 l.
Definition led_setRed (l : state) : state := led_setColor 255 0 0 l.
Definition led_off (l : state) : state := led_setColor 0 0 0 l.

(** [leds.begin(); leds.show()]: the pixel starts dark. *)
Definition led_init : state := (0, 0, 0).

(** Each round shows red, then dark. *)
Fixpoint led_startupBlink (times : nat) (l : state) : state :=
  match times with
  | O => l
  | S times => led_startupBlink times (led_setColor 0 0 0 (led_setColor 255 0 0 l))
  end.

End Led.

(* ====================================================================== *)
(** ** Recorder: [fdr.cpp] *)

Module Fdr.

(** *** Configuration *)

Definition DEFAULT_SAMPLE_INTERVAL_MS : Z := 1000.
Definition MAX_SAMPLES_PER_SEC : Z := 50.
Definition BUFFER_FLUSH_THRESHOLD : Z := 1024.
Definition BUFFER_FLUSH_INTERVAL_MS : Z := 250.

Definition bytes : Type := list byte.

(** What [fdr_file.println("timestamp_s,pressure_hpa")] writes: the text
    and the line terminator of Arduino's [Print::println]. *)
Definition header_text : bytes := list_byte_of_string "timestamp_s,pressure_hpa".
Definition line_terminator : bytes := [x0d; x0a].
Definition header : bytes := header_text ++ line_terminator.

(** *** Module state *)

Record state : Type := mkState {
  fdr_active : bool;
  fdr_end_ms : Z;
  fdr_start_ms : Z;
  last_sample_ms : Z;
  fdr_sample_interval_ms : Z;
  spiffs_mounted : bool;
  fdr_file : bool;              (* the handle, [true] while it is open *)
  fdr_write_buffer : bytes;
  last_flush_ms : Z;
  flash : option bytes          (* content of /fdr.csv, [None] when absent *)
}.

Definition boot : state :=
  mkState false 0 0 0 DEFAULT_SAMPLE_INTERVAL_MS false false [] 0 None.

Definition set_fdr_active (v : bool) (s : state) : state :=
  mkState v (fdr_end_ms s) (fdr_start_ms s) (last_sample_ms s)
    (fdr_sample_interval_ms s) (spiffs_mounted s) (fdr_file s)
    (fdr_write_buffer s) (last_flush_ms s) (flash s).
Definition set_fdr_end_ms (v : Z) (s : state) : state :=
  mkState (fdr_active s) v (fdr_start_ms s) (last_sample_ms s)
    (fdr_sample_interval_ms s) (spiffs_mounted s) (fdr_file s)
    (fdr_write_buffer s) (last_flush_ms s) (flash s).
Definition set_fdr_start_ms (v : Z) (s : state) : state :=
  mkState (fdr_active s) (fdr_end_ms s) v (last_sample_ms s)
    (fdr_sample_interval_ms s) (spiffs_mounted s) (fdr_file s)
    (fdr_write_buffer s) (last_flush_ms s) (flash s).
Definition set_last_sample_ms (v : Z) (s : state) : state :=
  mkState (fdr_active s) (fdr_end_ms s) (fdr_start_ms s) v
    (fdr_sample_interval_ms s) (spiffs_mounted s) (fdr_file s)
    (fdr_write_buffer s) (last_flush_ms s) (flash s).
Definition set_fdr_sample_interval_ms (v : Z) (s : state) : state :=
  mkState (fdr_active s) (fdr_end_ms s) (fdr_start_ms s) (last_sample_ms s)
    v (spiffs_mounted s) (fdr_file s)
    (fdr_write_buffer s) (last_flush_ms s) (flash s).
Definition set_spiffs_mounted (v : bool) (s : state) : state :=
  mkState (fdr_active s) (fdr_end_ms s) (fdr_start_ms s) (last_sample_ms s)
    (fdr_sample_interval_ms s) v (fdr_file s)
    (fdr_write_buffer s) (last_flush_ms s) (flash s).
Definition set_fdr_file (v : bool) (s : state) : state :=
  mkState (fdr_active s) (fdr_end_ms s) (fdr_start_ms s) (last_sample_ms s)
    (fdr_sample_interval_ms s) (spiffs_mounted s) v
    (fdr_write_buffer s) (last_flush_ms s) (flash s).
Definition set_fdr_write_buffer (v : bytes) (s : state) : state :=
  mkState (fdr_active s) (fdr_end_ms s) (fdr_start_ms s) (last_sample_ms s)
    (fdr_sample_interval_ms s) (spiffs_mounted s) (fdr_file s)
    v (last_flush_ms s) (flash s).
Definition set_last_flush_ms (v : Z) (s : state) : state :=
  mkState (fdr_active s) (fdr_end_ms s) (fdr_start_ms s) (last_sample_ms s)
    (fdr_sample_interval_ms s) (spiffs_mounted s) (fdr_file s)
    (fdr_write_buffer s) v (flash s).
Definition set_flash (v : option bytes) (s : state) : state :=
  mkState (fdr_active s) (fdr_end_ms s) (fdr_start_ms s) (last_sample_ms s)
    (fdr_sample_interval_ms s) (spiffs_mounted s) (fdr_file s)
    (fdr_write_buffer s) (last_flush_ms s) v.

(** The recorder together with the two modules it calls into. *)
Record system : Type := mkSystem {
  rec : state;
  baro : Barometer.state;
  led : Led.state
}.

Definition set_rec (v : state) (w : system) : system :=
  mkSystem v (baro w) (led w).

(** *** The clock and the store, as seen by this module

    One [env] holds the answers the platform gives during one call of a
    public function. *)
Record env : Type := mkEnv {
  millis : Z;                  (* millis() read on entry *)
  millis_later : Z;            (* millis() read again later in the call *)
  spiffs_begin : bool -> bool; (* SPIFFS.begin(formatOnFail) *)
  open_write : bool;           (* SPIFFS.open(path, FILE_WRITE) succeeds *)
  open_append : bool;          (* SPIFFS.open(path, FILE_APPEND) succeeds *)
  open_read : bool;            (* SPIFFS.open(path, FILE_READ) succeeds *)
  write_room : Z;              (* bytes the store can take in File::write *)
  eol_room : Z                 (* the same for the line terminator that
                                  println writes after its text *)
}.

Definition blen (b : bytes) : Z := Z.of_nat (List.length b).

(** [File::write(data, size)]: the store takes as much of [data] as it has
    room for, keeps that prefix and returns its length. *)
Definition file_write (e : env) (data : bytes) : Z :=
  Z.max 0 (Z.min (write_room e) (blen data)).

Definition store_append (wrote : Z) (data : bytes) (f : option bytes)
  : option bytes :=
  match f with
  | Some c => Some (c ++ firstn (Z.to_nat wrote) data)
  | None => None
  end.

(** [fdr_file.println(text)]: Arduino's [Print::println] writes the text
    and then the line terminator, each with one [File::write] whose result
    it does not look at. *)
Definition eol_write (e : env) : Z :=
  Z.max 0 (Z.min (eol_room e) (blen line_terminator)).

Definition file_println (e : env) (text : bytes) (f : option bytes)
  : option bytes :=
  let f := store_append (file_write e text) text f in
  store_append (eol_write e) line_terminator f.

(** *** Helpers *)

Definition ensureSpiffs (e : env) (s : state) : bool * state :=
  if spiffs_mounted s then (true, s)
  else if spiffs_begin e false then (true, set_spiffs_mounted true s)
  else
    let s := set_spiffs_mounted (spiffs_begin e true) s in
    (spiffs_mounted s, s).

Definition closeFdrFileIfOpen (s : state) : state :=
  if fdr_file s then set_fdr_file false s else s.

Definition spiffs_exists (s : state) : bool :=
  match flash s with Some _ => true | None => false end.

Definition spiffs_remove_if_exists (s : state) : state :=
  if spiffs_exists s then set_flash None s else s.

Definition openFdrFileForWrite (e : env) (s : state) : bool * state :=
  let s := closeFdrFileIfOpen s in
  let s := spiffs_remove_if_exists s in
  let s := if open_write e
           then set_flash (Some []) (set_fdr_file true s)
           else set_fdr_file false s in
  if negb (fdr_file s) then (false, s)
  else (true, set_flash (file_println e header_text (flash s)) s).

Definition openFdrFileForAppend (e : env) (s : state) : bool * state :=
  let s :=
    if negb (fdr_file s) then
      if open_append e then
        set_fdr_file true
          (if spiffs_exists s then s else set_flash (Some []) s)
      else set_fdr_file false s
    else s in
  (fdr_file s, s).

(** The write and what follows it in [flushBufferToFile]. *)
Definition write_and_trim (e : env) (s : state) : state :=
  let wrote := file_write e (fdr_write_buffer s) in
  let len := blen (fdr_write_buffer s) in
  let s := set_flash (store_append wrote (fdr_write_buffer s) (flash s)) s in
  let s :=
    if wrote =? len then set_fdr_write_buffer [] s
    else if (wrote >? 0) && (wrote <? len) then
      set_fdr_write_buffer (skipn (Z.to_nat wrote) (fdr_write_buffer s)) s
    else s in
  set_last_flush_ms (millis_later e) s.

Definition flushBufferToFile (e : env) (s : state) : state :=
  if blen (fdr_write_buffer s) =? 0 then s
  else if negb (fdr_file s) then
    let (mounted, s) := ensureSpiffs e s in
    if negb mounted then s
    else
      let (opened, s) := openFdrFileForAppend e s in
      if negb opened then s
      else write_and_trim e s
  else write_and_trim e s.

(** *** Public API *)

Definition fdr_init (w : system) : system := w.

Definition fdr_start (e : env) (duration_s samples_per_sec : Z) (w : system)
  : bool * system :=
  let (mounted, s) := ensureSpiffs e (rec w) in
  if negb mounted then (false, set_rec s w)
  else
    let samples_per_sec :=
      if samples_per_sec =? 0 then 1 else samples_per_sec in
    let samples_per_sec :=
      if samples_per_sec >? MAX_SAMPLES_PER_SEC then MAX_SAMPLES_PER_SEC
      else samples_per_sec in
    let s := set_fdr_sample_interval_ms (1000 / samples_per_sec) s in
    let (created, s) := openFdrFileForWrite e s in
    if negb created then (false, set_rec s w)
    else
      let s := set_fdr_write_buffer [] s in
      let s := set_last_flush_ms (millis e) s in
      let s := set_fdr_active true s in
      let s := set_fdr_start_ms (millis_later e) s in
      let s := set_fdr_end_ms (u32 (fdr_start_ms s + u32 (duration_s * 1000))) s in
      let s := set_last_sample_ms 0 s in
      (true, mkSystem s (Barometer.barometer_setFastMode true (baro w))
                      (Led.led_setColor 0 255 0 (led w))).

Definition fdr_stop (e : env) (w : system) : system :=
  if negb (fdr_active (rec w)) then w
  else
    let s := flushBufferToFile e (rec w) in
    let s := closeFdrFileIfOpen s in
    let s := set_fdr_active false s in
    mkSystem s (Barometer.barometer_setFastMode false (baro w))
             (Led.led_setBlue (led w)).

Definition fdr_reset (e : env) (w : system) : system :=
  let (mounted, s) := ensureSpiffs e (rec w) in
  if negb mounted then set_rec s w
  else
    let s := closeFdrFileIfOpen s in
    let s := spiffs_remove_if_exists s in
    set_rec s w.

Definition fdr_isActive (w : system) : bool := fdr_active (rec w).

(** What the web server is asked to send. *)
Inductive reply : Type :=
| SendError (code : Z) (error : string)
| StreamFile (content : bytes).

Definition fdr_streamFile (e : env) (w : system) : (bool * reply) * system :=
  let (mounted, s) := ensureSpiffs e (rec w) in
  if negb mounted then
    ((false, SendError 500 "SPIFFS mount failed"), set_rec s w)
  else if negb (spiffs_exists s) then
    ((false, SendError 404 "no data"), set_rec s w)
  else
    let s :=
      if fdr_active s && (blen (fdr_write_buffer s) >? 0)
      then flushBufferToFile e s else s in
    match (if open_read e then flash s else None) with
    | None => ((false, SendError 500 "cannot open file"), set_rec s w)
    | Some content => ((true, StreamFile content), set_rec s w)
    end.

Section Sampling.

(** [snprintf_line t p] is the text that the format ["%.3f,%.2f\n"]
    produces for [t] and [p]; the C library is not part of the sources. *)
Variable snprintf_line : float -> float -> bytes.

(** [snprintf(line, sizeof(line), ...)] with [char line[64]]. *)
Definition sample_line (now : Z) (w : system) : bytes :=
  let pressure := Barometer.barometer_getPressure (baro w) in
  let t_sec := (of_Z (u32 (now - fdr_start_ms (rec w))) / Num 1000)%flt in
  firstn 63 (snprintf_line t_sec pressure).

(** The test that opens the sampling branch of [fdr_process]. *)
Definition sample_due (now : Z) (s : state) : bool :=
  (last_sample_ms s =? 0) ||
  (u32 (now - last_sample_ms s) >=? fdr_sample_interval_ms s).

Definition fdr_process (e : env) (w : system) : system :=
  if negb (fdr_active (rec w)) then w
  else
    let now := millis e in
    if now >=? fdr_end_ms (rec w) then fdr_stop e w
    else
      let s := rec w in
      if sample_due now s then
        let s := set_last_sample_ms now s in
        if negb (Barometer.barometer_isReady (baro w)) then set_rec s w
        else
          let s := set_fdr_write_buffer
                     (fdr_write_buffer s ++ sample_line now w) s in
          if (u32 (blen (fdr_write_buffer s)) >=? BUFFER_FLUSH_THRESHOLD) ||
             (u32 (now - last_flush_ms s) >=? BUFFER_FLUSH_INTERVAL_MS) then
            set_rec (flushBufferToFile e s) w
          else set_rec s w
      else w.

End Sampling.

End Fdr.

(* ====================================================================== *)
(** ** Runs of the sensor side *)

(** One pass of [barometer_process] from [loop()], on a fresh bus history. *)
Definition baro_cycle (bus : Barometer.Bus) (s : Barometer.state)
  : Barometer.state :=
  fst (Barometer.barometer_process bus s []).

(** The calls that change the sensor module's variables. *)
Inductive baro_op : Type :=
| BaroInit (bus : Barometer.Bus)
| BaroProcess (bus : Barometer.Bus)
| BaroSetFastMode (fast : bool).

Definition baro_step (s : Barometer.state) (o : baro_op) : Barometer.state :=
  match o with
  | BaroInit bus => Barometer.barometer_init bus s
  | BaroProcess bus => baro_cycle bus s
  | BaroSetFastMode fast => Barometer.barometer_setFastMode fast s
  end.

Definition baro_run (ops : list baro_op) (s : Barometer.state)
  : Barometer.state :=
  fold_left baro_step ops s.

(** The pairs (raw pressure, smoothed pressure) of the cycles of a run that
    processed a reading, in order: the cycles entered with a sensor
    active. *)
Fixpoint smoothing_trace (buses : list Barometer.Bus) (s : Barometer.state)
  : list (float * float) :=
  match buses with
  | [] => []
  | bus :: rest =>
    let s' := baro_cycle bus s in
    if Barometer.bme_ok s
    then (Barometer.read_raw_pressure bus s, Barometer.pressure_ema s')
           :: smoothing_trace rest s'
    else smoothing_trace rest s'
  end.

(** The sensor state of the specification, read off the two flags. *)
Inductive SensorState : Type :=
| Unconfigured
| Active (variant : Barometer.driver).

Definition sensor_state (s : Barometer.state) : SensorState :=
  if Barometer.bme_ok s
  then Active (if Barometer.bmp_used s then Barometer.BMP280 else Barometer.BME280)
  else Unconfigured.

(** A reading is in range when both values are numbers inside the
    validation intervals. *)
Definition in_range (temperature pressure : float) : Prop :=
  exists t p : Q,
    finite temperature = Some t /\ finite pressure = Some p /\
    (-40 <= t)%Q /\ (t <= 85)%Q /\ (300 <= p)%Q /\ (p <= 1100)%Q.

Definition reading_in_range (bus : Barometer.Bus) (s : Barometer.state) : Prop :=
  in_range (Barometer.read_temperature bus s) (Barometer.read_raw_pressure bus s).

(** The attempts the specification lists for the primary address, given
    the calls [log] made before them, and the driver that ends up active. *)
Definition primary_attempts (bus : Barometer.Bus) (log : list Barometer.bus_call)
  : list Barometer.bus_call * option Barometer.driver :=
  let P := Barometer.BME280_ADDRESS_PRIMARY in
  let S := Barometer.BME280_ADDRESS_SECONDARY in
  let a1 := [Barometer.BmeBegin P] in
  if Barometer.bme_begin bus log P then (a1, Some Barometer.BME280) else
  let a2 := a1 ++ [Barometer.ChipIdRead P] in
  let id := Barometer.wire_read_id bus (log ++ a1) P in
  let a3 := a2 ++ [Barometer.BmeBegin P] in
  if Barometer.bme_begin bus (log ++ a2) P then (a3, Some Barometer.BME280) else
  let a4 := a3 ++ [Barometer.BmeBegin S] in
  if Barometer.bme_begin bus (log ++ a3) S then (a4, Some Barometer.BME280) else
  match id with
  | Some v =>
    if u8 v =? Barometer.BME280_CHIP_ID then
      let a5 := a4 ++ [Barometer.BmpBegin P] in
      if Barometer.bmp_begin bus (log ++ a4) P
      then (a5, Some Barometer.BMP280)
      else (a5, None)
    else (a4, None)
  | None => (a4, None)
  end.

Definition probes (addresses : list Z) : list Barometer.bus_call :=
  map Barometer.WireProbe addresses.

Definition addresses_before_primary : list Z := map Z.of_nat (seq 1 117).
Definition addresses_after_primary : list Z := map Z.of_nat (seq 119 1).

(** The state in which a driver [d] has been started on top of [s]. *)
Definition started (d : option Barometer.driver) (s : Barometer.state)
  : Barometer.state :=
  match d with
  | Some Barometer.BME280 =>
    Barometer.configureBME280HighPrecision
      (Barometer.set_bmp_used false (Barometer.set_bme_ok true s))
  | Some Barometer.BMP280 =>
    Barometer.configureBMP280HighPrecision
      (Barometer.set_bmp_used true (Barometer.set_bme_ok true s))
  | None => s
  end.

(** One step of the filter on the previous output [prev]: seeded with the
    raw value when [prev] is NaN, then blended. *)
Definition ema_next (prev raw : float) : float :=
  (Barometer.PRESSURE_EMA_ALPHA * raw +
   (Num 1 - Barometer.PRESSURE_EMA_ALPHA) * (if isnan prev then raw else prev))%flt.

(** A trace in which every smoothed value is the filter step of the one
    before it, starting from [prev]. *)
Fixpoint ema_chain (prev : float) (tr : list (float * float)) : Prop :=
  match tr with
  | [] => True
  | (raw, sm) :: rest => sm = ema_next prev raw /\ ema_chain sm rest
  end.

(** The recurrence of the specification on a trace of
    (raw, smoothed) pairs. *)
Definition ema_recurrence (tr : list (float * float)) : Prop :=
  (forall raw sm, nth_error tr 0 = Some (raw, sm) -> (sm == raw)%flt) /\
  (forall i raw sm rawp prev,
     nth_error tr (S i) = Some (raw, sm) ->
     nth_error tr i = Some (rawp, prev) ->
     (sm == Num (1 # 4) * raw + Num (3 # 4) * prev)%flt).

(** The recurrence read in exact arithmetic on the values of the trace,
    with no rounding. *)
Definition exact_recurrence (tr : list (float * float)) : Prop :=
  forall i raw sm rawp prev qr qs qp,
    nth_error tr (S i) = Some (raw, sm) ->
    nth_error tr i = Some (rawp, prev) ->
    finite raw = Some qr -> finite sm = Some qs -> finite prev = Some qp ->
    (qs == (1 # 4) * qr + (3 # 4) * qp)%Q.

(** Every reading processed along a run is a number. *)
Fixpoint reads_numbers (ops : list baro_op) (s : Barometer.state) : Prop :=
  match ops with
  | [] => True
  | o :: rest =>
    match o with
    | BaroProcess bus =>
      Barometer.bme_ok s = true ->
      isnumber (Barometer.read_raw_pressure bus s) = true
    | _ => True
    end /\ reads_numbers rest (baro_step s o)
  end.

(** The calls that process no reading: everything but a cycle entered
    with a sensor active. *)
Definition processes_no_reading (s : Barometer.state) (o : baro_op) : Prop :=
  match o with
  | BaroProcess _ => Barometer.bme_ok s = false
  | _ => True
  end.

(** What a scan leaves alone: the readings, the filter and the counter. *)
Definition same_readings (s s' : Barometer.state) : Prop :=
  Barometer.pressure_ema s' = Barometer.pressure_ema s /\
  Barometer.lastPressure s' = Barometer.lastPressure s /\
  Barometer.lastTemp s' = Barometer.lastTemp s /\
  Barometer.bad_read_count s' = Barometer.bad_read_count s.

(** The counter never reaches the maximum between two calls, and it is 0
    whenever no sensor is active: a sensor that a scan has just found
    starts counting from 0. *)
Definition counter_inv (s : Barometer.state) : Prop :=
  0 <= Barometer.bad_read_count s < Barometer.BAD_READS_MAX /\
  (Barometer.bme_ok s = false -> Barometer.bad_read_count s = 0).

(* ====================================================================== *)
(** ** Runs of the recorder *)

(** The store can be mounted: it is mounted already, or one of the two
    calls of [SPIFFS.begin] succeeds. *)
Definition store_mounts (e : Fdr.env) (s : Fdr.state) : bool :=
  Fdr.spiffs_mounted s || Fdr.spiffs_begin e false || Fdr.spiffs_begin e true.

(** What the store takes of the header line that [println] writes, and
    the stores that take all of it. *)
Definition header_taken (e : Fdr.env) : Fdr.bytes :=
  firstn (Z.to_nat (Fdr.file_write e Fdr.header_text)) Fdr.header_text ++
  firstn (Z.to_nat (Fdr.eol_write e)) Fdr.line_terminator.

Definition takes_header (e : Fdr.env) : bool :=
  (Fdr.blen Fdr.header_text <=? Fdr.write_room e) &&
  (Fdr.blen Fdr.line_terminator <=? Fdr.eol_room e).

(** The requests that reach the recorder, each with the answers of the
    platform during the call; [OpBarometer] is the sensor's own cycle,
    which changes what the recorder samples. *)
Inductive fdr_op : Type :=
| OpStart (duration_s samples_per_sec : Z)
| OpProcess
| OpStop
| OpReset
| OpStreamFile
| OpBarometer (bus : Barometer.Bus).

Section Runs.

Variable snprintf_line : float -> float -> Fdr.bytes.

Definition fdr_step (w : Fdr.system) (c : Fdr.env * fdr_op) : Fdr.system :=
  let (e, o) := c in
  match o with
  | OpStart d n => snd (Fdr.fdr_start e d n w)
  | OpProcess => Fdr.fdr_process snprintf_line e w
  | OpStop => Fdr.fdr_stop e w
  | OpReset => Fdr.fdr_reset e w
  | OpStreamFile => snd (Fdr.fdr_streamFile e w)
  | OpBarometer bus =>
    Fdr.mkSystem (Fdr.rec w) (baro_cycle bus (Fdr.baro w)) (Fdr.led w)
  end.

Definition fdr_run (cs : list (Fdr.env * fdr_op)) (w : Fdr.system) : Fdr.system :=
  fold_left fdr_step cs w.

(** A cycle accepts a sample when the session is running, a tick is due
    and the sensor is ready. *)
Definition accepts (e : Fdr.env) (w : Fdr.system) : bool :=
  Fdr.fdr_active (Fdr.rec w) &&
  negb (Fdr.millis e >=? Fdr.fdr_end_ms (Fdr.rec w)) &&
  Fdr.sample_due (Fdr.millis e) (Fdr.rec w) &&
  Barometer.barometer_isReady (Fdr.baro w).

(** The sample lines of the current session, in the order in which their
    ticks were accepted: emptied by a start that succeeds, extended by an
    accepted tick. *)
Definition lines_step (lines : list Fdr.bytes) (w : Fdr.system)
  (c : Fdr.env * fdr_op) : list Fdr.bytes :=
  let (e, o) := c in
  match o with
  | OpStart d n => if fst (Fdr.fdr_start e d n w) then [] else lines
  | OpProcess =>
    if accepts e w
    then lines ++ [Fdr.sample_line snprintf_line (Fdr.millis e) w]
    else lines
  | _ => lines
  end.

Fixpoint session_lines (cs : list (Fdr.env * fdr_op)) (w : Fdr.system)
  (lines : list Fdr.bytes) : list Fdr.bytes :=
  match cs with
  | [] => lines
  | c :: rest => session_lines rest (fdr_step w c) (lines_step lines w c)
  end.

(** A call that takes the file away from a running session: a reset, or a
    start whose file creation fails. *)
Definition drops_file (w : Fdr.system) (c : Fdr.env * fdr_op) : bool :=
  let (e, o) := c in
  Fdr.fdr_active (Fdr.rec w) && store_mounts e (Fdr.rec w) &&
  match o with
  | OpReset => true
  | OpStart _ _ => negb (Fdr.open_write e)
  | _ => false
  end.

(** A start that creates the file on a store that does not take the whole
    header line. *)
Definition cuts_header (w : Fdr.system) (c : Fdr.env * fdr_op) : bool :=
  let (e, o) := c in
  match o with
  | OpStart _ _ =>
    store_mounts e (Fdr.rec w) && Fdr.open_write e && negb (takes_header e)
  | _ => false
  end.

Fixpoint keeps_file (cs : list (Fdr.env * fdr_op)) (w : Fdr.system) : bool :=
  match cs with
  | [] => true
  | c :: rest =>
    negb (drops_file w c) && negb (cuts_header w c) &&
    keeps_file rest (fdr_step w c)
  end.

End Runs.

(** The persisted file is well formed for the lines [lines] when it is the
    header followed by a prefix of the lines' text, and the rest of that
    text is what the buffer holds. *)
Definition file_well_formed (lines : list Fdr.bytes) (s : Fdr.state) : Prop :=
  exists written : Fdr.bytes,
    Fdr.flash s = Some (Fdr.header ++ written) /\
    written ++ Fdr.fdr_write_buffer s = List.concat lines.

(** While a session is active its file is open and well formed. *)
Definition session_inv (lines : list Fdr.bytes) (s : Fdr.state) : Prop :=
  Fdr.fdr_active s = true ->
  Fdr.fdr_file s = true /\ file_well_formed lines s.

(** A flush reaches the write when there is something to write and the
    file is open or can be opened again. *)
Definition write_reached (e : Fdr.env) (s : Fdr.state) : bool :=
  negb (Fdr.blen (Fdr.fdr_write_buffer s) =? 0) &&
  (Fdr.fdr_file s || (fst (Fdr.ensureSpiffs e s) && Fdr.open_append e)).

(** The recorder state that an export leaves behind when the file exists:
    the store is mounted, and with a session active and bytes buffered the
    buffer has been flushed. *)
Definition after_export (e : Fdr.env) (s : Fdr.state) : Fdr.state :=
  let s0 := Fdr.set_spiffs_mounted true s in
  if Fdr.fdr_active s && (Fdr.blen (Fdr.fdr_write_buffer s) >? 0)
  then Fdr.flushBufferToFile e s0 else s0.

(** The failures of the specification's export, as the replies of
    [fdr_streamFile]. *)
Definition StorageUnavailable : Fdr.reply := Fdr.SendError 500 "SPIFFS mount failed".
Definition NoData : Fdr.reply := Fdr.SendError 404 "no data".
Definition IoError : Fdr.reply := Fdr.SendError 500 "cannot open file".

(** The sampling rate that [fdr_start] uses for a requested one, in the
    words of the specification. *)
Definition effective_rate (samples_per_second : Z) : Z :=
  if samples_per_second =? 0 then 1
  else if samples_per_second >? 50 then 50
  else samples_per_second.

(* ====================================================================== *)
(** ** Platform answers used in the examples *)

(** A fixed-point printer for the examples: [digits] decimals, rounded to
    nearest on the exact value, ["nan"] for NaN and ["inf"] for the
    infinities. *)
Fixpoint decimal_digits (fuel : nat) (n : Z) (acc : Fdr.bytes) : Fdr.bytes :=
  match fuel with
  | O => acc
  | S fuel =>
    let acc := match Byte.of_N (Z.to_N (48 + n mod 10)) with
               | Some b => b :: acc
               | None => acc
               end in
    if n / 10 =? 0 then acc else decimal_digits fuel (n / 10) acc
  end.

Definition decimal (n : Z) : Fdr.bytes :=
  decimal_digits (S (Z.to_nat (Z.log2 n))) n [].

Definition fixed (digits : nat) (x : float) : Fdr.bytes :=
  match finite x with
  | None =>
    (if signbit x then list_byte_of_string "-" else []) ++
    list_byte_of_string (if isnan x then "nan" else "inf")
  | Some q =>
    let scale := 10 ^ Z.of_nat digits in
    let m := Qfloor (Qabs q * inject_Z scale + (1 # 2)) in
    let frac := decimal (m mod scale) in
    (if signbit x then list_byte_of_string "-" else []) ++
    decimal (m / scale) ++ list_byte_of_string "." ++
    repeat "0"%byte (digits - List.length frac) ++ frac
  end.

Definition print_line (t p : float) : Fdr.bytes :=
  fixed 3 t ++ list_byte_of_string "," ++ fixed 2 p ++ [x0a].

(** A store that mounts, opens every file and takes every byte. *)
Definition env_at (now : Z) : Fdr.env :=
  Fdr.mkEnv now now (fun _ => true) true true true (2 ^ 32) (2 ^ 32).

(** A bus on which nothing answers and the drivers read [t] and [p]. *)
Definition bus_reading (t p : float) : Barometer.Bus :=
  Barometer.mkBus (fun _ _ => false) (fun _ _ => false) (fun _ _ => None)
                  (fun _ _ => false) (fun _ => t) (fun _ => p).

(** A sensor found by the first probe of [barometer_init]; nothing has
    been read yet. *)
Definition sensor_found : Barometer.state :=
  Barometer.barometer_init
    (Barometer.mkBus (fun _ _ => true) (fun _ _ => true) (fun _ _ => None)
                     (fun _ _ => false) (fun _ => NaN) (fun _ => NaN))
    Barometer.boot.

(** The same sensor after one reading of 20 degrees and 1013.25 hPa. *)
Definition sensor_ready : Barometer.state :=
  baro_cycle (bus_reading (Num 20) (Num 101325)) sensor_found.

Definition idle_system : Fdr.system :=
  Fdr.mkSystem Fdr.boot sensor_ready (0, 0, 255).

(** A bus on which only the primary address answers, the primary driver
    never starts, the identity register holds 0x58 and the fallback
    driver starts. *)
Definition bus_fallback : Barometer.Bus :=
  Barometer.mkBus (fun _ a => a =? 0x76) (fun _ _ => false)
                  (fun _ _ => Some 0x58) (fun _ _ => true)
                  (fun _ => NaN) (fun _ => NaN).

(** A bus on which the primary address answers and the primary driver
    starts at once, reading 20 degrees and 1013.25 hPa. *)
Definition bus_primary : Barometer.Bus :=
  Barometer.mkBus (fun _ a => a =? 0x76) (fun _ _ => true)
                  (fun _ _ => None) (fun _ _ => false)
                  (fun _ => Num 20) (fun _ => Num 101325).

(** A store that takes only [room] bytes of a write. *)
Definition env_room (now room : Z) : Fdr.env :=
  Fdr.mkEnv now now (fun _ => true) true true true room room.

(** A session started at 1000 ms for 2 s at 10 samples per second, with
    one sample taken at 1100 ms and still in the buffer. *)
Definition one_sample_buffered : Fdr.system :=
  fdr_run print_line
    [(env_at 1000, OpStart 2 10); (env_at 1100, OpProcess)] idle_system.

(** A session at 10 samples per second started at 1000 ms; one sample
    accepted at 1100 ms; then three readings of 2000 hPa, after which the
    sensor is given up. *)
Definition sensor_lost_in_session : Fdr.system :=
  fdr_run print_line
    [(env_at 1000, OpStart 10 10);
     (env_at 1100, OpProcess);
     (env_at 1110, OpBarometer (bus_reading (Num 20) (Num 200000)));
     (env_at 1120, OpBarometer (bus_reading (Num 20) (Num 200000)));
     (env_at 1130, OpBarometer (bus_reading (Num 20) (Num 200000)))]
    idle_system.

(** The tick at 1200 ms, with the sensor lost, and the scan that finds the
    sensor again right after it. *)
Definition after_skipped_tick : Fdr.system :=
  fdr_run print_line
    [(env_at 1200, OpProcess); (env_at 1210, OpBarometer bus_primary)]
    sensor_lost_in_session.

(** A session in which the file is reset after the first sample and the
    next sample is flushed. *)
Definition reset_in_session : list (Fdr.env * fdr_op) :=
  [(env_at 1000, OpStart 2 10);
   (env_at 1100, OpProcess);
   (env_at 1150, OpReset);
   (env_at 1300, OpProcess)].

(** A session in which a second start fails to create the file after the
    first sample, and the next sample is flushed. *)
Definition failed_restart_in_session : list (Fdr.env * fdr_op) :=
  [(env_at 1000, OpStart 2 10);
   (env_at 1100, OpProcess);
   (Fdr.mkEnv 1150 1150 (fun _ => true) false true true (2 ^ 32) (2 ^ 32),
    OpStart 2 10);
   (env_at 1400, OpProcess)].


(** A session of 40000 s at one sample per second, just started. *)
Definition long_session : Fdr.system :=
  fdr_run print_line [(env_at 1000, OpStart 40000 1)] idle_system.

(** A session with three samples, the last of which is flushed. *)
Definition three_samples : list (Fdr.env * fdr_op) :=
  [(env_at 1000, OpStart 2 10);
   (env_at 1100, OpProcess);
   (env_at 1200, OpProcess);
   (env_at 1300, OpProcess)].

(* ====================================================================== *)
(** ** The firmware's entry points: [main.cpp] *)

Module Main.

(** The requests the web server routes, with the query arguments as
    [String::toInt] reads them ([None] for an argument that is absent or
    empty). *)
Inductive request : Type :=
| GetBarometer
| FdrStart (duration frequency : option Z)
| FdrStop
| FdrReset
| FdrDownload.

(** What each handler sends back. *)
Inductive response : Type :=
| BarometerNotReady                          (* 503 *)
| BarometerReading (temperature pressure : float)
| Started (duration frequency interval_ms : Z)
| Stopped
| ResetDone
| Download (r : Fdr.reply).

Definition handle (e : Fdr.env) (r : request) (w : Fdr.system)
  : response * Fdr.system :=
  match r with
  | GetBarometer =>
    if negb (Barometer.barometer_isReady (Fdr.baro w)) then (BarometerNotReady, w)
    else (BarometerReading (Barometer.barometer_getTemperature (Fdr.baro w))
                           (Barometer.barometer_getPressure (Fdr.baro w)), w)
  | FdrStart dur freq =>
    let d := match dur with Some v => u32 v | None => 180 end in
    let f := match freq with Some v => u32 v | None => 1 end in
    let w := snd (Fdr.fdr_start e d f w) in
    (Started d f (if f >? 0 then 1000 / f else 1000), w)
  | FdrStop => (Stopped, Fdr.fdr_stop e w)
  | FdrReset => (ResetDone, Fdr.fdr_reset e w)
  | FdrDownload =>
    let (res, w) := Fdr.fdr_streamFile e w in (Download (snd res), w)
  end.

Section Loop.

Variable snprintf_line : float -> float -> Fdr.bytes.

(** One pass of [loop()]: the sensor cycle, at most one request, the
    recorder cycle.  [e_req] and [e_rec] are the platform's answers during
    the request and during the recorder cycle. *)
Definition loop (bus : Barometer.Bus) (e_req : Fdr.env) (r : option request)
  (e_rec : Fdr.env) (w : Fdr.system) : option response * Fdr.system :=
  let w := Fdr.mkSystem (Fdr.rec w) (baro_cycle bus (Fdr.baro w)) (Fdr.led w) in
  let (resp, w) :=
    match r with
    | Some r => let (resp, w) := handle e_req r w in (Some resp, w)
    | None => (None, w)
    end in
  (resp, Fdr.fdr_process snprintf_line e_rec w).

End Loop.

(** The part of [setup()] that touches the modules: start-up blink, blue
    light, sensor probe, recorder initialisation. *)
Definition setup (bus : Barometer.Bus) : Fdr.system :=
  Fdr.fdr_init
    (Fdr.mkSystem Fdr.boot (Barometer.barometer_init bus Barometer.boot)
                  (Led.led_setBlue (Led.led_startupBlink 10 (Led.led_init)))).

End Main.

(* ====================================================================== *)
(** ** Notions used by the further properties *)

(** A store on which every flush goes through: it mounts, opens the file
    for appending and has room for a full buffer and one more line. *)
Definition store_takes_all (e : Fdr.env) : bool :=
  Fdr.spiffs_begin e false && Fdr.open_append e &&
  (Fdr.BUFFER_FLUSH_THRESHOLD + 63 <=? Fdr.write_room e).

(** The number of addresses of [addresses] that answer a probe, each
    asked after the probes before it. *)
Fixpoint answering (bus : Barometer.Bus) (log : list Barometer.bus_call)
  (addresses : list Z) : Z :=
  match addresses with
  | [] => 0
  | i :: rest =>
    (if Barometer.wire_ack bus log i then 1 else 0) +
    answering bus (log ++ [Barometer.WireProbe i]) rest
  end.

(** The profile of the driver object that is read. *)
Definition read_profile (s : Barometer.state) : Barometer.profile :=
  if Barometer.bmp_used s then Barometer.bmp s else Barometer.bme s.

(** What a mode switch leaves alone: the readings, the filter and the
    counter, the two flags, the device count, and the profile of the driver
    object that is not read. *)
Definition only_read_profile_differs (s s' : Barometer.state) : Prop :=
  same_readings s s' /\
  Barometer.bme_ok s' = Barometer.bme_ok s /\
  Barometer.bmp_used s' = Barometer.bmp_used s /\
  Barometer.deviceCount s' = Barometer.deviceCount s /\
  (if Barometer.bmp_used s
   then Barometer.bme s' = Barometer.bme s
   else Barometer.bmp s' = Barometer.bmp s).

(** The variables that only [fdr_start] and the sampling branch write. *)
Definition same_schedule (s s' : Fdr.state) : Prop :=
  Fdr.fdr_active s' = Fdr.fdr_active s /\
  Fdr.fdr_end_ms s' = Fdr.fdr_end_ms s /\
  Fdr.fdr_start_ms s' = Fdr.fdr_start_ms s /\
  Fdr.last_sample_ms s' = Fdr.last_sample_ms s /\
  Fdr.fdr_sample_interval_ms s' = Fdr.fdr_sample_interval_ms s.

(** The light shows green while a session is active and blue otherwise. *)
Definition light_matches (w : Fdr.system) : Prop :=
  Fdr.led w = if Fdr.fdr_active (Fdr.rec w) then (0, 255, 0) else (0, 0, 255).

(* ====================================================================== *)
(** * Properties of the float arithmetic *)

(** *** Powers of two and dyadic numbers *)

Lemma pow2_pos k : (0 < pow2 k)%Q.
Proof. apply Qpower_0_lt. reflexivity. Qed.

Lemma pow2_plus a b : (pow2 (a + b) == pow2 a * pow2 b)%Q.
Proof. apply Qpower_plus. discriminate. Qed.

Lemma pow2_nonneg k : 0 <= k -> (pow2 k == inject_Z (2 ^ k))%Q.
Proof. intros H. unfold pow2. rewrite Zpower_Qpower by assumption. reflexivity. Qed.

Lemma pow2_le a b : a <= b -> (pow2 a <= pow2 b)%Q.
Proof. intros H. apply Qpower_le_compat_l; [assumption | discriminate]. Qed.

Lemma dyadic_shift n j d : 0 <= d -> (dyadic n (j + d) == dyadic (n * 2 ^ d) j)%Q.
Proof.
  intros H. unfold dyadic. rewrite pow2_plus, (pow2_nonneg d H), inject_Z_mult. ring.
Qed.

Lemma dyadic_plus a b j : (dyadic a j + dyadic b j == dyadic (a + b) j)%Q.
Proof. unfold dyadic. rewrite inject_Z_plus. ring. Qed.

Lemma dyadic_0 j : (dyadic 0 j == 0)%Q.
Proof. unfold dyadic. ring. Qed.

Lemma dyadic_eq_0 n j : (dyadic n j == 0)%Q -> n = 0.
Proof.
  unfold dyadic. intros H.
  destruct (Qmult_integral _ _ H) as [H0 | H0].
  - unfold Qeq in H0. simpl in H0. lia.
  - pose proof (pow2_pos j) as Hp. rewrite H0 in Hp. inversion Hp.
Qed.

Lemma dyadic_div n j d :
  0 <= d -> (dyadic n j / pow2 (j + d) == inject_Z n / inject_Z (2 ^ d))%Q.
Proof.
  intros H. unfold dyadic. rewrite pow2_plus, (pow2_nonneg d H).
  pose proof (pow2_pos j) as Hj.
  assert (Hd : (0 < inject_Z (2 ^ d))%Q).
  { rewrite <- pow2_nonneg by assumption. apply pow2_pos. }
  field. split; intros E; [rewrite E in Hd; inversion Hd | rewrite E in Hj; inversion Hj].
Qed.

Lemma Qabs_dyadic n j : (Qabs (dyadic n j) == dyadic (Z.abs n) j)%Q.
Proof.
  unfold dyadic. rewrite Qabs_Qmult. rewrite (Qabs_pos (pow2 j)).
  - apply Qmult_comp; [|reflexivity].
    destruct n; reflexivity.
  - apply Qlt_le_weak, pow2_pos.
Qed.

Lemma dyadic_le a b j : (dyadic a j <= dyadic b j)%Q <-> a <= b.
Proof.
  unfold dyadic. pose proof (pow2_pos j) as Hj. split; intros H.
  - apply Qmult_le_r in H; [|assumption]. rewrite <- Zle_Qle in H. assumption.
  - apply Qmult_le_r; [assumption|]. rewrite <- Zle_Qle. assumption.
Qed.

Lemma dyadic_lt a b j : (dyadic a j < dyadic b j)%Q <-> a < b.
Proof.
  unfold dyadic. pose proof (pow2_pos j) as Hj. split; intros H.
  - apply Qmult_lt_r in H; [|assumption]. rewrite <- Zlt_Qlt in H. assumption.
  - apply Qmult_lt_r; [assumption|]. rewrite <- Zlt_Qlt. assumption.
Qed.

Lemma pow2_dyadic j e : 0 <= e -> (pow2 (j + e) == dyadic (2 ^ e) j)%Q.
Proof.
  intros H. unfold dyadic. rewrite pow2_plus, (pow2_nonneg e H). ring.
Qed.

(** *** Rounding to the nearest integer, ties to even *)


Lemma nearest_even_comp x y : (x == y)%Q -> nearest_even x = nearest_even y.
Proof.
  intros H. unfold nearest_even. rewrite (Qfloor_comp _ _ H).
  assert (E : (x - inject_Z (Qfloor y) ?= 1 # 2)%Q =
              (y - inject_Z (Qfloor y) ?= 1 # 2)%Q).
  { apply Qcompare_comp; [rewrite H|]; reflexivity. }
  rewrite E. reflexivity.
Qed.

Lemma nearest_even_quot N D : 0 < D -> nearest_even (inject_Z N / inject_Z D) = nearest_even_div N D.
Proof.
  intros HD. unfold nearest_even, nearest_even_div. rewrite <- Zdiv_Qdiv.
  assert (E : (inject_Z N / inject_Z D - inject_Z (N / D) ?= 1 # 2)%Q =
              (2 * (N mod D) ?= D)).
  { assert (Hq : (inject_Z N / inject_Z D - inject_Z (N / D) ==
                  inject_Z (N mod D) / inject_Z D)%Q).
    { rewrite (Z.div_mod N D) at 1 by lia.
      rewrite inject_Z_plus, inject_Z_mult.
      field. intros E. unfold Qeq in E. simpl in E. lia. }
    rewrite (Qcompare_comp _ _ Hq _ _ (Qeq_refl _)).
    unfold Qcompare, Qdiv, Qmult, Qinv, inject_Z. simpl.
    destruct D as [|p|p]; try lia. simpl.
    rewrite !Z.mul_1_r.
    rewrite (Z.mul_comm (N mod Z.pos p) 2). reflexivity. }
  rewrite E. reflexivity.
Qed.

Lemma nearest_even_div_spec N D :
  0 < D ->
  2 * Z.abs (D * nearest_even_div N D - N) <= D /\
  (2 * Z.abs (D * nearest_even_div N D - N) = D -> exists h, nearest_even_div N D = 2 * h).
Proof.
  intros HD. unfold nearest_even_div.
  pose proof (Z.div_mod N D ltac:(lia)) as Hdm.
  pose proof (Z.mod_pos_bound N D HD) as Hm.
  destruct (Z.compare_spec (2 * (N mod D)) D) as [E|E|E].
  - destruct (Z.even (N / D)) eqn:Ev.
    + split; [lia|]. intros _. apply Z.even_spec in Ev. destruct Ev as [h Hh].
      exists h. assumption.
    + split; [lia|]. intros _.
      rewrite <- Z.negb_odd in Ev. apply negb_false_iff in Ev.
      apply Z.odd_spec in Ev. destruct Ev as [h Hh]. exists (h + 1). lia.
  - split; [lia|]. intros. lia.
  - split; [lia|]. intros. lia.
Qed.

Lemma nearest_even_div_1 N : nearest_even_div N 1 = N.
Proof.
  unfold nearest_even_div. rewrite Z.mod_1_r, Z.div_1_r. reflexivity.
Qed.

(** *** The exponent search *)

Lemma exponent_from_found fuel :
  forall k k0 ax,
    k <= k0 -> k0 - k < Z.of_nat fuel ->
    (ax < pow2 (k0 + 24))%Q ->
    (forall j, k <= j < k0 -> (pow2 (j + 24) <= ax)%Q) ->
    exponent_from fuel k ax = Some k0.
Proof.
  induction fuel as [|fuel IH]; intros k k0 ax Hle Hfuel Hlt Hge; [simpl in Hfuel; lia|].
  cbn [exponent_from].
  destruct (Qle_bool (pow2 (k + 24)) ax) eqn:E.
  - apply Qle_bool_iff in E.
    assert (k <> k0). { intros ->. apply (Qlt_not_le _ _ Hlt E). }
    apply IH; try lia; try assumption.
    intros j Hj. apply Hge. lia.
  - destruct (Z.eq_dec k k0) as [->|Hne]; [reflexivity|].
    assert (Hk : (pow2 (k + 24) <= ax)%Q) by (apply Hge; lia).
    apply Qle_bool_iff in Hk. congruence.
Qed.

Lemma exponent_from_sound fuel :
  forall k k0 ax,
    exponent_from fuel k ax = Some k0 ->
    k <= k0 < k + Z.of_nat fuel /\
    (ax < pow2 (k0 + 24))%Q /\
    (k0 = k \/ (pow2 (k0 + 23) <= ax)%Q).
Proof.
  induction fuel as [|fuel IH]; intros k k0 ax H; [discriminate|].
  cbn [exponent_from] in H.
  destruct (Qle_bool (pow2 (k + 24)) ax) eqn:E.
  - apply IH in H. destruct H as (Hk & Hlt & Hor).
    split; [lia|]. split; [assumption|]. right.
    destruct Hor as [-> | Hor]; [|assumption].
    apply Qle_bool_iff in E. replace (k + 1 + 23) with (k + 24) by lia. assumption.
  - injection H as <-. split; [lia|]. split; [|left; reflexivity].
    apply Qnot_le_lt. intros Hc. apply Qle_bool_iff in Hc. congruence.
Qed.

Lemma exponent_from_comp fuel : forall k x y, (x == y)%Q -> exponent_from fuel k x = exponent_from fuel k y.
Proof.
  induction fuel as [|fuel IH]; intros k x y H; [reflexivity|].
  cbn [exponent_from]. rewrite (Qleb_comp _ _ (Qeq_refl _) _ _ H).
  rewrite (IH _ _ _ H). reflexivity.
Qed.

(** *** Rounding *)

Lemma Qneg_comp x y : (x == y)%Q -> Qneg x = Qneg y.
Proof. intros H. unfold Qneg. rewrite (Qleb_comp _ _ (Qeq_refl _) _ _ H). reflexivity. Qed.

Lemma round32_comp zs x y : (x == y)%Q -> round32 zs x = round32 zs y.
Proof.
  intros H. unfold round32.
  rewrite (Qeqb_comp _ _ H _ _ (Qeq_refl _)).
  rewrite (exponent_from_comp _ _ _ _ (Qabs_wd _ _ H)).
  rewrite (Qneg_comp _ _ H).
  destruct (Qeq_bool y 0); [reflexivity|].
  destruct (exponent_from 254 (-149) (Qabs y)) as [k|]; [|reflexivity].
  assert (E : nearest_even (x / pow2 k) = nearest_even (y / pow2 k)).
  { apply nearest_even_comp. rewrite H. reflexivity. }
  rewrite E. reflexivity.
Qed.

Lemma Qneg_dyadic n j : Qneg (dyadic n j) = (n <? 0).
Proof.
  unfold Qneg. destruct (Z.ltb_spec n 0) as [H|H].
  - apply negb_true_iff. destruct (Qle_bool 0 (dyadic n j)) eqn:E; [|reflexivity].
    apply Qle_bool_iff in E. rewrite <- (dyadic_0 j) in E. apply dyadic_le in E. lia.
  - apply negb_false_iff. apply Qle_bool_iff. rewrite <- (dyadic_0 j). apply dyadic_le. lia.
Qed.


(** Rounding the dyadic number [N 2^j] on the coarser grid [2^(j+d)]. *)
Lemma round32_dyadic zs N j d :
  0 <= d -> -149 <= j + d <= 104 -> N <> 0 ->
  Z.abs N < 2 ^ (24 + d) ->
  (j + d = -149 \/ 2 ^ (23 + d) <= Z.abs N) ->
  round32 zs (dyadic N j) = rounded (N <? 0) (nearest_even_div N (2 ^ d)) (j + d).
Proof.
  intros Hd Hk HN Hlt Hge. unfold round32, rounded.
  destruct (Qeq_bool (dyadic N j) 0) eqn:E0.
  { apply Qeq_bool_eq, dyadic_eq_0 in E0. contradiction. }
  rewrite (exponent_from_found 254 (-149) (j + d)); try lia.
  - rewrite (nearest_even_comp _ _ (dyadic_div N j d Hd)).
    rewrite nearest_even_quot by (apply Z.pow_pos_nonneg; lia).
    rewrite Qneg_dyadic. reflexivity.
  - rewrite Qabs_dyadic. replace (j + d + 24) with (j + (24 + d)) by lia.
    rewrite pow2_dyadic by lia. apply dyadic_lt. assumption.
  - intros i Hi. rewrite Qabs_dyadic.
    destruct Hge as [Hge|Hge]; [lia|].
    apply Qle_trans with (pow2 (j + (23 + d))).
    + apply pow2_le. lia.
    + rewrite pow2_dyadic by lia. apply dyadic_le. assumption.
Qed.

Lemma finite_zero s : finite (zero s) = Some 0%Q.
Proof. destruct s; reflexivity. Qed.

Lemma signbit_zero s : signbit (zero s) = s.
Proof. destruct s; reflexivity. Qed.

Lemma finite_rounded s m k :
  (Z.abs m < 2 ^ 24 \/ k < 104) ->
  exists q, finite (rounded s m k) = Some q /\ (q == dyadic m k)%Q.
Proof.
  intros H. unfold rounded.
  destruct (Z.eqb_spec m 0) as [->|Hm].
  - exists 0%Q. split; [apply finite_zero | symmetry; apply dyadic_0].
  - assert (E : (Z.abs m =? 2 ^ 24) && (k =? 104) = false).
    { apply andb_false_iff. destruct H; [left | right]; apply Z.eqb_neq; lia. }
    rewrite E. exists (Qred (dyadic m k)). split; [reflexivity | apply Qred_correct].
Qed.

Lemma rounded_num s m k :
  m <> 0 -> (Z.abs m < 2 ^ 24 \/ k < 104) ->
  rounded s m k = Num (Qred (dyadic m k)).
Proof.
  intros Hm H. unfold rounded.
  destruct (Z.eqb_spec m 0) as [->|_]; [contradiction|].
  assert (E : (Z.abs m =? 2 ^ 24) && (k =? 104) = false).
  { apply andb_false_iff. destruct H; [left | right]; apply Z.eqb_neq; lia. }
  rewrite E. reflexivity.
Qed.

(** A sum of two finite values on grids above [2^j0]. *)
Lemma fadd_finite x y a ka b kb j0 qa qb :
  finite x = Some qa -> (qa == dyadic a ka)%Q ->
  finite y = Some qb -> (qb == dyadic b kb)%Q ->
  j0 <= ka -> j0 <= kb ->
  fadd x y =
  round32 (signbit x && signbit y)
          (dyadic (a * 2 ^ (ka - j0) + b * 2 ^ (kb - j0)) j0).
Proof.
  intros Hx Ha Hy Hb Hka Hkb. unfold fadd. rewrite Hx, Hy.
  apply round32_comp. rewrite Ha, Hb.
  replace ka with (j0 + (ka - j0)) at 1 by lia.
  replace kb with (j0 + (kb - j0)) at 1 by lia.
  rewrite !dyadic_shift by lia. apply dyadic_plus.
Qed.

Lemma quarter_dyadic m k : ((1 # 4) * dyadic m k == dyadic m (k - 2))%Q.
Proof.
  unfold dyadic. replace k with ((k - 2) + 2) at 1 by lia.
  rewrite pow2_plus. change (pow2 2) with (4 # 1)%Q. field.
Qed.

Lemma three_quarters_dyadic m k : ((3 # 4) * dyadic m k == dyadic (3 * m) (k - 2))%Q.
Proof.
  unfold dyadic. replace k with ((k - 2) + 2) at 1 by lia.
  rewrite pow2_plus, inject_Z_mult. change (pow2 2) with (4 # 1)%Q.
  change (inject_Z 3) with (3 # 1)%Q. field.
Qed.

Ltac nearest_even_facts N D :=
  let H := fresh "Hr" in
  let Ht := fresh "Ht" in
  destruct (nearest_even_div_spec N D ltac:(lia)) as [H Ht];
  let r := fresh "r" in
  remember (nearest_even_div N D) as r;
  let T := fresh "T" in
  assert (T : 2 * Z.abs (D * r - N) < D \/ exists h, r = 2 * h)
    by (let E := fresh "Etie" in
        destruct (Z.eq_dec (2 * Z.abs (D * r - N)) D) as [E|E];
        [right; apply Ht; exact E | left; lia]);
  clear Ht.


Lemma fadd_rounded sa a ka sb b kb j0 ea eb S :
  (Z.abs a < 2 ^ 24 \/ ka < 104) -> (Z.abs b < 2 ^ 24 \/ kb < 104) ->
  0 <= ea -> 0 <= eb -> ka = j0 + ea -> kb = j0 + eb ->
  S = a * 2 ^ ea + b * 2 ^ eb ->
  exists zs, fadd (rounded sa a ka) (rounded sb b kb) = round32 zs (dyadic S j0).
Proof.
  intros Ha Hb Hea Heb Eka Ekb ES.
  destruct (finite_rounded sa a ka Ha) as (qa & Fa & Qa).
  destruct (finite_rounded sb b kb Hb) as (qb & Fb & Qb).
  eexists.
  rewrite (fadd_finite _ _ a ka b kb j0 qa qb Fa Qa Fb Qb) by lia.
  apply round32_comp.
  replace (ka - j0) with ea by lia. replace (kb - j0) with eb by lia.
  rewrite ES. reflexivity.
Qed.

Ltac pow_consts :=
  change (2 ^ 0) with 1 in *; change (2 ^ 1) with 2 in *;
  change (2 ^ 2) with 4 in *;
  change (2 ^ 23) with 8388608 in *; change (2 ^ 24) with 16777216 in *;
  change (2 ^ (23 + 0)) with 8388608 in *; change (2 ^ (24 + 0)) with 16777216 in *;
  change (2 ^ (23 + 1)) with 16777216 in *; change (2 ^ (24 + 1)) with 33554432 in *;
  change (2 ^ (23 + 2)) with 33554432 in *; change (2 ^ (24 + 2)) with 67108864 in *.

(** Integer facts about roundings: by cases on the ties and on the parity
    of the mantissa. *)
Ltac ties m :=
  let h := fresh "h" in
  let Hh := fresh "Hh" in
  destruct (Z.Even_or_Odd m) as [[h Hh]|[h Hh]];
  repeat match goal with
         | H : _ \/ (exists _, _) |- _ => destruct H as [H|[? H]]
         end;
  lia.

Lemma seed_dyadic s1 s2 m k :
  m <> 0 -> -149 <= k <= 104 -> Z.abs m < 2 ^ 24 ->
  (k = -149 \/ 2 ^ 23 <= Z.abs m) ->
  fadd (round32 s1 (dyadic m (k - 2))) (round32 s2 (dyadic (3 * m) (k - 2))) =
  Num (Qred (dyadic m k)).
Proof.
  intros Hm Hk Hlt Hc. pow_consts.
  destruct (Z.eq_dec k (-149)) as [K1|K1]; [|destruct (Z.eq_dec k (-148)) as [K2|K2]].
  - (* the lowest grid: both products are rounded on it *)
    rewrite (round32_dyadic s1 m (k - 2) 2) by (pow_consts; lia).
    rewrite (round32_dyadic s2 (3 * m) (k - 2) 2) by (pow_consts; lia).
    pow_consts.
    nearest_even_facts m 4. nearest_even_facts (3 * m) 4.
    destruct (fadd_rounded (m <? 0) r (k - 2 + 2) (3 * m <? 0) r0 (k - 2 + 2)
                (k - 2 + 2) 0 0 m) as [zs E]; try (pow_consts; lia).
    { pow_consts. clear Hc. ties m. }
    rewrite E.
    rewrite (round32_dyadic zs m (k - 2 + 2) 0) by (pow_consts; lia).
    pow_consts. rewrite nearest_even_div_1.
    replace (k - 2 + 2 + 0) with k by lia.
    apply rounded_num; [assumption | pow_consts; lia].
  - (* one grid above the lowest *)
    assert (Hn : 8388608 <= Z.abs m) by lia. clear Hc.
    rewrite (round32_dyadic s1 m (k - 2) 1) by (pow_consts; lia).
    pow_consts. nearest_even_facts m 2.
    destruct (Z_lt_ge_dec (Z.abs (3 * m)) 33554432) as [Hb|Hb].
    + rewrite (round32_dyadic s2 (3 * m) (k - 2) 1) by (pow_consts; lia).
      pow_consts. nearest_even_facts (3 * m) 2.
      destruct (fadd_rounded (m <? 0) r (k - 2 + 1) (3 * m <? 0) r0 (k - 2 + 1)
                  (k - 2 + 1) 0 0 (r + r0)) as [zs E]; try (pow_consts; lia).
      rewrite E.
      assert (ES : r + r0 = 2 * m) by ties m.
      rewrite ES.
      rewrite (round32_dyadic zs (2 * m) (k - 2 + 1) 1) by (pow_consts; lia).
      pow_consts. nearest_even_facts (2 * m) 2.
      replace r1 with m by lia.
      replace (k - 2 + 1 + 1) with k by lia.
      apply rounded_num; [assumption | pow_consts; lia].
    + rewrite (round32_dyadic s2 (3 * m) (k - 2) 2) by (pow_consts; lia).
      pow_consts. nearest_even_facts (3 * m) 4.
      destruct (fadd_rounded (m <? 0) r (k - 2 + 1) (3 * m <? 0) r0 (k - 2 + 2)
                  (k - 2 + 1) 0 1 (r + 2 * r0)) as [zs E]; try (pow_consts; lia).
      rewrite E.
      assert (ES : 2 * m - 1 <= r + 2 * r0 <= 2 * m + 1) by ties m.
      rewrite (round32_dyadic zs (r + 2 * r0) (k - 2 + 1) 1) by (pow_consts; lia).
      pow_consts. nearest_even_facts (r + 2 * r0) 2.
      replace r1 with m by ties m.
      replace (k - 2 + 1 + 1) with k by lia.
      apply rounded_num; [assumption | pow_consts; lia].
  - (* a quarter is exact *)
    assert (Hn : 8388608 <= Z.abs m) by lia. clear Hc.
    rewrite (round32_dyadic s1 m (k - 2) 0) by (pow_consts; lia).
    pow_consts. rewrite nearest_even_div_1.
    destruct (Z_lt_ge_dec (Z.abs (3 * m)) 33554432) as [Hb|Hb].
    + rewrite (round32_dyadic s2 (3 * m) (k - 2) 1) by (pow_consts; lia).
      pow_consts. nearest_even_facts (3 * m) 2.
      destruct (fadd_rounded (m <? 0) m (k - 2 + 0) (3 * m <? 0) r (k - 2 + 1)
                  (k - 2) 0 1 (m + 2 * r)) as [zs E]; try (pow_consts; lia).
      rewrite E.
      assert (ES : 4 * m - 1 <= m + 2 * r <= 4 * m + 1) by ties m.
      rewrite (round32_dyadic zs (m + 2 * r) (k - 2) 2) by (pow_consts; lia).
      pow_consts. nearest_even_facts (m + 2 * r) 4.
      replace r0 with m by ties m.
      replace (k - 2 + 2) with k by lia.
      apply rounded_num; [assumption | pow_consts; lia].
    + rewrite (round32_dyadic s2 (3 * m) (k - 2) 2) by (pow_consts; lia).
      pow_consts. nearest_even_facts (3 * m) 4.
      destruct (fadd_rounded (m <? 0) m (k - 2 + 0) (3 * m <? 0) r (k - 2 + 2)
                  (k - 2) 0 2 (m + 4 * r)) as [zs E]; try (pow_consts; lia).
      rewrite E.
      assert (ES : 4 * m - 2 <= m + 4 * r <= 4 * m + 2) by ties m.
      rewrite (round32_dyadic zs (m + 4 * r) (k - 2) 2) by (pow_consts; lia).
      pow_consts. nearest_even_facts (m + 4 * r) 4.
      replace r0 with m by ties m.
      replace (k - 2 + 2) with k by lia.
      apply rounded_num; [assumption | pow_consts; lia].
Qed.

Lemma feq_refl (x : float) : feq x x.
Proof. destruct x; simpl; try exact I; reflexivity. Qed.

Lemma nearest_even_floor x : nearest_even x = Qfloor x \/ nearest_even x = Qfloor x + 1.
Proof.
  unfold nearest_even. destruct (x - inject_Z (Qfloor x) ?= 1 # 2)%Q;
    [destruct (Z.even (Qfloor x))|..]; auto.
Qed.

Lemma nearest_even_le x (B : Z) : (x <= inject_Z B)%Q -> nearest_even x <= B.
Proof.
  intros H. pose proof (Qfloor_resp_le _ _ H) as Hf. rewrite Qfloor_Z in Hf.
  destruct (Z.eq_dec (Qfloor x) B) as [E|E].
  - assert (Hx : (x == inject_Z B)%Q).
    { apply Qle_antisym; [assumption|]. rewrite <- E. apply Qfloor_le. }
    rewrite (nearest_even_comp _ _ Hx). unfold nearest_even. rewrite Qfloor_Z.
    assert (Hc : (inject_Z B - inject_Z B ?= 1 # 2)%Q = Lt).
    { rewrite <- Qlt_alt. setoid_replace (inject_Z B - inject_Z B)%Q with 0%Q by ring.
      reflexivity. }
    rewrite Hc. lia.
  - destruct (nearest_even_floor x) as [-> | ->]; lia.
Qed.

Lemma nearest_even_ge x (B : Z) : (inject_Z B <= x)%Q -> B <= nearest_even x.
Proof.
  intros H. pose proof (Qfloor_resp_le _ _ H) as Hf. rewrite Qfloor_Z in Hf.
  destruct (nearest_even_floor x) as [-> | ->]; lia.
Qed.

Lemma Qdiv_pow2_le x (B : Z) k :
  (x <= dyadic B k)%Q -> (x / pow2 k <= inject_Z B)%Q.
Proof.
  intros H. pose proof (pow2_pos k) as Hp.
  apply Qle_shift_div_r; assumption.
Qed.

Lemma Qdiv_pow2_ge x (B : Z) k :
  (dyadic B k <= x)%Q -> (inject_Z B <= x / pow2 k)%Q.
Proof.
  intros H. pose proof (pow2_pos k) as Hp.
  apply Qle_shift_div_l; assumption.
Qed.

Lemma dyadic_opp n j : (dyadic (- n) j == - dyadic n j)%Q.
Proof. unfold dyadic. rewrite inject_Z_opp. ring. Qed.

(** Every result of a rounding is a binary32 value. *)
Lemma round32_binary32 zs x : binary32 (round32 zs x).
Proof.
  unfold round32.
  destruct (Qeq_bool x 0).
  { destruct zs; simpl; [exact I|].
    exists 0, (-149). split; [symmetry; apply dyadic_0 | lia]. }
  destruct (exponent_from 254 (-149) (Qabs x)) as [k|] eqn:G; [|exact I].
  apply exponent_from_sound in G. destruct G as (Hk & Hlt & Hge).
  set (m := nearest_even (x / pow2 k)).
  destruct (Z.eqb_spec m 0) as [E0|E0].
  { destruct (Qneg x); simpl; [exact I|].
    exists 0, (-149). split; [symmetry; apply dyadic_0 | lia]. }
  assert (Hup : Z.abs m <= 2 ^ 24).
  { rewrite (pow2_dyadic k 24) in Hlt by lia.
    apply Qabs_Qlt_condition in Hlt. destruct Hlt as [H1 H2].
    assert (Hm1 : m <= 2 ^ 24).
    { apply nearest_even_le, Qdiv_pow2_le, Qlt_le_weak. assumption. }
    assert (Hm2 : - 2 ^ 24 <= m).
    { apply nearest_even_ge, Qdiv_pow2_ge. rewrite dyadic_opp. apply Qlt_le_weak. assumption. }
    lia. }
  assert (Hlow : k = -149 \/ 2 ^ 23 <= Z.abs m).
  { destruct Hge as [Hge|Hge]; [left; assumption | right].
    rewrite (pow2_dyadic k 23) in Hge by lia.
    destruct (Qlt_le_dec x 0) as [Hx|Hx].
    - rewrite Qabs_neg in Hge by (apply Qlt_le_weak; assumption).
      assert (Hm : m <= - 2 ^ 23).
      { apply nearest_even_le, Qdiv_pow2_le. rewrite dyadic_opp.
        apply Qopp_le_compat in Hge. rewrite Qopp_involutive in Hge. assumption. }
      lia.
    - rewrite Qabs_pos in Hge by assumption.
      assert (Hm : 2 ^ 23 <= m) by (apply nearest_even_ge, Qdiv_pow2_ge; assumption).
      lia. }
  destruct ((Z.abs m =? 2 ^ 24) && (k =? 104)) eqn:Eo; [exact I|].
  apply andb_false_iff in Eo. cbn [binary32].
  destruct (Z.eq_dec (Z.abs m) (2 ^ 24)) as [Em|Em].
  - assert (k <> 104).
    { destruct Eo as [Eo|Eo]; apply Z.eqb_neq in Eo; [contradiction | assumption]. }
    exists (m / 2), (k + 1).
    split; [|pow_consts; clearbody m; Z.to_euclidean_division_equations; lia].
    rewrite Qred_correct, dyadic_shift by lia.
    change (2 ^ 1) with 2. replace (m / 2 * 2) with m; [reflexivity|].
    pow_consts. destruct (Z.abs_spec m) as [[_ H1]|[_ H1]]; rewrite Em in H1.
    + rewrite <- H1. reflexivity.
    + replace m with (- 16777216) by lia. reflexivity.
  - exists m, k. split; [apply Qred_correct|]. lia.
Qed.

Lemma three_quarters : fsub (Num 1) (Num (1 # 4)) = Num (3 # 4).
Proof. vm_compute. reflexivity. Qed.

Lemma Qneg_0 q : (q == 0)%Q -> Qneg q = false.
Proof. intros H. rewrite (Qneg_comp _ _ H). reflexivity. Qed.

(** On binary32 values a quarter plus three quarters is the value itself. *)
Lemma blend_same x :
  binary32 x ->
  feq (fadd (fmul (Num (1 # 4)) x) (fmul (Num (3 # 4)) x)) x.
Proof.
  destruct x as [|s| |q]; intros Hx.
  - exact I.
  - destruct s; reflexivity.
  - vm_compute. exact I.
  - destruct Hx as (m & k & Hq & Hk & Hm & Hc).
    unfold fmul. cbn [finite].
    destruct (Z.eq_dec m 0) as [E0|E0].
    + assert (H0 : (q == 0)%Q) by (rewrite Hq, E0; apply dyadic_0).
      assert (H1 : ((1 # 4) * q == 0)%Q) by (rewrite H0; reflexivity).
      assert (H3 : ((3 # 4) * q == 0)%Q) by (rewrite H0; reflexivity).
      rewrite (round32_comp _ _ _ H1), (round32_comp _ _ _ H3).
      cbn [signbit]. rewrite (Qneg_0 q H0).
      vm_compute. destruct q as [n d]. unfold Qeq in H0. simpl in H0.
      assert (n = 0) by lia. subst n. reflexivity.
    + assert (H1 : ((1 # 4) * q == dyadic m (k - 2))%Q)
        by (rewrite Hq; apply quarter_dyadic).
      assert (H3 : ((3 # 4) * q == dyadic (3 * m) (k - 2))%Q)
        by (rewrite Hq; apply three_quarters_dyadic).
      rewrite (round32_comp _ _ _ H1), (round32_comp _ _ _ H3).
      rewrite seed_dyadic by assumption.
      cbn [feq]. rewrite Qred_correct. symmetry. assumption.
Qed.

Lemma round32_not_nan zs x : isnan (round32 zs x) = false.
Proof.
  unfold round32. destruct (Qeq_bool x 0); [destruct zs; reflexivity|].
  destruct (exponent_from 254 (-149) (Qabs x)); [|reflexivity].
  destruct (_ =? 0); [destruct (Qneg x); reflexivity|].
  destruct (_ && _); reflexivity.
Qed.

Lemma fdiv_binary32 x y : binary32 (fdiv x y).
Proof.
  unfold fdiv.
  destruct (finite x) as [a|], (finite y) as [b|].
  - destruct (Qeq_bool b 0); [destruct (Qeq_bool a 0); exact I|].
    apply round32_binary32.
  - destruct (isnan y); [exact I|].
    destruct (xorb _ _); simpl; [exact I|].
    exists 0, (-149). split; [symmetry; apply dyadic_0 | lia].
  - destruct (isnan x); exact I.
  - exact I.
Qed.

(** A quarter of a binary32 number is a number. *)
Lemma quarter_number x :
  binary32 x -> isnumber x = true -> isnumber (fmul (Num (1 # 4)) x) = true.
Proof.
  destruct x as [|s| |q]; intros Hx Hn; try discriminate.
  - vm_compute. reflexivity.
  - destruct Hx as (m & k & Hq & Hk & Hm & Hc).
    unfold fmul. cbn [finite].
    destruct (Z.eq_dec m 0) as [E0|E0].
    + assert (H1 : ((1 # 4) * q == 0)%Q).
      { rewrite Hq, E0, dyadic_0. reflexivity. }
      rewrite (round32_comp _ _ _ H1). unfold round32. cbn [Qeq_bool].
      destruct (xorb _ _); reflexivity.
    + assert (H1 : ((1 # 4) * q == dyadic m (k - 2))%Q)
        by (rewrite Hq; apply quarter_dyadic).
      rewrite (round32_comp _ _ _ H1).
      assert (Hd : exists d, 0 <= d <= 2 /\ k - 2 + d = Z.max (k - 2) (-149)).
      { exists (Z.max (k - 2) (-149) - (k - 2)). lia. }
      destruct Hd as (d & Hd & Hmax).
      assert (Hd3 : d = 0 \/ d = 1 \/ d = 2) by lia.
      rewrite (round32_dyadic _ m (k - 2) d); try lia.
      * destruct (finite_rounded (m <? 0) (nearest_even_div m (2 ^ d)) (k - 2 + d))
          as (qa & Fa & _); [right; lia|].
        unfold isnumber. rewrite Fa. reflexivity.
      * destruct Hd3 as [-> | [-> | ->]]; pow_consts; lia.
      * destruct Hd3 as [-> | [-> | ->]]; pow_consts; lia.
Qed.

Lemma isnumber_not_nan x : isnumber x = true -> isnan x = false.
Proof. destruct x; [discriminate|reflexivity..]. Qed.

(** A product with a non-zero number is NaN only for a NaN factor. *)
Lemma fmul_defined c y :
  Qeq_bool c 0 = false -> isnan y = false -> isnan (fmul (Num c) y) = false.
Proof.
  intros Hc Hy. unfold fmul. cbn [finite].
  destruct y as [|s| |q]; cbn [finite]; try discriminate;
    try apply round32_not_nan.
  cbn [isnan orb iszero finite]. rewrite Hc. reflexivity.
Qed.

(** A sum with a number is NaN only for a NaN term. *)
Lemma fadd_defined x y :
  isnumber x = true -> isnan y = false -> isnan (fadd x y) = false.
Proof.
  unfold isnumber, fadd. intros Hx Hy.
  destruct (finite x) as [a|]; [|discriminate].
  destruct (finite y) as [b|] eqn:Fy; [apply round32_not_nan | exact Hy].
Qed.

(** On the sample values the operations are those of the Standard
    Library's specification of binary32. *)
Example operations_agree_with_SpecFloat :
  agree_on_samples fadd (SFadd 24 128) = true /\
  agree_on_samples fsub (SFsub 24 128) = true /\
  agree_on_samples fmul (SFmul 24 128) = true /\
  agree_on_samples fdiv (SFdiv 24 128) = true /\
  fle_agrees_on_samples = true.
Proof.
  split; [vm_compute; reflexivity|]. split; [vm_compute; reflexivity|].
  split; [vm_compute; reflexivity|]. split; vm_compute; reflexivity.
Qed.

(** The conversion of an elapsed time above 2^24 ms and the division of a
    reading by 100 are rounded. *)
Example conversions_round :
  (of_Z 32768001 == Num 32768000)%flt /\
  (Num 101301 / Num 100 == Num (16597156 # 16384))%flt.
Proof. split; vm_compute; reflexivity. Qed.

(* ====================================================================== *)
(** * Properties of the sensor side *)

Lemma baro_cycle_active bus s :
  Barometer.bme_ok s = true -> baro_cycle bus s = Barometer.read_cycle bus s.
Proof.
  intros Hok. unfold baro_cycle, Barometer.barometer_process.
  rewrite Hok. reflexivity.
Qed.

(** The two comparisons against the bounds of an interval. *)
Lemma fle_bounds x lo hi :
  fge x (Num lo) && fle x (Num hi) = true <->
  exists q, finite x = Some q /\ (lo <= q)%Q /\ (q <= hi)%Q.
Proof.
  unfold fge, fle. destruct x as [|s| |q]; cbn [finite].
  - split; [discriminate | intros (q & H & _); discriminate].
  - split; [destruct s; discriminate | intros (q & H & _); discriminate].
  - rewrite andb_true_iff, !Qle_bool_iff. split.
    + intros [H1 H2]. exists 0%Q. repeat split; assumption.
    + intros (q & H & H1 & H2). injection H as <-. split; assumption.
  - rewrite andb_true_iff, !Qle_bool_iff. split.
    + intros [H1 H2]. exists q. repeat split; assumption.
    + intros (q' & H & H1 & H2). injection H as <-. split; assumption.
Qed.

(** The boolean validation of the code decides [in_range]. *)
Lemma validate_in_range t p :
  Barometer.validateSensorReadings t p = true <-> in_range t p.
Proof.
  unfold Barometer.validateSensorReadings, in_range,
    Barometer.TEMPERATURE_MIN, Barometer.TEMPERATURE_MAX,
    Barometer.PRESSURE_MIN, Barometer.PRESSURE_MAX.
  rewrite andb_true_iff, !fle_bounds. split.
  - intros [(t' & Ht & H1 & H2) (p' & Hp & H3 & H4)].
    exists t', p'. repeat split; assumption.
  - intros (t' & p' & Ht & Hp & H1 & H2 & H3 & H4).
    split; [exists t' | exists p']; repeat split; assumption.
Qed.

Lemma validate_out_of_range t p :
  ~ in_range t p -> Barometer.validateSensorReadings t p = false.
Proof.
  intros H. destruct (Barometer.validateSensorReadings t p) eqn:E; [|reflexivity].
  exfalso. apply H, validate_in_range, E.
Qed.

(** A processed reading that is in range keeps the sensor and clears the
    counter. *)
Lemma read_cycle_in_range bus s :
  reading_in_range bus s ->
  Barometer.bad_read_count (Barometer.read_cycle bus s) = 0 /\
  Barometer.bme_ok (Barometer.read_cycle bus s) = Barometer.bme_ok s /\
  Barometer.bmp_used (Barometer.read_cycle bus s) = Barometer.bmp_used s.
Proof.
  intros H. apply validate_in_range in H. unfold Barometer.read_cycle.
  rewrite H. unfold Barometer.initializePressureEMA.
  destruct (isnan (Barometer.pressure_ema s)); simpl; auto.
Qed.

(** A processed reading that is out of range counts up, and gives the
    sensor up when the count reaches the maximum. *)
Lemma read_cycle_out_of_range bus s :
  ~ reading_in_range bus s ->
  let s' := Barometer.read_cycle bus s in
  (Barometer.bad_read_count s + 1 < Barometer.BAD_READS_MAX ->
   Barometer.bad_read_count s' = Barometer.bad_read_count s + 1 /\
   Barometer.bme_ok s' = Barometer.bme_ok s /\
   Barometer.bmp_used s' = Barometer.bmp_used s) /\
  (Barometer.bad_read_count s + 1 >= Barometer.BAD_READS_MAX ->
   Barometer.bad_read_count s' = 0 /\
   Barometer.bme_ok s' = false /\
   Barometer.bmp_used s' = false).
Proof.
  intros H. apply validate_out_of_range in H. unfold Barometer.read_cycle.
  rewrite H. unfold Barometer.initializePressureEMA.
  destruct (isnan (Barometer.pressure_ema s)); simpl;
    destruct (Z.geb_spec (Barometer.bad_read_count s + 1) Barometer.BAD_READS_MAX);
    simpl; split; intros; try lia; auto.
Qed.

Lemma sensor_state_flags s s' :
  Barometer.bme_ok s' = Barometer.bme_ok s ->
  Barometer.bmp_used s' = Barometer.bmp_used s ->
  sensor_state s' = sensor_state s.
Proof. unfold sensor_state. intros -> ->. reflexivity. Qed.

Lemma not_in_range_by_validation t p :
  Barometer.validateSensorReadings t p = false -> ~ in_range t p.
Proof.
  intros E H. apply validate_in_range in H. rewrite H in E. discriminate.
Qed.

(** *** The scan *)

Lemma scan_loop_other_addresses bus l :
  Forall (fun i => i <> Barometer.BME280_ADDRESS_PRIMARY) l ->
  forall rest count chipid s log,
  exists count',
    Barometer.scan_loop bus (l ++ rest) count chipid s log =
    Barometer.scan_loop bus rest count' chipid s (log ++ probes l).
Proof.
  induction 1 as [|i l Hi _ IH]; intros rest count chipid s log.
  - exists count. simpl. rewrite app_nil_r. reflexivity.
  - simpl. unfold Barometer.bind at 1, Barometer.call at 1.
    apply Z.eqb_neq in Hi. rewrite Hi. simpl.
    destruct (Barometer.wire_ack bus log i).
    + destruct (IH rest (u8 (count + 1)) chipid s
                  (log ++ [Barometer.WireProbe i])) as [c Hc].
      exists c. rewrite Hc, <- app_assoc. reflexivity.
    + destruct (IH rest count chipid s
                  (log ++ [Barometer.WireProbe i])) as [c Hc].
      exists c. rewrite Hc, <- app_assoc. reflexivity.
Qed.

Lemma scan_addresses_split :
  Barometer.scan_addresses =
  addresses_before_primary ++
  Barometer.BME280_ADDRESS_PRIMARY :: addresses_after_primary.
Proof. reflexivity. Qed.

Lemma addresses_before_primary_other :
  Forall (fun i => i <> Barometer.BME280_ADDRESS_PRIMARY) addresses_before_primary.
Proof.
  apply Forall_forall. intros i Hi.
  unfold addresses_before_primary in Hi. apply in_map_iff in Hi.
  destruct Hi as (n & <- & Hn). apply in_seq in Hn.
  unfold Barometer.BME280_ADDRESS_PRIMARY. lia.
Qed.

Lemma addresses_after_primary_other :
  Forall (fun i => i <> Barometer.BME280_ADDRESS_PRIMARY) addresses_after_primary.
Proof.
  apply Forall_forall. intros i Hi.
  unfold addresses_after_primary in Hi. apply in_map_iff in Hi.
  destruct Hi as (n & <- & Hn). apply in_seq in Hn.
  unfold Barometer.BME280_ADDRESS_PRIMARY. lia.
Qed.

(** The scan after the primary address has failed: the remaining
    addresses are probed and the flags stay as they are. *)
Lemma scan_loop_tail bus count chipid s log :
  exists count',
    Barometer.scan_loop bus addresses_after_primary count chipid s log =
    ((count', s), log ++ probes addresses_after_primary).
Proof.
  destruct (scan_loop_other_addresses bus addresses_after_primary
              addresses_after_primary_other [] count chipid s log) as [c Hc].
  exists c. rewrite app_nil_r in Hc. rewrite Hc. reflexivity.
Qed.

Lemma attemptBME280Init_run bus a s log :
  Barometer.attemptBME280Init bus a s log =
  (if Barometer.bme_begin bus log a
   then (true, Barometer.configureBME280HighPrecision
                 (Barometer.set_bmp_used false (Barometer.set_bme_ok true s)))
   else (false, s),
   log ++ [Barometer.BmeBegin a]).
Proof.
  unfold Barometer.attemptBME280Init, Barometer.bind, Barometer.call.
  destruct (Barometer.bme_begin bus log a); reflexivity.
Qed.

Lemma attemptBMP280Init_run bus a s log :
  Barometer.attemptBMP280Init bus a s log =
  (if Barometer.bmp_begin bus log a
   then (true, Barometer.configureBMP280HighPrecision
                 (Barometer.set_bmp_used true (Barometer.set_bme_ok true s)))
   else (false, s),
   log ++ [Barometer.BmpBegin a]).
Proof.
  unfold Barometer.attemptBMP280Init, Barometer.bind, Barometer.call.
  destruct (Barometer.bmp_begin bus log a); reflexivity.
Qed.

Lemma readChipID_run bus a chipid log :
  Barometer.readChipID bus a chipid log =
  (match Barometer.wire_read_id bus log a with
   | None => (false, chipid)
   | Some v => (true, u8 v)
   end,
   log ++ [Barometer.ChipIdRead a]).
Proof.
  unfold Barometer.readChipID, Barometer.bind, Barometer.call.
  destruct (Barometer.wire_read_id bus log a); reflexivity.
Qed.

(** Closes a branch of the scan once every call has been replaced by its
    answer. *)
Ltac close_scan :=
  cbv iota beta; cbn [fst snd started];
  rewrite ?app_nil_r, <- ?app_assoc; cbn [app];
  eexists; reflexivity.

Lemma scan_at_primary (bus : Barometer.Bus) (s : Barometer.state) :
  Barometer.bme_ok s = false ->
  Barometer.wire_ack bus (probes addresses_before_primary)
    Barometer.BME280_ADDRESS_PRIMARY = true ->
  let pre := probes (addresses_before_primary ++ [Barometer.BME280_ADDRESS_PRIMARY]) in
  exists count,
    Barometer.scanAndTryInit bus s [] =
    (Barometer.set_deviceCount count (started (snd (primary_attempts bus pre)) s),
     pre ++ fst (primary_attempts bus pre) ++
     match snd (primary_attempts bus pre) with
     | Some _ => []
     | None => probes addresses_after_primary
     end).
Proof.
  intros Hok Hack pre.
  set (P := Barometer.BME280_ADDRESS_PRIMARY) in *.
  set (S := Barometer.BME280_ADDRESS_SECONDARY).
  unfold Barometer.scanAndTryInit.
  rewrite scan_addresses_split.
  unfold Barometer.bind at 1.
  destruct (scan_loop_other_addresses bus addresses_before_primary
              addresses_before_primary_other
              (P :: addresses_after_primary) 0 0 s []) as [c0 Hc0].
  fold P. rewrite Hc0. clear Hc0.
  change ([] ++ probes addresses_before_primary)
    with (probes addresses_before_primary).
  assert (Hpre : pre = probes addresses_before_primary ++ [Barometer.WireProbe P]).
  { unfold pre, probes. rewrite map_app. reflexivity. }
  remember addresses_after_primary as tail eqn:Htail.
  remember (probes addresses_before_primary) as log0 eqn:Hlog0.
  clearbody pre.
  cbn [Barometer.scan_loop].
  unfold Barometer.bind, Barometer.call, Barometer.ret. cbv beta.
  rewrite Hack. fold P S.
  replace (P =? P) with true by (symmetry; apply Z.eqb_refl).
  rewrite Hok. cbn [andb negb].
  rewrite <- Hpre.
  unfold primary_attempts. fold P S.
  rewrite attemptBME280Init_run.
  destruct (Barometer.bme_begin bus pre P) eqn:E1.
  { close_scan. }
  cbv iota beta. rewrite readChipID_run.
  rewrite <- !app_assoc. cbn [app].
  set (id := Barometer.wire_read_id bus (pre ++ [Barometer.BmeBegin P]) P).
  clearbody id.
  assert (Hstep :
    forall chipid,
      chipid = match id with Some v => u8 v | None => 0 end ->
      (chipid =? Barometer.BME280_CHIP_ID) =
      match id with
      | Some v => u8 v =? Barometer.BME280_CHIP_ID
      | None => false
      end).
  { intros chipid ->. destruct id; reflexivity. }
  set (chipid := match id with Some v => u8 v | None => 0 end) in *.
  replace (match id with Some v => (true, u8 v) | None => (false, 0) end)
    with (match id with Some _ => true | None => false end, chipid)
    by (unfold chipid; destruct id; reflexivity).
  specialize (Hstep chipid eq_refl). clearbody chipid.
  cbv iota beta.
  rewrite attemptBME280Init_run.
  destruct (Barometer.bme_begin bus
              (pre ++ [Barometer.BmeBegin P; Barometer.ChipIdRead P]) P) eqn:E3.
  { close_scan. }
  cbv iota beta. rewrite attemptBME280Init_run.
  rewrite <- !app_assoc. cbn [app].
  destruct (Barometer.bme_begin bus
              (pre ++ [Barometer.BmeBegin P; Barometer.ChipIdRead P;
                       Barometer.BmeBegin P]) S) eqn:E4.
  { close_scan. }
  cbv iota beta. rewrite Hstep.
  destruct (scan_loop_tail bus (u8 (c0 + 1)) chipid s
              (pre ++ [Barometer.BmeBegin P; Barometer.ChipIdRead P;
                       Barometer.BmeBegin P; Barometer.BmeBegin S]))
    as [c4 Hc4].
  destruct (scan_loop_tail bus (u8 (c0 + 1)) chipid s
              (pre ++ [Barometer.BmeBegin P; Barometer.ChipIdRead P;
                       Barometer.BmeBegin P; Barometer.BmeBegin S;
                       Barometer.BmpBegin P]))
    as [c5 Hc5].
  rewrite <- Htail in Hc4, Hc5.
  destruct id as [v|].
  - destruct (u8 v =? Barometer.BME280_CHIP_ID).
    + rewrite attemptBMP280Init_run.
      rewrite <- !app_assoc. cbn [app].
      destruct (Barometer.bmp_begin bus
                  (pre ++ [Barometer.BmeBegin P; Barometer.ChipIdRead P;
                           Barometer.BmeBegin P; Barometer.BmeBegin S]) P) eqn:E5.
      * close_scan.
      * cbv iota beta. rewrite Hc5. close_scan.
    + rewrite Hc4. close_scan.
  - rewrite Hc4. close_scan.
Qed.

Lemma sensor_state_started d count s :
  Barometer.bme_ok s = false ->
  sensor_state (Barometer.set_deviceCount count (started d s)) =
  match d with Some v => Active v | None => Unconfigured end.
Proof.
  intros Hok. destruct d as [[|]|]; unfold sensor_state; simpl;
    try reflexivity.
  rewrite Hok. reflexivity.
Qed.

(** C6. A scan that finds the primary address answering while no sensor is
    active makes exactly the attempts of the specification there, in
    order and up to the first success: primary driver at the primary
    address, identity register, primary driver at the primary address
    again, primary driver at the secondary address, and the fallback
    driver at the primary address when the identity register held the
    expected value.  When attempts 1, 3 and 4 fail, the identity matches
    and attempt 5 succeeds, the state is Active with the fallback
    driver. *)
Theorem scan_primary_attempts (bus : Barometer.Bus) (s : Barometer.state) :
  Barometer.bme_ok s = false ->
  Barometer.wire_ack bus (probes addresses_before_primary)
    Barometer.BME280_ADDRESS_PRIMARY = true ->
  let P := Barometer.BME280_ADDRESS_PRIMARY in
  let S := Barometer.BME280_ADDRESS_SECONDARY in
  let pre := probes (addresses_before_primary ++ [P]) in
  let s' := fst (Barometer.scanAndTryInit bus s []) in
  let log := snd (Barometer.scanAndTryInit bus s []) in
  (log = pre ++ fst (primary_attempts bus pre) ++
         match snd (primary_attempts bus pre) with
         | Some _ => []
         | None => probes addresses_after_primary
         end /\
   sensor_state s' = match snd (primary_attempts bus pre) with
                     | Some d => Active d
                     | None => Unconfigured
                     end) /\
  (Barometer.bme_begin bus pre P = false ->
   (exists v, Barometer.wire_read_id bus (pre ++ [Barometer.BmeBegin P]) P = Some v /\
              u8 v = Barometer.BME280_CHIP_ID) ->
   Barometer.bme_begin bus
     (pre ++ [Barometer.BmeBegin P; Barometer.ChipIdRead P]) P = false ->
   Barometer.bme_begin bus
     (pre ++ [Barometer.BmeBegin P; Barometer.ChipIdRead P;
              Barometer.BmeBegin P]) S = false ->
   Barometer.bmp_begin bus
     (pre ++ [Barometer.BmeBegin P; Barometer.ChipIdRead P;
              Barometer.BmeBegin P; Barometer.BmeBegin S]) P = true ->
   log = pre ++ [Barometer.BmeBegin P; Barometer.ChipIdRead P;
                 Barometer.BmeBegin P; Barometer.BmeBegin S;
                 Barometer.BmpBegin P] /\
   sensor_state s' = Active Barometer.BMP280).
Proof.
  intros Hok Hack P S pre s' log.
  destruct (scan_at_primary bus s Hok Hack) as [count Hscan].
  fold P pre in Hscan.
  assert (Hgen :
    log = pre ++ fst (primary_attempts bus pre) ++
          match snd (primary_attempts bus pre) with
          | Some _ => []
          | None => probes addresses_after_primary
          end /\
    sensor_state s' = match snd (primary_attempts bus pre) with
                      | Some d => Active d
                      | None => Unconfigured
                      end).
  { subst s' log. rewrite Hscan. cbn [fst snd]. split; [reflexivity|].
    apply sensor_state_started. assumption. }
  split; [exact Hgen|].
  intros E1 (v & Eid & Ev) E3 E4 E5.
  destruct Hgen as [Hlog Hstate].
  assert (Hatt : primary_attempts bus pre =
                 ([Barometer.BmeBegin P; Barometer.ChipIdRead P;
                   Barometer.BmeBegin P; Barometer.BmeBegin S;
                   Barometer.BmpBegin P], Some Barometer.BMP280)).
  { unfold primary_attempts. fold P S. rewrite E1.
    rewrite <- !app_assoc. cbn [app]. rewrite E3, E4, Eid, Ev, Z.eqb_refl, E5.
    reflexivity. }
  rewrite Hatt in Hlog, Hstate. cbn [fst snd] in Hlog, Hstate.
  rewrite app_nil_r in Hlog. split; assumption.
Qed.

Lemma scan_primary_attempts_witness :
  snd (Barometer.scanAndTryInit bus_fallback Barometer.boot []) =
  probes (addresses_before_primary ++ [0x76]) ++
  [Barometer.BmeBegin 0x76; Barometer.ChipIdRead 0x76;
   Barometer.BmeBegin 0x76; Barometer.BmeBegin 0x77;
   Barometer.BmpBegin 0x76] /\
  sensor_state (fst (Barometer.scanAndTryInit bus_fallback Barometer.boot []))
  = Active Barometer.BMP280.
Proof.
  apply (scan_primary_attempts bus_fallback Barometer.boot);
    try reflexivity.
  exists 0x58. split; reflexivity.
Defined.

(** *** The smoothing filter *)

Lemma same_readings_refl s : same_readings s s.
Proof. repeat split. Qed.

Lemma scan_loop_same_readings bus l :
  forall count chipid s log,
    same_readings s (snd (fst (Barometer.scan_loop bus l count chipid s log))).
Proof.
  induction l as [|i l IH]; intros count chipid s log.
  - apply same_readings_refl.
  - cbn [Barometer.scan_loop].
    unfold Barometer.bind, Barometer.call, Barometer.ret. cbv beta.
    destruct (Barometer.wire_ack bus log i); [|apply IH].
    destruct ((i =? Barometer.BME280_ADDRESS_PRIMARY) &&
              negb (Barometer.bme_ok s)); [|apply IH].
    rewrite attemptBME280Init_run.
    destruct (Barometer.bme_begin bus _ _); [repeat split|].
    cbv iota beta. rewrite readChipID_run.
    destruct (Barometer.wire_read_id bus _ _); cbv iota beta;
      rewrite attemptBME280Init_run;
      (destruct (Barometer.bme_begin bus _ _); [repeat split|]);
      cbv iota beta; rewrite attemptBME280Init_run;
      (destruct (Barometer.bme_begin bus _ _); [repeat split|]);
      cbv iota beta;
      (destruct (_ =? Barometer.BME280_CHIP_ID); [|apply IH]);
      rewrite attemptBMP280Init_run;
      (destruct (Barometer.bmp_begin bus _ _); [repeat split|]);
      cbv iota beta; apply IH.
Qed.

Lemma scan_same_readings bus s log :
  same_readings s (fst (Barometer.scanAndTryInit bus s log)).
Proof.
  unfold Barometer.scanAndTryInit, Barometer.bind, Barometer.ret.
  pose proof (scan_loop_same_readings bus Barometer.scan_addresses 0 0 s log) as H.
  destruct (Barometer.scan_loop bus Barometer.scan_addresses 0 0 s log)
    as [[count s'] log'].
  exact H.
Qed.

Lemma baro_cycle_scanning bus s :
  Barometer.bme_ok s = false ->
  Barometer.pressure_ema (baro_cycle bus s) = Barometer.pressure_ema s.
Proof.
  intros Hok. unfold baro_cycle, Barometer.barometer_process.
  rewrite Hok. apply scan_same_readings.
Qed.

Lemma read_cycle_pressure_ema bus s :
  Barometer.pressure_ema (Barometer.read_cycle bus s) =
  ema_next (Barometer.pressure_ema s) (Barometer.read_raw_pressure bus s).
Proof.
  unfold Barometer.read_cycle, ema_next, Barometer.initializePressureEMA.
  destruct (isnan (Barometer.pressure_ema s)) eqn:En;
    destruct (Barometer.validateSensorReadings _ _); simpl;
    try destruct (_ >=? _); simpl; rewrite ?En; reflexivity.
Qed.

Lemma smoothing_trace_chain buses :
  forall s, ema_chain (Barometer.pressure_ema s) (smoothing_trace buses s).
Proof.
  induction buses as [|bus rest IH]; intros s; [exact I|].
  cbn [smoothing_trace].
  destruct (Barometer.bme_ok s) eqn:Hok.
  - cbn [ema_chain]. split.
    + rewrite baro_cycle_active by assumption. apply read_cycle_pressure_ema.
    + apply IH.
  - rewrite <- (baro_cycle_scanning bus s Hok). apply IH.
Qed.

Lemma ema_chain_consecutive tr :
  forall prev0 i raw sm rawp prev,
    ema_chain prev0 tr ->
    nth_error tr (S i) = Some (raw, sm) ->
    nth_error tr i = Some (rawp, prev) ->
    sm = ema_next prev raw /\ exists before, prev = ema_next before rawp.
Proof.
  induction tr as [|[r0 m0] tr IH]; intros prev0 i raw sm rawp prev Hc Hs Hi.
  - destruct i; discriminate.
  - destruct Hc as [Hm0 Hc]. destruct i as [|i].
    + cbn in Hi. injection Hi as <- <-.
      destruct tr as [|[r1 m1] tr]; [discriminate|].
      cbn in Hs. injection Hs as <- <-. destruct Hc as [Hm1 _].
      split; [assumption | exists prev0; assumption].
    + cbn [nth_error] in Hs, Hi.
      exact (IH m0 i raw sm rawp prev Hc Hs Hi).
Qed.

Lemma read_raw_pressure_binary32 bus s :
  binary32 (Barometer.read_raw_pressure bus s).
Proof. apply fdiv_binary32. Qed.

Lemma smoothing_trace_binary32 buses :
  forall s, Forall (fun p => binary32 (fst p)) (smoothing_trace buses s).
Proof.
  induction buses as [|bus rest IH]; intros s; [constructor|].
  cbn [smoothing_trace]. destruct (Barometer.bme_ok s); [|apply IH].
  constructor; [apply read_raw_pressure_binary32 | apply IH].
Qed.

(** The factor of the previous value: [1.0f - 0.25f] is 0.75. *)
Lemma one_minus_alpha :
  (Num 1 - Barometer.PRESSURE_EMA_ALPHA)%flt = Num (3 # 4).
Proof. exact three_quarters. Qed.

(** Seeding and blending give the raw value back: the products are
    rounded, and their sum rounds to the raw value. *)
Lemma ema_next_seed raw : binary32 raw -> (ema_next NaN raw == raw)%flt.
Proof.
  intros Hraw. unfold ema_next. cbn [isnan]. rewrite one_minus_alpha.
  apply blend_same, Hraw.
Qed.

Lemma ema_next_blend prev raw :
  isnan prev = false ->
  ema_next prev raw =
  (Barometer.PRESSURE_EMA_ALPHA * raw +
   (Num 1 - Barometer.PRESSURE_EMA_ALPHA) * prev)%flt.
Proof. unfold ema_next. intros ->. reflexivity. Qed.

(** A reading that is a number never makes the filter NaN. *)
Lemma ema_next_defined prev raw :
  binary32 raw -> isnumber raw = true -> isnan (ema_next prev raw) = false.
Proof.
  intros Hb Hn. unfold ema_next. rewrite one_minus_alpha.
  apply fadd_defined.
  - apply quarter_number; assumption.
  - apply fmul_defined; [reflexivity|].
    destruct (isnan prev) eqn:Ep; [apply isnumber_not_nan, Hn | exact Ep].
Qed.

Lemma ema_blend_value raw prev :
  ((Barometer.PRESSURE_EMA_ALPHA * raw +
    (Num 1 - Barometer.PRESSURE_EMA_ALPHA) * prev) ==
   (Num (1 # 4) * raw + Num (3 # 4) * prev))%flt.
Proof. rewrite one_minus_alpha. apply feq_refl. Qed.

(** C3, as the code has it, in the single-precision arithmetic of the
    code (every product and every sum rounded to the nearest float).  Over
    the readings processed while a sensor is active, starting with the
    filter undefined: the first smoothed value is the first raw value;
    each later one is 0.25 raw + 0.75 of the previous smoothed value when
    that one is not NaN; when the previous smoothed value is NaN, which
    only a reading that is not a number causes, the filter starts again
    from the current raw value.  For readings that are all numbers this is
    the recurrence of the specification. *)
Theorem ema_filter (buses : list Barometer.Bus) (s : Barometer.state) :
  Barometer.pressure_ema s = NaN ->
  let tr := smoothing_trace buses s in
  (forall raw sm, nth_error tr 0 = Some (raw, sm) -> (sm == raw)%flt) /\
  (forall i raw sm rawp prev,
     nth_error tr (S i) = Some (raw, sm) ->
     nth_error tr i = Some (rawp, prev) ->
     (isnan prev = false ->
      (sm == Num (1 # 4) * raw + Num (3 # 4) * prev)%flt) /\
     (isnan prev = true -> isnumber rawp = false /\ (sm == raw)%flt)) /\
  (Forall (fun p => isnumber (fst p) = true) tr -> ema_recurrence tr).
Proof.
  intros Hnan tr.
  pose proof (smoothing_trace_chain buses s) as Hchain.
  pose proof (smoothing_trace_binary32 buses s) as Hbin.
  fold tr in Hchain, Hbin. rewrite Hnan in Hchain.
  rewrite Forall_forall in Hbin.
  assert (Hfirst : forall raw sm,
             nth_error tr 0 = Some (raw, sm) -> (sm == raw)%flt).
  { intros raw sm H0.
    pose proof (Hbin _ (nth_error_In _ _ H0)) as Hraw. cbn [fst] in Hraw.
    destruct tr as [|[r0 m0] tr']; [discriminate|].
    cbn in H0. injection H0 as <- <-. destruct Hchain as [-> _].
    apply ema_next_seed, Hraw. }
  assert (Hlater : forall i raw sm rawp prev,
     nth_error tr (S i) = Some (raw, sm) ->
     nth_error tr i = Some (rawp, prev) ->
     (isnan prev = false ->
      (sm == Num (1 # 4) * raw + Num (3 # 4) * prev)%flt) /\
     (isnan prev = true -> isnumber rawp = false /\ (sm == raw)%flt)).
  { intros i raw sm rawp prev Hs Hi.
    pose proof (Hbin _ (nth_error_In _ _ Hs)) as Hraw. cbn [fst] in Hraw.
    pose proof (Hbin _ (nth_error_In _ _ Hi)) as Hrawp. cbn [fst] in Hrawp.
    destruct (ema_chain_consecutive tr NaN i raw sm rawp prev Hchain Hs Hi)
      as [Hsm [before Hprev]].
    split.
    - intros Hnum. rewrite Hsm, (ema_next_blend _ _ Hnum).
      apply ema_blend_value.
    - intros Hp. split.
      + destruct (isnumber rawp) eqn:En; [|reflexivity].
        rewrite Hprev, (ema_next_defined _ _ Hrawp En) in Hp. discriminate Hp.
      + destruct prev; try discriminate. rewrite Hsm.
        apply ema_next_seed, Hraw. }
  split; [exact Hfirst|]. split; [exact Hlater|].
  intros Hall. split; [exact Hfirst|].
  intros i raw sm rawp prev Hs Hi.
  destruct (Hlater i raw sm rawp prev Hs Hi) as [Hnum Hrestart].
  destruct (isnan prev) eqn:Ep; [|apply Hnum; reflexivity].
  destruct (Hrestart eq_refl) as [Hraw _].
  apply nth_error_In in Hi.
  rewrite Forall_forall in Hall. specialize (Hall _ Hi). cbn in Hall.
  congruence.
Qed.

(** Two readings, 1013.25 hPa and 1013.00 hPa, on a sensor that has just
    been found. *)
Lemma ema_filter_witness :
  Barometer.pressure_ema sensor_found = NaN /\
  ema_recurrence
    (smoothing_trace [bus_reading (Num 20) (Num 101325);
                      bus_reading (Num 20) (Num 101300)] sensor_found).
Proof.
  split; [reflexivity|].
  apply (ema_filter [bus_reading (Num 20) (Num 101325);
                     bus_reading (Num 20) (Num 101300)] sensor_found eq_refl).
  vm_compute. repeat constructor.
Defined.

(** C3 as stated fails in two ways.  When a reading is NaN, the reading
    after it seeds the filter again instead of being blended with the NaN
    before it.  And the recurrence does not hold in exact arithmetic: for
    the readings 101301 Pa and 101304 Pa the second smoothed value is the
    rounded sum of the rounded products, which is not
    0.25 raw + 0.75 smoothed. *)
Lemma ema_recurrence_counterexample :
  Barometer.pressure_ema sensor_found = NaN /\
  ~ ema_recurrence
      (smoothing_trace [bus_reading (Num 20) NaN;
                        bus_reading (Num 20) (Num 100000)] sensor_found) /\
  ~ exact_recurrence
      (smoothing_trace [bus_reading (Num 20) (Num 101301);
                        bus_reading (Num 20) (Num 101304)] sensor_found).
Proof.
  split; [reflexivity|]. split.
  - intros [_ H].
    specialize (H 0%nat _ _ _ _ eq_refl eq_refl). vm_compute in H. exact H.
  - intros H.
    remember (smoothing_trace [bus_reading (Num 20) (Num 101301);
                               bus_reading (Num 20) (Num 101304)] sensor_found)
      as tr eqn:E.
    vm_compute in E. subst tr.
    specialize (H 0%nat _ _ _ _ _ _ _ eq_refl eq_refl eq_refl eq_refl eq_refl).
    vm_compute in H. discriminate H.
Qed.

(** *** Life cycle of the smoothed pressure *)

Lemma baro_step_no_reading s o :
  processes_no_reading s o ->
  Barometer.pressure_ema (baro_step s o) = Barometer.pressure_ema s.
Proof.
  destruct o as [bus|bus|fast]; cbn [processes_no_reading baro_step].
  - intros _. unfold Barometer.barometer_init.
    destruct (Barometer.bme_begin bus [] Barometer.BME280_ADDRESS_PRIMARY);
      reflexivity.
  - apply baro_cycle_scanning.
  - intros _. unfold Barometer.barometer_setFastMode.
    destruct (Barometer.bme_ok s), (Barometer.bmp_used s), fast; reflexivity.
Qed.

Lemma baro_step_stays_defined s o :
  isnan (Barometer.pressure_ema s) = false ->
  (forall bus, o = BaroProcess bus -> Barometer.bme_ok s = true ->
               isnumber (Barometer.read_raw_pressure bus s) = true) ->
  isnan (Barometer.pressure_ema (baro_step s o)) = false.
Proof.
  intros Hdef Hnum.
  destruct o as [bus|bus|fast];
    try (rewrite baro_step_no_reading; [assumption | exact I]).
  destruct (Barometer.bme_ok s) eqn:Hok.
  - cbn [baro_step]. rewrite baro_cycle_active by assumption.
    rewrite read_cycle_pressure_ema.
    apply ema_next_defined; [apply read_raw_pressure_binary32|].
    apply (Hnum bus eq_refl eq_refl).
  - rewrite baro_step_no_reading; assumption.
Qed.

Lemma baro_run_stays_defined ops :
  forall s,
    isnan (Barometer.pressure_ema s) = false ->
    reads_numbers ops s ->
    isnan (Barometer.pressure_ema (baro_run ops s)) = false.
Proof.
  induction ops as [|o ops IH]; intros s Hdef Hnum; [assumption|].
  destruct Hnum as [Ho Hrest]. cbn [baro_run fold_left].
  apply IH; [|assumption].
  apply baro_step_stays_defined; [assumption|].
  intros bus -> Hok. apply Ho, Hok.
Qed.

(** C4, as the code has it.  The smoothed pressure is undefined at boot and
    stays as it is under every call that processes no reading, a scan
    included; a first reading that is in range initialises the filter to
    that raw value; and once it is defined it stays defined along every
    run whose readings are numbers, forced re-scans included. *)
Theorem smoothed_pressure_lifecycle :
  Barometer.pressure_ema Barometer.boot = NaN /\
  (forall s o, processes_no_reading s o ->
     Barometer.pressure_ema (baro_step s o) = Barometer.pressure_ema s) /\
  (forall s bus,
     Barometer.bme_ok s = true -> Barometer.pressure_ema s = NaN ->
     reading_in_range bus s ->
     (Barometer.pressure_ema (baro_cycle bus s)
      == Barometer.read_raw_pressure bus s)%flt) /\
  (forall ops s,
     isnan (Barometer.pressure_ema s) = false -> reads_numbers ops s ->
     isnan (Barometer.pressure_ema (baro_run ops s)) = false).
Proof.
  split; [reflexivity|]. split; [exact baro_step_no_reading|]. split.
  - intros s bus Hok Hnan _.
    rewrite baro_cycle_active by assumption.
    rewrite read_cycle_pressure_ema, Hnan.
    apply ema_next_seed, read_raw_pressure_binary32.
  - intros ops s. apply baro_run_stays_defined.
Qed.

(** Three readings of 2000 hPa on a sensor whose filter is already
    defined: the third forces the re-scan and the filter stays defined. *)
Lemma smoothed_pressure_lifecycle_witness :
  sensor_state
    (baro_run [BaroProcess (bus_reading (Num 20) (Num 200000));
               BaroProcess (bus_reading (Num 20) (Num 200000));
               BaroProcess (bus_reading (Num 20) (Num 200000))] sensor_ready)
  = Unconfigured /\
  isnan (Barometer.pressure_ema
           (baro_run [BaroProcess (bus_reading (Num 20) (Num 200000));
                      BaroProcess (bus_reading (Num 20) (Num 200000));
                      BaroProcess (bus_reading (Num 20) (Num 200000))]
              sensor_ready)) = false.
Proof.
  split; [reflexivity|].
  apply smoothed_pressure_lifecycle; [reflexivity|].
  cbn [reads_numbers]. repeat split; intros _; vm_compute; reflexivity.
Defined.

(** C4 as stated fails twice on one run.  On a sensor just found, with the
    filter undefined, a first reading of 2000 hPa is out of range and
    still initialises the filter; two more such readings force the
    re-scan, and the filter keeps its value. *)
Lemma smoothed_pressure_counterexample :
  Barometer.pressure_ema sensor_found = NaN /\
  ~ reading_in_range (bus_reading (Num 20) (Num 200000)) sensor_found /\
  (Barometer.pressure_ema
     (baro_cycle (bus_reading (Num 20) (Num 200000)) sensor_found)
   == Num 2000)%flt /\
  sensor_state
    (baro_run [BaroProcess (bus_reading (Num 20) (Num 200000));
               BaroProcess (bus_reading (Num 20) (Num 200000));
               BaroProcess (bus_reading (Num 20) (Num 200000))] sensor_found)
  = Unconfigured /\
  (Barometer.pressure_ema
     (baro_run [BaroProcess (bus_reading (Num 20) (Num 200000));
                BaroProcess (bus_reading (Num 20) (Num 200000));
                BaroProcess (bus_reading (Num 20) (Num 200000))] sensor_found)
   == Num 2000)%flt.
Proof.
  split; [reflexivity|]. split.
  { apply not_in_range_by_validation. vm_compute. reflexivity. }
  split; [vm_compute; reflexivity|].
  split; [reflexivity|]. vm_compute. reflexivity.
Qed.

(** *** The bad-read counter *)

Lemma baro_step_counter_inv s o : counter_inv s -> counter_inv (baro_step s o).
Proof.
  unfold counter_inv, Barometer.BAD_READS_MAX. intros [Hrange Hzero].
  destruct o as [bus|bus|fast]; cbn [baro_step].
  - unfold Barometer.barometer_init.
    destruct (Barometer.bme_begin bus [] Barometer.BME280_ADDRESS_PRIMARY);
      cbn; split; intros; lia || reflexivity || discriminate.
  - destruct (Barometer.bme_ok s) eqn:Hok.
    + rewrite baro_cycle_active by assumption.
      destruct (Barometer.validateSensorReadings
                  (Barometer.read_temperature bus s)
                  (Barometer.read_raw_pressure bus s)) eqn:Hv.
      * apply validate_in_range in Hv.
        destruct (read_cycle_in_range bus s Hv) as (Hc & Hb & _).
        rewrite Hc, Hb, Hok. split; [lia | discriminate].
      * apply not_in_range_by_validation in Hv.
        destruct (read_cycle_out_of_range bus s Hv) as [Hlt Hge].
        unfold Barometer.BAD_READS_MAX in Hlt, Hge.
        destruct (Z_lt_ge_dec (Barometer.bad_read_count s + 1) 3) as [H|H].
        -- destruct (Hlt H) as (Hc & Hb & _). rewrite Hc, Hb, Hok.
           split; [lia | discriminate].
        -- destruct (Hge H) as (Hc & _). rewrite Hc. split; [lia | reflexivity].
    + unfold baro_cycle, Barometer.barometer_process. rewrite Hok. cbn [negb].
      destruct (scan_same_readings bus s []) as (_ & _ & _ & Hc).
      rewrite Hc, (Hzero eq_refl). split; [lia | reflexivity].
  - unfold Barometer.barometer_setFastMode.
    destruct (Barometer.bme_ok s) eqn:Hok; cbn [negb];
      [|split; [assumption | intros _; apply Hzero; reflexivity]].
    destruct (Barometer.bmp_used s), fast; cbn; rewrite ?Hok;
      split; assumption || discriminate.
Qed.

Lemma baro_run_counter_inv ops :
  forall s, counter_inv s -> counter_inv (baro_run ops s).
Proof.
  induction ops as [|o ops IH]; intros s Hs; [exact Hs|].
  cbn [baro_run fold_left]. apply IH, baro_step_counter_inv, Hs.
Qed.

(** C5. With a sensor active: a reading in range
    (temperature in [-40, 85], pressure in [300, 1100]) sets the
    bad-read counter to 0; counting from 0, the third out-of-range reading
    in a row puts the state back to Unconfigured and sets the counter to
    0, the first two leave the sensor active; and two out-of-range
    readings followed by one in range leave the sensor active
    throughout.  The count is below the maximum in every state the
    module reaches, and it is 0 whenever no sensor is active, so a run of
    bad readings on a sensor just found counts from 0. *)
Theorem bad_read_counter (s : Barometer.state) (b1 b2 b3 : Barometer.Bus) :
  Barometer.bme_ok s = true ->
  let s1 := baro_cycle b1 s in
  let s2 := baro_cycle b2 s1 in
  let s3 := baro_cycle b3 s2 in
  (reading_in_range b1 s ->
   Barometer.bad_read_count s1 = 0 /\ sensor_state s1 = sensor_state s) /\
  (Barometer.bad_read_count s = 0 ->
   ~ reading_in_range b1 s -> ~ reading_in_range b2 s1 ->
   (sensor_state s1 = sensor_state s /\ sensor_state s2 = sensor_state s) /\
   (~ reading_in_range b3 s2 ->
    sensor_state s3 = Unconfigured /\ Barometer.bad_read_count s3 = 0) /\
   (reading_in_range b3 s2 ->
    sensor_state s3 = sensor_state s /\ Barometer.bad_read_count s3 = 0)) /\
  (forall ops, counter_inv (baro_run ops Barometer.boot)).
Proof.
  intros Hok s1 s2 s3.
  split; [|split; [|intros ops; apply baro_run_counter_inv; split;
                    [unfold Barometer.BAD_READS_MAX; cbn; lia | reflexivity]]].
  - intros Hin. subst s1. rewrite baro_cycle_active by assumption.
    destruct (read_cycle_in_range b1 s Hin) as (Hc & Hb & Hu).
    split; [assumption | apply sensor_state_flags; assumption].
  - intros Hzero Hbad1 Hbad2.
    assert (E1 : s1 = Barometer.read_cycle b1 s)
      by (apply baro_cycle_active; assumption).
    destruct (read_cycle_out_of_range b1 s Hbad1) as [Hlt1 _].
    destruct Hlt1 as (Hc1 & Hb1 & Hu1);
      [rewrite Hzero; unfold Barometer.BAD_READS_MAX; lia|].
    rewrite <- E1 in Hc1, Hb1, Hu1.
    assert (Hok1 : Barometer.bme_ok s1 = true) by congruence.
    assert (E2 : s2 = Barometer.read_cycle b2 s1)
      by (apply baro_cycle_active; assumption).
    destruct (read_cycle_out_of_range b2 s1 Hbad2) as [Hlt2 _].
    destruct Hlt2 as (Hc2 & Hb2 & Hu2);
      [rewrite Hc1, Hzero; unfold Barometer.BAD_READS_MAX; lia|].
    rewrite <- E2 in Hc2, Hb2, Hu2.
    assert (Hok2 : Barometer.bme_ok s2 = true) by congruence.
    assert (E3 : s3 = Barometer.read_cycle b3 s2)
      by (apply baro_cycle_active; assumption).
    assert (S1 : sensor_state s1 = sensor_state s)
      by (apply sensor_state_flags; assumption).
    assert (S2 : sensor_state s2 = sensor_state s)
      by (rewrite <- S1; apply sensor_state_flags; assumption).
    repeat split; try assumption.
    + destruct (read_cycle_out_of_range b3 s2 H) as [_ Hge].
      destruct Hge as (Hc3 & Hb3 & Hu3);
        [rewrite Hc2, Hc1, Hzero; unfold Barometer.BAD_READS_MAX; lia|].
      rewrite <- E3 in Hb3. unfold sensor_state. rewrite Hb3. reflexivity.
    + destruct (read_cycle_out_of_range b3 s2 H) as [_ Hge].
      destruct Hge as (Hc3 & Hb3 & Hu3);
        [rewrite Hc2, Hc1, Hzero; unfold Barometer.BAD_READS_MAX; lia|].
      rewrite E3. assumption.
    + destruct (read_cycle_in_range b3 s2 H) as (Hc3 & Hb3 & Hu3).
      rewrite <- E3 in Hb3, Hu3. rewrite <- S2.
      apply sensor_state_flags; assumption.
    + destruct (read_cycle_in_range b3 s2 H) as (Hc3 & Hb3 & Hu3).
      rewrite E3. assumption.
Qed.

(** Three readings of 2000 hPa in a row on the ready sensor of the
    examples. *)
Lemma bad_read_counter_witness :
  Barometer.bme_ok sensor_ready = true /\
  sensor_state
    (baro_cycle (bus_reading (Num 20) (Num 200000))
       (baro_cycle (bus_reading (Num 20) (Num 200000))
          (baro_cycle (bus_reading (Num 20) (Num 200000)) sensor_ready)))
  = Unconfigured.
Proof.
  split; [reflexivity|].
  destruct (bad_read_counter sensor_ready
              (bus_reading (Num 20) (Num 200000))
              (bus_reading (Num 20) (Num 200000))
              (bus_reading (Num 20) (Num 200000)) eq_refl) as (_ & H & _).
  destruct H as (_ & H & _).
  - reflexivity.
  - apply not_in_range_by_validation. vm_compute. reflexivity.
  - apply not_in_range_by_validation. vm_compute. reflexivity.
  - apply H. apply not_in_range_by_validation. vm_compute. reflexivity.
Defined.

(* ====================================================================== *)
(** * Properties of the recorder *)

Lemma file_write_room e b :
  0 <= Fdr.write_room e <= Fdr.blen b -> Fdr.file_write e b = Fdr.write_room e.
Proof. unfold Fdr.file_write. lia. Qed.

Lemma file_write_bounds e b : 0 <= Fdr.file_write e b <= Fdr.blen b.
Proof. unfold Fdr.file_write, Fdr.blen. lia. Qed.

Lemma skipn_blen (b : Fdr.bytes) : skipn (Z.to_nat (Fdr.blen b)) b = [].
Proof. unfold Fdr.blen. rewrite Nat2Z.id. apply skipn_all. Qed.

(** The buffer after the write is the buffer before it without the bytes
    the store took. *)
Lemma write_and_trim_buffer e s :
  Fdr.fdr_write_buffer (Fdr.write_and_trim e s) =
  skipn (Z.to_nat (Fdr.file_write e (Fdr.fdr_write_buffer s)))
        (Fdr.fdr_write_buffer s).
Proof.
  unfold Fdr.write_and_trim.
  pose proof (file_write_bounds e (Fdr.fdr_write_buffer s)) as Hb.
  set (w := Fdr.file_write e (Fdr.fdr_write_buffer s)) in *.
  cbn [Fdr.fdr_write_buffer Fdr.set_flash].
  destruct (Z.eqb_spec w (Fdr.blen (Fdr.fdr_write_buffer s))) as [E|E].
  - cbn. rewrite E, skipn_blen. reflexivity.
  - destruct (Z.gtb_spec w 0); destruct (Z.ltb_spec w (Fdr.blen (Fdr.fdr_write_buffer s)));
      cbn; try reflexivity; try lia.
    replace w with 0 by lia. reflexivity.
Qed.

Lemma write_and_trim_flash e s :
  Fdr.flash (Fdr.write_and_trim e s) =
  Fdr.store_append (Fdr.file_write e (Fdr.fdr_write_buffer s))
    (Fdr.fdr_write_buffer s) (Fdr.flash s).
Proof.
  unfold Fdr.write_and_trim.
  destruct (_ =? _); [reflexivity|]. destruct (_ && _); reflexivity.
Qed.

(** C1. For every buffer content and every count [w] of bytes that the
    write of a flush takes, [0 <= w <= length], the buffer after
    [flushBufferToFile] is the buffer before it from index [w] on: what
    the store took and what stays buffered make up the buffer, once.  A
    flush that writes nothing, because the store takes nothing or because
    mounting or opening fails, leaves the buffer as it is, and a flush of
    an empty buffer changes nothing. *)
Theorem flush_keeps_unwritten_suffix (e : Fdr.env) (s : Fdr.state) (w : Z) :
  0 <= w <= Fdr.blen (Fdr.fdr_write_buffer s) ->
  Fdr.write_room e = w ->
  let b := Fdr.fdr_write_buffer s in
  let s' := Fdr.flushBufferToFile e s in
  (write_reached e s = true ->
   Fdr.fdr_write_buffer s' = skipn (Z.to_nat w) b /\
   firstn (Z.to_nat w) b ++ Fdr.fdr_write_buffer s' = b /\
   (Fdr.fdr_file s = true ->
    Fdr.flash s' = Fdr.store_append w b (Fdr.flash s))) /\
  (write_reached e s = false ->
   Fdr.fdr_write_buffer s' = b /\ Fdr.flash s' = Fdr.flash s) /\
  (w = 0 -> Fdr.fdr_write_buffer s' = b) /\
  (b = [] -> s' = s).
Proof.
  intros Hw Hroom b s'.
  assert (Hfw : Fdr.file_write e b = w).
  { subst b. rewrite file_write_room; lia. }
  assert (Hreached : write_reached e s = true ->
                     Fdr.fdr_write_buffer s' = skipn (Z.to_nat w) b /\
                     (Fdr.fdr_file s = true ->
                      Fdr.flash s' = Fdr.store_append w b (Fdr.flash s))).
  { unfold write_reached. subst s'. unfold Fdr.flushBufferToFile. fold b.
    destruct (Fdr.blen b =? 0); [discriminate|]. cbn [negb andb].
    destruct (Fdr.fdr_file s) eqn:Hfile; cbn [negb orb].
    - intros _. rewrite write_and_trim_buffer, write_and_trim_flash. fold b.
      rewrite Hfw. split; [reflexivity | intros _; reflexivity].
    - unfold Fdr.ensureSpiffs, Fdr.openFdrFileForAppend.
      destruct (Fdr.spiffs_mounted s) eqn:Hm; cbn [fst negb andb];
        [|destruct (Fdr.spiffs_begin e false); cbn [fst negb andb];
          [|cbn [Fdr.spiffs_mounted Fdr.set_spiffs_mounted];
            destruct (Fdr.spiffs_begin e true); cbn [fst negb andb];
            [|discriminate]]];
        cbn [Fdr.fdr_file Fdr.set_spiffs_mounted]; rewrite Hfile; cbn [negb];
        (destruct (Fdr.open_append e); [|discriminate]); intros _;
        (split; [|discriminate]);
        destruct (Fdr.spiffs_exists _);
        cbn [Fdr.fdr_file Fdr.set_fdr_file negb];
        rewrite write_and_trim_buffer; cbn [Fdr.fdr_write_buffer
          Fdr.set_fdr_file Fdr.set_flash Fdr.set_spiffs_mounted];
        fold b; rewrite Hfw; reflexivity. }
  assert (Hnot : write_reached e s = false ->
                 Fdr.fdr_write_buffer s' = b /\ Fdr.flash s' = Fdr.flash s).
  { unfold write_reached. subst s'. unfold Fdr.flushBufferToFile. fold b.
    destruct (Fdr.blen b =? 0); [intros _; split; reflexivity|].
    cbn [negb andb].
    destruct (Fdr.fdr_file s) eqn:Hfile; cbn [negb orb]; [discriminate|].
    unfold Fdr.ensureSpiffs, Fdr.openFdrFileForAppend.
    destruct (Fdr.spiffs_mounted s) eqn:Hm; cbn [fst negb andb];
      [|destruct (Fdr.spiffs_begin e false); cbn [fst negb andb];
        [|cbn [Fdr.spiffs_mounted Fdr.set_spiffs_mounted];
          destruct (Fdr.spiffs_begin e true); cbn [fst negb andb];
          [|intros _; split; reflexivity]]];
      cbn [Fdr.fdr_file Fdr.set_spiffs_mounted]; rewrite Hfile; cbn [negb];
      (destruct (Fdr.open_append e); [discriminate|]); intros _;
      cbn [Fdr.fdr_file Fdr.set_fdr_file negb]; split; reflexivity. }
  split; [|split; [exact Hnot|split]].
  - intros Hr. destruct (Hreached Hr) as [Hbuf Hflash].
    split; [exact Hbuf|]. split; [|exact Hflash].
    rewrite Hbuf. apply firstn_skipn.
  - intros ->. destruct (write_reached e s) eqn:Hr.
    + destruct (Hreached eq_refl) as [H _]. exact H.
    + destruct (Hnot eq_refl) as [H _]. exact H.
  - intros Hb. subst s'. unfold Fdr.flushBufferToFile. fold b. rewrite Hb.
    reflexivity.
Qed.

Lemma flush_keeps_unwritten_suffix_witness :
  Fdr.fdr_write_buffer (Fdr.rec one_sample_buffered) =
    list_byte_of_string "0.100,1013.25" ++ [x0a] /\
  Fdr.fdr_write_buffer
    (Fdr.flushBufferToFile (env_room 1200 5) (Fdr.rec one_sample_buffered)) =
    list_byte_of_string ",1013.25" ++ [x0a] /\
  Fdr.flash
    (Fdr.flushBufferToFile (env_room 1200 5) (Fdr.rec one_sample_buffered)) =
    Some (Fdr.header ++ list_byte_of_string "0.100").
Proof.
  split; [reflexivity|].
  destruct (flush_keeps_unwritten_suffix (env_room 1200 5)
              (Fdr.rec one_sample_buffered) 5) as [H _].
  - vm_compute. split; discriminate.
  - reflexivity.
  - destruct (H eq_refl) as (Hbuf & _ & Hflash).
    split; [exact Hbuf | exact (Hflash eq_refl)].
Defined.

(** *** Starting a session *)

Lemma effective_rate_bounds n : 0 <= n -> 1 <= effective_rate n <= 50.
Proof.
  unfold effective_rate. intros Hn.
  destruct (Z.eqb_spec n 0); [lia|]. destruct (Z.gtb_spec n 50); lia.
Qed.

Lemma effective_rate_bounds_any n :
  effective_rate n <> 0 /\ effective_rate n <= 50.
Proof.
  unfold effective_rate.
  destruct (Z.eqb_spec n 0); [lia|]. destruct (Z.gtb_spec n 50); lia.
Qed.

Lemma fdr_start_effective_rate e d n w :
  Fdr.fdr_start e d n w = Fdr.fdr_start e d (effective_rate n) w.
Proof.
  unfold Fdr.fdr_start, effective_rate, Fdr.MAX_SAMPLES_PER_SEC.
  destruct (Fdr.ensureSpiffs e (Fdr.rec w)) as [mounted s].
  destruct mounted; [|reflexivity]. cbn [negb].
  destruct (Z.eqb_spec n 0) as [->|Hn]; [reflexivity|].
  destruct (Z.gtb_spec n 50) as [Hgt|Hle]; cbn.
  - reflexivity.
  - destruct (Z.eqb_spec n 0); [lia|].
    destruct (Z.gtb_spec n 50); [lia|]. reflexivity.
Qed.

Lemma ensureSpiffs_result e s :
  Fdr.ensureSpiffs e s =
  (Fdr.spiffs_mounted s || Fdr.spiffs_begin e false || Fdr.spiffs_begin e true,
   Fdr.set_spiffs_mounted
     (Fdr.spiffs_mounted s || Fdr.spiffs_begin e false || Fdr.spiffs_begin e true) s).
Proof.
  unfold Fdr.ensureSpiffs. destruct s as [a en st ls iv m f buf lf fl]. cbn.
  destruct m; [reflexivity|]. destruct (Fdr.spiffs_begin e false); reflexivity.
Qed.

Lemma ensureSpiffs_fst e s : fst (Fdr.ensureSpiffs e s) = store_mounts e s.
Proof. rewrite ensureSpiffs_result. reflexivity. Qed.

Lemma ensureSpiffs_mounted e s :
  fst (Fdr.ensureSpiffs e s) = true ->
  Fdr.ensureSpiffs e s = (true, Fdr.set_spiffs_mounted true s).
Proof.
  unfold Fdr.ensureSpiffs. destruct s as [a en st ls iv m f buf lf fl].
  cbn. destruct m; [reflexivity|].
  destruct (Fdr.spiffs_begin e false); [reflexivity|].
  cbn. destruct (Fdr.spiffs_begin e true); [reflexivity | discriminate].
Qed.

(** A store with room for the header line takes all of it. *)
Lemma takes_header_all e : takes_header e = true -> header_taken e = Fdr.header.
Proof.
  unfold takes_header, header_taken, Fdr.file_write, Fdr.eol_write. intros H.
  apply andb_true_iff in H. destruct H as [H1 H2]. apply Z.leb_le in H1, H2.
  replace (Z.max 0 (Z.min (Fdr.write_room e) (Fdr.blen Fdr.header_text)))
    with (Fdr.blen Fdr.header_text) by (unfold Fdr.blen in *; lia).
  replace (Z.max 0 (Z.min (Fdr.eol_room e) (Fdr.blen Fdr.line_terminator)))
    with (Fdr.blen Fdr.line_terminator) by (unfold Fdr.blen in *; lia).
  unfold Fdr.blen. rewrite !Nat2Z.id, !firstn_all. reflexivity.
Qed.

(** What [openFdrFileForWrite] returns and leaves behind: the new file
    holds what the store took of the header line. *)
Lemma openFdrFileForWrite_result e s :
  Fdr.openFdrFileForWrite e s =
  (Fdr.open_write e,
   Fdr.set_flash (if Fdr.open_write e then Some (header_taken e) else None)
     (Fdr.set_fdr_file (Fdr.open_write e) s)).
Proof.
  unfold Fdr.openFdrFileForWrite, Fdr.closeFdrFileIfOpen,
    Fdr.spiffs_remove_if_exists, Fdr.spiffs_exists, Fdr.file_println,
    Fdr.store_append, header_taken.
  destruct s as [a en st ls iv m f buf lf fl].
  destruct f, fl, (Fdr.open_write e); reflexivity.
Qed.

(** The whole result of a start whose mount and file creation succeed. *)
Lemma fdr_start_success e d n w :
  fst (Fdr.ensureSpiffs e (Fdr.rec w)) = true ->
  Fdr.open_write e = true ->
  Fdr.fdr_start e d n w =
  (true,
   Fdr.mkSystem
     (Fdr.mkState true (u32 (Fdr.millis_later e + u32 (d * 1000)))
        (Fdr.millis_later e) 0 (1000 / effective_rate n) true true []
        (Fdr.millis e) (Some (header_taken e)))
     (Barometer.barometer_setFastMode true (Fdr.baro w))
     (Led.led_setColor 0 255 0 (Fdr.led w))).
Proof.
  intros Hm Ho. rewrite fdr_start_effective_rate.
  pose proof (effective_rate_bounds_any n) as Hr.
  unfold Fdr.fdr_start. rewrite (ensureSpiffs_mounted _ _ Hm). cbn [negb].
  rewrite openFdrFileForWrite_result, Ho. cbn [negb].
  destruct (Z.eqb_spec (effective_rate n) 0); [lia|].
  unfold Fdr.MAX_SAMPLES_PER_SEC.
  destruct (Z.gtb_spec (effective_rate n) 50); [lia|].
  reflexivity.
Qed.

Lemma fdr_start_interval e d n w :
  fst (Fdr.ensureSpiffs e (Fdr.rec w)) = true ->
  Fdr.fdr_sample_interval_ms (Fdr.rec (snd (Fdr.fdr_start e d n w))) =
  1000 / effective_rate n.
Proof.
  intros Hm. rewrite fdr_start_effective_rate.
  pose proof (effective_rate_bounds_any n) as Hr.
  unfold Fdr.fdr_start. rewrite (ensureSpiffs_mounted _ _ Hm). cbn [negb].
  rewrite openFdrFileForWrite_result.
  destruct (Z.eqb_spec (effective_rate n) 0); [lia|].
  unfold Fdr.MAX_SAMPLES_PER_SEC.
  destruct (Z.gtb_spec (effective_rate n) 50); [lia|].
  destruct (Fdr.open_write e); reflexivity.
Qed.

(** C7. For every [samples_per_second] given to start: 0 behaves as 1, a
    value above 50 behaves as 50, and for a value in [1, 50] the sample
    interval is [1000 / samples_per_second] in truncating integer
    division (the store being mounted, without which start does
    nothing). *)
Theorem start_sample_rate (e : Fdr.env) (d n : Z) (w : Fdr.system) :
  0 <= n < 2 ^ 32 ->
  (n = 0 -> Fdr.fdr_start e d n w = Fdr.fdr_start e d 1 w) /\
  (n > 50 -> Fdr.fdr_start e d n w = Fdr.fdr_start e d 50 w) /\
  (1 <= n <= 50 ->
   fst (Fdr.ensureSpiffs e (Fdr.rec w)) = true ->
   Fdr.fdr_sample_interval_ms (Fdr.rec (snd (Fdr.fdr_start e d n w))) =
     Z.quot 1000 n).
Proof.
  intros Hn. repeat split.
  - intros ->. reflexivity.
  - intros Hgt. rewrite fdr_start_effective_rate.
    unfold effective_rate. destruct (Z.eqb_spec n 0); [lia|].
    destruct (Z.gtb_spec n 50); [reflexivity | lia].
  - intros Hr Hm. rewrite fdr_start_interval by assumption.
    unfold effective_rate. destruct (Z.eqb_spec n 0); [lia|].
    destruct (Z.gtb_spec n 50); [lia|].
    symmetry. apply Z.quot_div_nonneg; lia.
Qed.

Lemma start_sample_rate_witness :
  Fdr.fdr_sample_interval_ms
    (Fdr.rec (snd (Fdr.fdr_start (env_at 1000) 2 30 idle_system))) = 33 /\
  Fdr.fdr_start (env_at 1000) 2 0 idle_system =
    Fdr.fdr_start (env_at 1000) 2 1 idle_system /\
  Fdr.fdr_start (env_at 1000) 2 51 idle_system =
    Fdr.fdr_start (env_at 1000) 2 50 idle_system.
Proof.
  split; [|split].
  - destruct (start_sample_rate (env_at 1000) 2 30 idle_system) as (_ & _ & H);
      [lia|]. apply H; [lia | reflexivity].
  - destruct (start_sample_rate (env_at 1000) 2 0 idle_system) as (H & _);
      [lia|]. apply H. reflexivity.
  - destruct (start_sample_rate (env_at 1000) 2 51 idle_system) as (_ & H & _);
      [lia|]. apply H. lia.
Defined.

(** C10, as the code has it.  A start issued while a session is active
    does not stop or flush that session: whenever the store can be mounted
    and the file can be created it returns true, whatever the recorder
    held before; the file is replaced by what the store takes of the
    header line, which is the header line when the store has room for it,
    so the bytes that were buffered are gone; the buffer is empty, and the
    recorder is active with the times and the interval of the new
    call. *)
Theorem start_while_active (e : Fdr.env) (d n : Z) (w : Fdr.system) :
  Fdr.fdr_active (Fdr.rec w) = true ->
  store_mounts e (Fdr.rec w) = true ->
  Fdr.open_write e = true ->
  let r := Fdr.fdr_start e d n w in
  let s' := Fdr.rec (snd r) in
  fst r = true /\
  Fdr.flash s' = Some (header_taken e) /\
  (takes_header e = true -> Fdr.flash s' = Some Fdr.header) /\
  Fdr.fdr_write_buffer s' = [] /\
  Fdr.fdr_active s' = true /\
  Fdr.fdr_file s' = true /\
  Fdr.fdr_sample_interval_ms s' = 1000 / effective_rate n /\
  Fdr.fdr_start_ms s' = Fdr.millis_later e /\
  Fdr.fdr_end_ms s' = u32 (Fdr.millis_later e + u32 (d * 1000)) /\
  Fdr.last_sample_ms s' = 0 /\
  Fdr.last_flush_ms s' = Fdr.millis e /\
  (forall w0, Fdr.baro w0 = Fdr.baro w -> Fdr.led w0 = Fdr.led w ->
              store_mounts e (Fdr.rec w0) = true ->
              Fdr.fdr_start e d n w0 = r).
Proof.
  intros _ Hm Ho r s'. subst s' r. rewrite <- ensureSpiffs_fst in Hm.
  rewrite (fdr_start_success e d n w Hm Ho). cbn [fst snd Fdr.rec Fdr.flash].
  split; [reflexivity|]. split; [reflexivity|].
  split; [intros Ht; rewrite (takes_header_all e Ht); reflexivity|].
  repeat (split; [reflexivity|]).
  intros w0 Hb Hl Hm0. rewrite <- ensureSpiffs_fst in Hm0.
  rewrite (fdr_start_success e d n w0 Hm0 Ho), Hb, Hl. reflexivity.
Qed.

Lemma start_while_active_witness :
  Fdr.fdr_write_buffer (Fdr.rec one_sample_buffered) =
    list_byte_of_string "0.100,1013.25" ++ [x0a] /\
  fst (Fdr.fdr_start (env_at 1200) 5 20 one_sample_buffered) = true /\
  Fdr.flash (Fdr.rec (snd (Fdr.fdr_start (env_at 1200) 5 20 one_sample_buffered)))
    = Some Fdr.header /\
  Fdr.fdr_write_buffer
    (Fdr.rec (snd (Fdr.fdr_start (env_at 1200) 5 20 one_sample_buffered))) = [].
Proof.
  split; [reflexivity|].
  destruct (start_while_active (env_at 1200) 5 20 one_sample_buffered)
    as (H1 & _ & H2 & H3 & _); try reflexivity.
  split; [exact H1|]. split; [exact (H2 eq_refl) | exact H3].
Defined.

(** C10 as stated fails on a store that creates the file and then takes
    no byte: the start returns true and the file is cut to nothing, with
    no header in it. *)
Lemma start_while_active_counterexample :
  Fdr.fdr_active (Fdr.rec one_sample_buffered) = true /\
  store_mounts (env_room 1200 0) (Fdr.rec one_sample_buffered) = true /\
  Fdr.open_write (env_room 1200 0) = true /\
  fst (Fdr.fdr_start (env_room 1200 0) 5 20 one_sample_buffered) = true /\
  Fdr.flash
    (Fdr.rec (snd (Fdr.fdr_start (env_room 1200 0) 5 20 one_sample_buffered)))
  = Some [] /\
  Fdr.header <> [].
Proof.
  repeat (split; [vm_compute; reflexivity|]). discriminate.
Qed.

(** *** Export *)

Lemma ensureSpiffs_flash e s :
  Fdr.flash (snd (Fdr.ensureSpiffs e s)) = Fdr.flash s /\
  Fdr.fdr_write_buffer (snd (Fdr.ensureSpiffs e s)) = Fdr.fdr_write_buffer s /\
  Fdr.fdr_active (snd (Fdr.ensureSpiffs e s)) = Fdr.fdr_active s /\
  Fdr.fdr_file (snd (Fdr.ensureSpiffs e s)) = Fdr.fdr_file s.
Proof.
  unfold Fdr.ensureSpiffs. destruct (Fdr.spiffs_mounted s); [repeat split|].
  destruct (Fdr.spiffs_begin e false); repeat split.
Qed.

(** A flush never removes the file nor the bytes already in it. *)
Lemma flush_extends_file e s c :
  Fdr.flash s = Some c ->
  exists more, Fdr.flash (Fdr.flushBufferToFile e s) = Some (c ++ more).
Proof.
  intros Hc. unfold Fdr.flushBufferToFile.
  destruct (Fdr.blen (Fdr.fdr_write_buffer s) =? 0).
  { exists []. rewrite app_nil_r. assumption. }
  assert (Hw : forall s1, Fdr.flash s1 = Some c ->
             exists more, Fdr.flash (Fdr.write_and_trim e s1) = Some (c ++ more)).
  { intros s1 H1. rewrite write_and_trim_flash, H1. cbn. eexists. reflexivity. }
  destruct (Fdr.fdr_file s) eqn:Hfile; cbn [negb]; [apply Hw, Hc|].
  destruct (ensureSpiffs_flash e s) as (Hf & _ & _ & Hh).
  destruct (Fdr.ensureSpiffs e s) as [mounted s1]. cbn [snd] in Hf, Hh.
  destruct mounted; cbn [negb];
    [|exists []; rewrite app_nil_r, Hf; exact Hc].
  unfold Fdr.openFdrFileForAppend, Fdr.spiffs_exists.
  rewrite Hh, Hfile. cbn [negb]. rewrite Hf, Hc.
  destruct (Fdr.open_append e); cbn [Fdr.fdr_file Fdr.set_fdr_file negb].
  - apply Hw. cbn. rewrite Hf. exact Hc.
  - exists []. rewrite app_nil_r. cbn. rewrite Hf. exact Hc.
Qed.

Lemma streamFile_unfold e w :
  fst (Fdr.ensureSpiffs e (Fdr.rec w)) = true ->
  forall c, Fdr.flash (Fdr.rec w) = Some c ->
  let s0 := snd (Fdr.ensureSpiffs e (Fdr.rec w)) in
  let s1 := if Fdr.fdr_active s0 && (Fdr.blen (Fdr.fdr_write_buffer s0) >? 0)
            then Fdr.flushBufferToFile e s0 else s0 in
  fst (Fdr.fdr_streamFile e w) =
  match (if Fdr.open_read e then Fdr.flash s1 else None) with
  | None => (false, IoError)
  | Some content => (true, Fdr.StreamFile content)
  end.
Proof.
  intros Hm c Hc s0 s1. unfold Fdr.fdr_streamFile.
  destruct (ensureSpiffs_flash e (Fdr.rec w)) as (Hf & _).
  subst s1 s0.
  destruct (Fdr.ensureSpiffs e (Fdr.rec w)) as [mounted s0].
  cbn [fst snd] in *. subst mounted. cbn [negb].
  unfold Fdr.spiffs_exists. rewrite Hf, Hc. cbn [negb].
  destruct (if Fdr.open_read e then _ else None); reflexivity.
Qed.

Lemma set_spiffs_mounted_same s :
  Fdr.set_spiffs_mounted (Fdr.spiffs_mounted s) s = s.
Proof. destruct s; reflexivity. Qed.

Lemma set_rec_same w : Fdr.set_rec (Fdr.rec w) w = w.
Proof. destruct w; reflexivity. Qed.

Lemma streamFile_result e w :
  Fdr.fdr_streamFile e w =
  if negb (store_mounts e (Fdr.rec w)) then
    ((false, StorageUnavailable),
     Fdr.set_rec (Fdr.set_spiffs_mounted false (Fdr.rec w)) w)
  else
    match Fdr.flash (Fdr.rec w) with
    | None =>
      ((false, NoData), Fdr.set_rec (Fdr.set_spiffs_mounted true (Fdr.rec w)) w)
    | Some _ =>
      let s' := after_export e (Fdr.rec w) in
      match (if Fdr.open_read e then Fdr.flash s' else None) with
      | None => ((false, IoError), Fdr.set_rec s' w)
      | Some content => ((true, Fdr.StreamFile content), Fdr.set_rec s' w)
      end
    end.
Proof.
  unfold Fdr.fdr_streamFile, after_export. rewrite ensureSpiffs_result.
  fold (store_mounts e (Fdr.rec w)).
  destruct (store_mounts e (Fdr.rec w)); cbn [negb]; [|reflexivity].
  unfold Fdr.spiffs_exists.
  cbn [Fdr.flash Fdr.set_spiffs_mounted Fdr.fdr_active Fdr.fdr_write_buffer].
  destruct (Fdr.flash (Fdr.rec w)); reflexivity.
Qed.

(** The state and the file after the flush of an export, through the open
    handle of a running session. *)
Lemma after_export_open e s c :
  Fdr.fdr_active s = true -> Fdr.fdr_file s = true -> Fdr.flash s = Some c ->
  let buf := Fdr.fdr_write_buffer s in
  Fdr.flash (after_export e s) =
    Some (c ++ firstn (Z.to_nat (Fdr.file_write e buf)) buf) /\
  Fdr.fdr_write_buffer (after_export e s) =
    skipn (Z.to_nat (Fdr.file_write e buf)) buf.
Proof.
  intros Hact Hfile Hc buf. unfold after_export. rewrite Hact. cbn [andb].
  fold buf.
  destruct (Z.gtb_spec (Fdr.blen buf) 0) as [Hpos|Hzero].
  - unfold Fdr.flushBufferToFile.
    cbn [Fdr.fdr_write_buffer Fdr.set_spiffs_mounted Fdr.fdr_file]. fold buf.
    destruct (Z.eqb_spec (Fdr.blen buf) 0); [lia|].
    rewrite Hfile. cbn [negb].
    rewrite write_and_trim_flash, write_and_trim_buffer.
    cbn [Fdr.fdr_write_buffer Fdr.set_spiffs_mounted Fdr.flash]. fold buf.
    rewrite Hc. split; reflexivity.
  - assert (buf = []) as Hnil.
    { destruct buf; [reflexivity|]. unfold Fdr.blen in Hzero.
      cbn in Hzero. lia. }
    cbn [Fdr.flash Fdr.fdr_write_buffer Fdr.set_spiffs_mounted]. fold buf.
    rewrite Hc, Hnil, firstn_nil, skipn_nil, app_nil_r. split; reflexivity.
Qed.

(** C9, as the code has it.  [fdr_streamFile] answers StorageUnavailable
    when the store cannot be mounted, NoData when there is no file, IoError
    when the file cannot be opened for reading, and otherwise streams the
    whole file.  With a session active and bytes buffered the buffer is
    flushed first: the recorder is left as that flush leaves it, the file
    and the streamed content end with the buffered bytes that the store
    took, and the bytes it did not take stay in the buffer.  When the store
    has room for the whole buffer the content ends with every buffered
    line and the buffer is empty. *)
Theorem export_outcomes (e : Fdr.env) (w : Fdr.system) :
  let r := fst (Fdr.fdr_streamFile e w) in
  let w' := snd (Fdr.fdr_streamFile e w) in
  let s := Fdr.rec w in
  let buf := Fdr.fdr_write_buffer s in
  Fdr.baro w' = Fdr.baro w /\ Fdr.led w' = Fdr.led w /\
  (store_mounts e s = false -> r = (false, StorageUnavailable) /\ w' = w) /\
  (store_mounts e s = true ->
   (Fdr.flash s = None ->
    r = (false, NoData) /\ Fdr.rec w' = Fdr.set_spiffs_mounted true s) /\
   (forall c, Fdr.flash s = Some c ->
      let s' := after_export e s in
      Fdr.rec w' = s' /\
      (Fdr.open_read e = false -> r = (false, IoError)) /\
      (Fdr.open_read e = true ->
       exists content,
         Fdr.flash s' = Some content /\ r = (true, Fdr.StreamFile content)) /\
      (Fdr.fdr_active s = false ->
       s' = Fdr.set_spiffs_mounted true s /\
       (Fdr.open_read e = true -> r = (true, Fdr.StreamFile c))) /\
      (Fdr.fdr_active s = true -> Fdr.fdr_file s = true ->
       Fdr.flash s' = Some (c ++ firstn (Z.to_nat (Fdr.file_write e buf)) buf) /\
       Fdr.fdr_write_buffer s' = skipn (Z.to_nat (Fdr.file_write e buf)) buf /\
       (Fdr.open_read e = true ->
        r = (true, Fdr.StreamFile
                     (c ++ firstn (Z.to_nat (Fdr.file_write e buf)) buf))) /\
       (Fdr.blen buf <= Fdr.write_room e ->
        Fdr.flash s' = Some (c ++ buf) /\ Fdr.fdr_write_buffer s' = [] /\
        (Fdr.open_read e = true -> r = (true, Fdr.StreamFile (c ++ buf))))))).
Proof.
  intros r w' s buf. subst r w'. rewrite streamFile_result. fold s.
  split; [|split; [|split]].
  - destruct (store_mounts e s); cbn [negb]; [|reflexivity].
    destruct (Fdr.flash s); [|reflexivity].
    cbv zeta. destruct (if Fdr.open_read e then _ else None); reflexivity.
  - destruct (store_mounts e s); cbn [negb]; [|reflexivity].
    destruct (Fdr.flash s); [|reflexivity].
    cbv zeta. destruct (if Fdr.open_read e then _ else None); reflexivity.
  - intros Hm. rewrite Hm. cbn [negb fst snd]. split; [reflexivity|].
    unfold store_mounts in Hm.
    apply orb_false_iff in Hm. destruct Hm as [Hm _].
    apply orb_false_iff in Hm. destruct Hm as [Hm _].
    subst s. rewrite <- Hm. rewrite set_spiffs_mounted_same. apply set_rec_same.
  - intros Hm. rewrite Hm. cbn [negb]. split.
    + intros ->. split; reflexivity.
    + intros c Hc. rewrite Hc. remember (after_export e s) as s' eqn:Es'.
      assert (Hrec : Fdr.rec
                (snd match (if Fdr.open_read e then Fdr.flash s' else None) with
                     | Some content =>
                       (true, Fdr.StreamFile content, Fdr.set_rec s' w)
                     | None => (false, IoError, Fdr.set_rec s' w)
                     end) = s').
      { destruct (if Fdr.open_read e then _ else None); reflexivity. }
      split; [exact Hrec|].
      assert (Hfile : exists content, Fdr.flash s' = Some content).
      { rewrite Es'. unfold after_export.
        destruct (Fdr.fdr_active s && _).
        - destruct (flush_extends_file e (Fdr.set_spiffs_mounted true s) c Hc)
            as [more Hmore].
          exists (c ++ more). exact Hmore.
        - exists c. exact Hc. }
      destruct Hfile as [content Hcontent].
      assert (Hread : Fdr.open_read e = true ->
                fst match (if Fdr.open_read e then Fdr.flash s' else None) with
                    | Some content =>
                      (true, Fdr.StreamFile content, Fdr.set_rec s' w)
                    | None => (false, IoError, Fdr.set_rec s' w)
                    end = (true, Fdr.StreamFile content)).
      { intros ->. rewrite Hcontent. reflexivity. }
      split; [intros ->; reflexivity|].
      split; [intros Ho; exists content; split; [exact Hcontent | exact (Hread Ho)]|].
      split.
      * intros Hidle.
        assert (Hs' : s' = Fdr.set_spiffs_mounted true s).
        { rewrite Es'. unfold after_export. rewrite Hidle. reflexivity. }
        split; [exact Hs'|]. intros Ho. rewrite (Hread Ho).
        rewrite Hs' in Hcontent. cbn in Hcontent. congruence.
      * intros Hact Hopen.
        destruct (after_export_open e s c Hact Hopen Hc) as [Hf Hb].
        fold buf in Hf, Hb. rewrite <- Es' in Hf, Hb.
        split; [exact Hf|]. split; [exact Hb|]. split.
        { intros Ho. rewrite (Hread Ho). congruence. }
        intros Hroom.
        assert (Hn : Z.to_nat (Fdr.file_write e buf) = List.length buf).
        { unfold Fdr.file_write.
          replace (Z.max 0 (Z.min (Fdr.write_room e) (Fdr.blen buf)))
            with (Fdr.blen buf) by (unfold Fdr.blen in *; lia).
          unfold Fdr.blen. apply Nat2Z.id. }
        rewrite Hn, firstn_all in Hf. rewrite Hn, skipn_all in Hb.
        split; [exact Hf|]. split; [exact Hb|].
        intros Ho. rewrite (Hread Ho). congruence.
Qed.

(** *** The persisted file during a session *)

Lemma write_and_trim_flags e s :
  Fdr.fdr_active (Fdr.write_and_trim e s) = Fdr.fdr_active s /\
  Fdr.fdr_file (Fdr.write_and_trim e s) = Fdr.fdr_file s.
Proof.
  unfold Fdr.write_and_trim.
  destruct (_ =? _); [split; reflexivity|]. destruct (_ && _); split; reflexivity.
Qed.

Lemma write_and_trim_well_formed e s lines :
  file_well_formed lines s -> file_well_formed lines (Fdr.write_and_trim e s).
Proof.
  intros (written & Hflash & Hcat).
  exists (written ++ firstn (Z.to_nat (Fdr.file_write e (Fdr.fdr_write_buffer s)))
                       (Fdr.fdr_write_buffer s)).
  rewrite write_and_trim_flash, write_and_trim_buffer, Hflash. split.
  - unfold Fdr.store_append. rewrite <- app_assoc. reflexivity.
  - rewrite <- app_assoc, firstn_skipn. exact Hcat.
Qed.

(** A flush through the open handle keeps the session as it is. *)
Lemma flush_open_session e s lines :
  Fdr.fdr_file s = true ->
  file_well_formed lines s ->
  Fdr.fdr_active (Fdr.flushBufferToFile e s) = Fdr.fdr_active s /\
  Fdr.fdr_file (Fdr.flushBufferToFile e s) = true /\
  file_well_formed lines (Fdr.flushBufferToFile e s).
Proof.
  intros Hfile Hwf. unfold Fdr.flushBufferToFile.
  destruct (_ =? 0); [repeat split; assumption|].
  rewrite Hfile. cbn [negb].
  destruct (write_and_trim_flags e s) as [Ha Hf].
  rewrite Ha, Hf. repeat split; try assumption.
  apply write_and_trim_well_formed, Hwf.
Qed.

Lemma file_well_formed_fields lines s s' :
  Fdr.flash s' = Fdr.flash s ->
  Fdr.fdr_write_buffer s' = Fdr.fdr_write_buffer s ->
  file_well_formed lines s -> file_well_formed lines s'.
Proof.
  intros Hf Hb (written & Hflash & Hcat). exists written.
  rewrite Hf, Hb. split; assumption.
Qed.

Lemma session_inv_fields lines s s' :
  Fdr.fdr_active s' = Fdr.fdr_active s ->
  Fdr.fdr_file s' = Fdr.fdr_file s ->
  Fdr.flash s' = Fdr.flash s ->
  Fdr.fdr_write_buffer s' = Fdr.fdr_write_buffer s ->
  session_inv lines s -> session_inv lines s'.
Proof.
  intros Ha Hh Hf Hb Hinv Hact. rewrite Ha in Hact.
  destruct (Hinv Hact) as [Hfile Hwf]. split; [congruence|].
  exact (file_well_formed_fields lines s s' Hf Hb Hwf).
Qed.

Lemma session_inv_idle lines s :
  Fdr.fdr_active s = false -> session_inv lines s.
Proof. intros Hidle Hact. congruence. Qed.

Lemma ensureSpiffs_session e s lines :
  session_inv lines s -> session_inv lines (snd (Fdr.ensureSpiffs e s)).
Proof.
  destruct (ensureSpiffs_flash e s) as (Hf & Hb & Ha & Hh).
  apply session_inv_fields; assumption.
Qed.

Lemma fdr_start_failed_open e d n w :
  fst (Fdr.ensureSpiffs e (Fdr.rec w)) = true ->
  Fdr.open_write e = false ->
  fst (Fdr.fdr_start e d n w) = false /\
  Fdr.fdr_active (Fdr.rec (snd (Fdr.fdr_start e d n w))) =
  Fdr.fdr_active (Fdr.rec w).
Proof.
  intros Hm Ho. unfold Fdr.fdr_start.
  rewrite (ensureSpiffs_mounted _ _ Hm). cbn [negb].
  rewrite openFdrFileForWrite_result, Ho. cbn [negb].
  split; reflexivity.
Qed.

Lemma fdr_start_not_mounted e d n w :
  fst (Fdr.ensureSpiffs e (Fdr.rec w)) = false ->
  Fdr.fdr_start e d n w = (false, Fdr.set_rec (snd (Fdr.ensureSpiffs e (Fdr.rec w))) w).
Proof.
  intros Hm. unfold Fdr.fdr_start.
  destruct (Fdr.ensureSpiffs e (Fdr.rec w)) as [mounted s].
  cbn in Hm. subst mounted. reflexivity.
Qed.

Lemma fdr_stop_idle e w :
  Fdr.fdr_active (Fdr.rec (Fdr.fdr_stop e w)) = false.
Proof.
  unfold Fdr.fdr_stop. destruct (Fdr.fdr_active (Fdr.rec w)) eqn:Ha;
    [reflexivity | exact Ha].
Qed.

Lemma fdr_reset_active e w :
  Fdr.fdr_active (Fdr.rec (Fdr.fdr_reset e w)) = Fdr.fdr_active (Fdr.rec w).
Proof.
  unfold Fdr.fdr_reset.
  destruct (ensureSpiffs_flash e (Fdr.rec w)) as (_ & _ & Ha & _).
  destruct (Fdr.ensureSpiffs e (Fdr.rec w)) as [mounted s]. cbn [snd] in Ha.
  destruct mounted; cbn [negb Fdr.set_rec Fdr.rec]; [|exact Ha].
  unfold Fdr.closeFdrFileIfOpen, Fdr.spiffs_remove_if_exists, Fdr.spiffs_exists.
  destruct (Fdr.fdr_file s); cbn; destruct (Fdr.flash s); cbn; exact Ha.
Qed.

Section RecorderRuns.

Variable snprintf_line : float -> float -> Fdr.bytes.

Lemma fdr_step_session w c lines :
  session_inv lines (Fdr.rec w) ->
  drops_file w c = false ->
  cuts_header w c = false ->
  session_inv (lines_step snprintf_line lines w c)
              (Fdr.rec (fdr_step snprintf_line w c)).
Proof.
  intros Hinv Hkeep Hcut. destruct c as [e o].
  unfold drops_file in Hkeep. unfold cuts_header in Hcut.
  rewrite <- (ensureSpiffs_fst e (Fdr.rec w)) in Hkeep.
  destruct o as [d n| | | | |bus]; cbn [fdr_step lines_step] in *.
  - (* start *)
    rewrite <- (ensureSpiffs_fst e (Fdr.rec w)) in Hcut.
    destruct (fst (Fdr.ensureSpiffs e (Fdr.rec w))) eqn:Hm.
    + destruct (Fdr.open_write e) eqn:Ho.
      * rewrite (fdr_start_success e d n w Hm Ho). cbn [fst snd Fdr.rec].
        cbn [andb] in Hcut. apply negb_false_iff in Hcut.
        rewrite (takes_header_all e Hcut).
        intros _. split; [reflexivity|].
        exists []. split; [rewrite app_nil_r|]; reflexivity.
      * destruct (fdr_start_failed_open e d n w Hm Ho) as [Hr Ha].
        rewrite Hr. apply session_inv_idle. rewrite Ha.
        rewrite !andb_true_r in Hkeep. exact Hkeep.
    + rewrite (fdr_start_not_mounted e d n w Hm). cbn [fst snd Fdr.set_rec Fdr.rec].
      apply ensureSpiffs_session, Hinv.
  - (* cycle *)
    unfold Fdr.fdr_process, accepts.
    destruct (Fdr.fdr_active (Fdr.rec w)) eqn:Hact; cbn [negb andb];
      [|exact Hinv].
    destruct (Hinv Hact) as [Hfile Hwf].
    destruct (Fdr.millis e >=? Fdr.fdr_end_ms (Fdr.rec w)); cbn [negb andb].
    { apply session_inv_idle, fdr_stop_idle. }
    destruct (Fdr.sample_due (Fdr.millis e) (Fdr.rec w)); cbn [andb];
      [|exact Hinv].
    destruct (Barometer.barometer_isReady (Fdr.baro w)); cbn [negb].
    + set (line := Fdr.sample_line snprintf_line (Fdr.millis e) w).
      set (s2 := Fdr.set_fdr_write_buffer _ _).
      assert (Hwf2 : file_well_formed (lines ++ [line]) s2).
      { destruct Hwf as (written & Hflash & Hcat). exists written.
        split; [exact Hflash|]. subst s2. cbn.
        rewrite concat_app, <- Hcat. cbn. rewrite app_nil_r, app_assoc.
        reflexivity. }
      assert (Hfile2 : Fdr.fdr_file s2 = true) by exact Hfile.
      assert (Hact2 : Fdr.fdr_active s2 = true) by exact Hact.
      destruct (_ || _); cbn [Fdr.set_rec Fdr.rec].
      * destruct (flush_open_session e s2 _ Hfile2 Hwf2) as (Ha & Hf & Hw).
        intros _. split; assumption.
      * intros _. split; assumption.
    + cbn [Fdr.set_rec Fdr.rec].
      apply (session_inv_fields lines (Fdr.rec w)); try reflexivity. exact Hinv.
  - (* stop *)
    apply session_inv_idle, fdr_stop_idle.
  - (* reset *)
    destruct (fst (Fdr.ensureSpiffs e (Fdr.rec w))) eqn:Hm.
    + apply session_inv_idle. rewrite fdr_reset_active.
      rewrite !andb_true_r in Hkeep. exact Hkeep.
    + unfold Fdr.fdr_reset.
      pose proof (ensureSpiffs_session e (Fdr.rec w) lines Hinv) as H0.
      destruct (Fdr.ensureSpiffs e (Fdr.rec w)) as [mounted s].
      cbn in Hm. subst mounted. exact H0.
  - (* export *)
    unfold Fdr.fdr_streamFile.
    pose proof (ensureSpiffs_session e (Fdr.rec w) lines Hinv) as H0.
    destruct (Fdr.ensureSpiffs e (Fdr.rec w)) as [mounted s0]. cbn [snd] in H0.
    destruct mounted; cbn [negb snd Fdr.set_rec Fdr.rec]; [|exact H0].
    destruct (Fdr.spiffs_exists s0); cbn [negb snd Fdr.set_rec Fdr.rec];
      [|exact H0].
    assert (H1 : session_inv lines
                   (if Fdr.fdr_active s0 &&
                       (Fdr.blen (Fdr.fdr_write_buffer s0) >? 0)
                    then Fdr.flushBufferToFile e s0 else s0)).
    { destruct (Fdr.fdr_active s0) eqn:Ha0; cbn [andb]; [|exact H0].
      destruct (_ >? 0); [|exact H0].
      destruct (H0 Ha0) as [Hf0 Hw0].
      destruct (flush_open_session e s0 lines Hf0 Hw0) as (Ha & Hf & Hw).
      intros _. split; assumption. }
    destruct (if Fdr.open_read e then _ else None); exact H1.
  - (* sensor cycle *)
    exact Hinv.
Qed.

Lemma fdr_run_session cs :
  forall w lines,
    session_inv lines (Fdr.rec w) ->
    keeps_file snprintf_line cs w = true ->
    session_inv (session_lines snprintf_line cs w lines)
                (Fdr.rec (fdr_run snprintf_line cs w)).
Proof.
  induction cs as [|c cs IH]; intros w lines Hinv Hkeep; [exact Hinv|].
  cbn [keeps_file] in Hkeep. apply andb_true_iff in Hkeep.
  destruct Hkeep as [Hc Hrest]. apply andb_true_iff in Hc.
  destruct Hc as [Hc Hh]. apply negb_true_iff in Hc, Hh.
  cbn [session_lines fdr_run fold_left]. apply IH; [|exact Hrest].
  apply fdr_step_session; assumption.
Qed.


End RecorderRuns.

Section SkippedTicks.

Variable snprintf_line : float -> float -> Fdr.bytes.

(** A due tick with the sensor not ready changes nothing but
    [last_sample_ms], which becomes the time of the skipped tick. *)
Lemma fdr_process_sensor_not_ready e w :
  Fdr.fdr_active (Fdr.rec w) = true ->
  Fdr.millis e < Fdr.fdr_end_ms (Fdr.rec w) ->
  Fdr.sample_due (Fdr.millis e) (Fdr.rec w) = true ->
  Barometer.barometer_isReady (Fdr.baro w) = false ->
  Fdr.fdr_process snprintf_line e w =
  Fdr.set_rec (Fdr.set_last_sample_ms (Fdr.millis e) (Fdr.rec w)) w.
Proof.
  intros Hact Hend Hdue Hready. unfold Fdr.fdr_process.
  rewrite Hact, Hdue, Hready. cbn [negb].
  destruct (Z.geb_spec (Fdr.millis e) (Fdr.fdr_end_ms (Fdr.rec w))); [lia|].
  reflexivity.
Qed.

End SkippedTicks.

(** C2 on the code.  A sample is accepted at 1100 ms with an interval of
    100 ms, and the sensor is then lost.  The tick at 1200 ms is due and is
    skipped: nothing is written and nothing fails, but [last_sample_ms]
    becomes 1200.  With the sensor back, the cycle at 1250 ms samples
    nothing, although 150 ms have passed since the sample that was
    accepted. *)
Lemma skipped_tick_restarts_interval :
  Fdr.last_sample_ms (Fdr.rec sensor_lost_in_session) = 1100 /\
  Fdr.fdr_sample_interval_ms (Fdr.rec sensor_lost_in_session) = 100 /\
  Barometer.barometer_isReady (Fdr.baro sensor_lost_in_session) = false /\
  Fdr.fdr_write_buffer (Fdr.rec after_skipped_tick) =
    Fdr.fdr_write_buffer (Fdr.rec sensor_lost_in_session) /\
  Fdr.flash (Fdr.rec after_skipped_tick) =
    Fdr.flash (Fdr.rec sensor_lost_in_session) /\
  Fdr.fdr_active (Fdr.rec after_skipped_tick) = true /\
  Fdr.last_sample_ms (Fdr.rec after_skipped_tick) = 1200 /\
  Barometer.barometer_isReady (Fdr.baro after_skipped_tick) = true /\
  u32 (1250 - 1100) >= Fdr.fdr_sample_interval_ms (Fdr.rec after_skipped_tick) /\
  Fdr.fdr_process print_line (env_at 1250) after_skipped_tick =
    after_skipped_tick.
Proof.
  repeat (split; [vm_compute; reflexivity|]).
  split; [vm_compute; discriminate|].
  vm_compute; reflexivity.
Qed.



(** The other call that takes the file away: a start that cannot create
    the file leaves the earlier session active without a file, and the next
    flush writes the sample lines into a new file with no header. *)
Example failed_restart_loses_header :
  Fdr.fdr_active
    (Fdr.rec (fdr_run print_line failed_restart_in_session idle_system)) = true /\
  Fdr.flash
    (Fdr.rec (fdr_run print_line failed_restart_in_session idle_system)) =
    Some (list_byte_of_string "0.100,1013.25" ++ [x0a] ++
          list_byte_of_string "0.400,1013.25" ++ [x0a]).
Proof. split; vm_compute; reflexivity. Qed.

(** The scenario of the specification: started for 2 s at 10 samples per
    second the interval is 100 ms, and the cycle at the end time stops the
    session, flushes the buffer and closes the file. *)
Example session_expires :
  let w := fdr_run print_line
             [(env_at 1000, OpStart 2 10); (env_at 1100, OpProcess);
              (env_at 3000, OpProcess)] idle_system in
  Fdr.fdr_sample_interval_ms (Fdr.rec w) = 100 /\
  Fdr.fdr_isActive w = false /\
  Fdr.fdr_file (Fdr.rec w) = false /\
  Fdr.fdr_write_buffer (Fdr.rec w) = [] /\
  Fdr.flash (Fdr.rec w) =
    Some (Fdr.header ++ list_byte_of_string "0.100,1013.25" ++ [x0a]).
Proof. repeat split; vm_compute; reflexivity. Qed.

Lemma export_outcomes_witness :
  fst (Fdr.fdr_streamFile (env_at 1200) one_sample_buffered) =
  (true, Fdr.StreamFile
           (Fdr.header ++ list_byte_of_string "0.100,1013.25" ++ [x0a])) /\
  Fdr.fdr_write_buffer
    (Fdr.rec (snd (Fdr.fdr_streamFile (env_at 1200) one_sample_buffered))) = [].
Proof.
  destruct (export_outcomes (env_at 1200) one_sample_buffered)
    as (_ & _ & _ & H).
  assert (Hm : store_mounts (env_at 1200) (Fdr.rec one_sample_buffered) = true)
    by (vm_compute; reflexivity).
  destruct (H Hm) as [_ Hfile].
  assert (Hf : Fdr.flash (Fdr.rec one_sample_buffered) = Some Fdr.header)
    by (vm_compute; reflexivity).
  destruct (Hfile Fdr.header Hf) as (Hrec & _ & _ & _ & Hactive).
  assert (Ha : Fdr.fdr_active (Fdr.rec one_sample_buffered) = true)
    by (vm_compute; reflexivity).
  assert (Hh : Fdr.fdr_file (Fdr.rec one_sample_buffered) = true)
    by (vm_compute; reflexivity).
  destruct (Hactive Ha Hh) as (_ & _ & _ & Hroom).
  assert (Hb : Fdr.fdr_write_buffer (Fdr.rec one_sample_buffered) =
               list_byte_of_string "0.100,1013.25" ++ [x0a])
    by (vm_compute; reflexivity).
  rewrite Hb in Hroom.
  destruct Hroom as (_ & Hbuf & Hr); [vm_compute; discriminate|].
  split; [exact (Hr eq_refl)|]. rewrite Hrec. exact Hbuf.
Defined.

(** C9 as stated fails when the store takes less than the buffer.  On a
    store that takes no byte the export of a running session with one line
    buffered streams the header alone: the line is not in the exported
    content, and it is still in the buffer afterwards. *)
Lemma export_short_write_counterexample :
  Fdr.fdr_active (Fdr.rec one_sample_buffered) = true /\
  Fdr.fdr_write_buffer (Fdr.rec one_sample_buffered) =
    list_byte_of_string "0.100,1013.25" ++ [x0a] /\
  fst (Fdr.fdr_streamFile (env_room 1200 0) one_sample_buffered) =
    (true, Fdr.StreamFile Fdr.header) /\
  Fdr.fdr_write_buffer
    (Fdr.rec (snd (Fdr.fdr_streamFile (env_room 1200 0) one_sample_buffered))) =
    list_byte_of_string "0.100,1013.25" ++ [x0a].
Proof. repeat split; vm_compute; reflexivity. Qed.

(* ====================================================================== *)
(** * Further properties of the recorder *)

(** *** Mounting *)

Lemma write_and_trim_mounted e s :
  Fdr.spiffs_mounted (Fdr.write_and_trim e s) = Fdr.spiffs_mounted s.
Proof.
  unfold Fdr.write_and_trim.
  destruct (_ =? _); [reflexivity|]. destruct (_ && _); reflexivity.
Qed.

Lemma flush_mounted e s :
  Fdr.spiffs_mounted s = true ->
  Fdr.spiffs_mounted (Fdr.flushBufferToFile e s) = true.
Proof.
  intros Hm. unfold Fdr.flushBufferToFile.
  destruct (_ =? 0); [exact Hm|].
  destruct (Fdr.fdr_file s) eqn:Hf; cbn [negb].
  - rewrite write_and_trim_mounted. exact Hm.
  - rewrite ensureSpiffs_result, Hm. cbn [orb negb].
    unfold Fdr.openFdrFileForAppend.
    cbn [Fdr.fdr_file Fdr.set_spiffs_mounted]. rewrite Hf. cbn [negb].
    destruct (Fdr.open_append e); cbn [Fdr.fdr_file Fdr.set_fdr_file negb].
    + rewrite write_and_trim_mounted. destruct (Fdr.spiffs_exists _); reflexivity.
    + reflexivity.
Qed.

Lemma fdr_stop_mounted e w :
  Fdr.spiffs_mounted (Fdr.rec w) = true ->
  Fdr.spiffs_mounted (Fdr.rec (Fdr.fdr_stop e w)) = true.
Proof.
  intros Hm. unfold Fdr.fdr_stop.
  destruct (Fdr.fdr_active (Fdr.rec w)); cbn [negb]; [|exact Hm].
  cbn [Fdr.rec]. unfold Fdr.closeFdrFileIfOpen.
  pose proof (flush_mounted e (Fdr.rec w) Hm) as H.
  destruct (Fdr.fdr_file (Fdr.flushBufferToFile e (Fdr.rec w))); exact H.
Qed.

Section MountRuns.

Variable snprintf_line : float -> float -> Fdr.bytes.

Lemma fdr_step_mounted w c :
  Fdr.spiffs_mounted (Fdr.rec w) = true ->
  Fdr.spiffs_mounted (Fdr.rec (fdr_step snprintf_line w c)) = true.
Proof.
  intros Hm. destruct c as [e o].
  destruct o as [d n| | | | |bus]; cbn [fdr_step].
  - unfold Fdr.fdr_start. rewrite ensureSpiffs_result, Hm. cbn [orb negb].
    rewrite openFdrFileForWrite_result.
    destruct (Fdr.open_write e); reflexivity.
  - unfold Fdr.fdr_process.
    destruct (Fdr.fdr_active (Fdr.rec w)); cbn [negb]; [|exact Hm].
    destruct (_ >=? _); [apply fdr_stop_mounted, Hm|].
    destruct (Fdr.sample_due _ _); [|exact Hm].
    destruct (Barometer.barometer_isReady _); cbn [negb]; [|exact Hm].
    destruct (_ || _); cbn [Fdr.set_rec Fdr.rec]; [|exact Hm].
    apply flush_mounted. exact Hm.
  - apply fdr_stop_mounted, Hm.
  - unfold Fdr.fdr_reset. rewrite ensureSpiffs_result, Hm. cbn [orb negb].
    unfold Fdr.closeFdrFileIfOpen, Fdr.spiffs_remove_if_exists, Fdr.spiffs_exists.
    destruct (Fdr.fdr_file _); cbn; destruct (Fdr.flash _); reflexivity.
  - unfold Fdr.fdr_streamFile. rewrite ensureSpiffs_result, Hm. cbn [orb negb].
    destruct (Fdr.spiffs_exists _); cbn [negb snd Fdr.set_rec Fdr.rec];
      [|reflexivity].
    assert (H : Fdr.spiffs_mounted
                  (if Fdr.fdr_active (Fdr.set_spiffs_mounted true (Fdr.rec w)) &&
                      (Fdr.blen (Fdr.fdr_write_buffer
                                   (Fdr.set_spiffs_mounted true (Fdr.rec w))) >? 0)
                   then Fdr.flushBufferToFile e
                          (Fdr.set_spiffs_mounted true (Fdr.rec w))
                   else Fdr.set_spiffs_mounted true (Fdr.rec w)) = true).
    { destruct (_ && _); [apply flush_mounted|]; reflexivity. }
    destruct (if Fdr.open_read e then _ else None); exact H.
  - exact Hm.
Qed.

(** X1. Mounting is done once: after the store has been mounted, it stays
    mounted through every later call, and [ensureSpiffs] answers true
    without asking the store again and without changing anything. *)
Theorem mount_persists (cs : list (Fdr.env * fdr_op)) (w : Fdr.system) :
  Fdr.spiffs_mounted (Fdr.rec w) = true ->
  Fdr.spiffs_mounted (Fdr.rec (fdr_run snprintf_line cs w)) = true /\
  forall e,
    Fdr.ensureSpiffs e (Fdr.rec (fdr_run snprintf_line cs w)) =
    (true, Fdr.rec (fdr_run snprintf_line cs w)).
Proof.
  revert w. induction cs as [|c cs IH]; intros w Hm.
  - split; [exact Hm|]. intros e. unfold Fdr.ensureSpiffs. cbn.
    rewrite Hm. reflexivity.
  - cbn [fdr_run fold_left]. apply IH, fdr_step_mounted, Hm.
Qed.

End MountRuns.

Lemma mount_persists_witness :
  Fdr.spiffs_mounted (Fdr.rec (fdr_run print_line reset_in_session idle_system))
  = true.
Proof.
  apply (mount_persists print_line (tl reset_in_session)
           (fdr_step print_line idle_system (env_at 1000, OpStart 2 10))).
  vm_compute. reflexivity.
Defined.

(** *** Stopping *)

(** X2. [fdr_stop] on an idle recorder changes nothing (no flush, no file
    access, no light or sensor-mode change), and stopping twice is the
    same as stopping once. *)
Theorem stop_idle_is_noop (e e' : Fdr.env) (w : Fdr.system) :
  (Fdr.fdr_active (Fdr.rec w) = false -> Fdr.fdr_stop e w = w) /\
  Fdr.fdr_stop e' (Fdr.fdr_stop e w) = Fdr.fdr_stop e w.
Proof.
  assert (Hidle : forall e0 w0,
             Fdr.fdr_active (Fdr.rec w0) = false -> Fdr.fdr_stop e0 w0 = w0).
  { intros e0 w0 H. unfold Fdr.fdr_stop. rewrite H. reflexivity. }
  split; [apply Hidle|]. apply Hidle, fdr_stop_idle.
Qed.

Lemma stop_idle_is_noop_witness :
  Fdr.fdr_stop (env_at 5000) idle_system = idle_system.
Proof.
  apply (proj1 (stop_idle_is_noop (env_at 5000) (env_at 5000) idle_system)).
  reflexivity.
Defined.

Lemma closeFdrFileIfOpen_result s :
  Fdr.closeFdrFileIfOpen s = Fdr.set_fdr_file false s.
Proof.
  unfold Fdr.closeFdrFileIfOpen. destruct s as [a en st ls iv m f buf lf fl].
  destruct f; reflexivity.
Qed.

Lemma fdr_stop_result (e : Fdr.env) (w : Fdr.system) (c : Fdr.bytes) :
  Fdr.fdr_active (Fdr.rec w) = true ->
  Fdr.fdr_file (Fdr.rec w) = true ->
  Fdr.flash (Fdr.rec w) = Some c ->
  let buf := Fdr.fdr_write_buffer (Fdr.rec w) in
  let n := Z.to_nat (Fdr.file_write e buf) in
  let w' := Fdr.fdr_stop e w in
  Fdr.fdr_active (Fdr.rec w') = false /\
  Fdr.fdr_file (Fdr.rec w') = false /\
  Fdr.flash (Fdr.rec w') = Some (c ++ firstn n buf) /\
  Fdr.fdr_write_buffer (Fdr.rec w') = skipn n buf /\
  Fdr.led w' = (0, 0, 255) /\
  Fdr.baro w' = Barometer.barometer_setFastMode false (Fdr.baro w) /\
  (Fdr.blen buf <= Fdr.write_room e ->
   Fdr.flash (Fdr.rec w') = Some (c ++ buf) /\
   Fdr.fdr_write_buffer (Fdr.rec w') = []).
Proof.
  intros Hact Hfile Hflash buf n w'.
  assert (Hflush_flash :
            Fdr.flash (Fdr.flushBufferToFile e (Fdr.rec w)) = Some (c ++ firstn n buf)).
  { unfold Fdr.flushBufferToFile. fold buf.
    destruct (Z.eqb_spec (Fdr.blen buf) 0) as [Hz|Hz].
    - assert (buf = []) as Hnil.
      { destruct buf; [reflexivity|]. unfold Fdr.blen in Hz. cbn in Hz. lia. }
      subst n. rewrite Hnil, firstn_nil, app_nil_r. exact Hflash.
    - rewrite Hfile. cbn [negb]. rewrite write_and_trim_flash, Hflash.
      reflexivity. }
  assert (Hflush_buf :
            Fdr.fdr_write_buffer (Fdr.flushBufferToFile e (Fdr.rec w)) = skipn n buf).
  { unfold Fdr.flushBufferToFile. fold buf.
    destruct (Z.eqb_spec (Fdr.blen buf) 0) as [Hz|Hz].
    - assert (buf = []) as Hnil.
      { destruct buf; [reflexivity|]. unfold Fdr.blen in Hz. cbn in Hz. lia. }
      rewrite Hnil, skipn_nil. exact Hnil.
    - rewrite Hfile. cbn [negb]. apply write_and_trim_buffer. }
  assert (Hw' : w' =
    Fdr.mkSystem
      (Fdr.set_fdr_active false
         (Fdr.set_fdr_file false (Fdr.flushBufferToFile e (Fdr.rec w))))
      (Barometer.barometer_setFastMode false (Fdr.baro w))
      (Led.led_setBlue (Fdr.led w))).
  { subst w'. unfold Fdr.fdr_stop. rewrite Hact. cbn [negb].
    rewrite closeFdrFileIfOpen_result. reflexivity. }
  rewrite Hw'. cbn [Fdr.rec Fdr.led Fdr.baro Fdr.fdr_active Fdr.fdr_file
    Fdr.flash Fdr.fdr_write_buffer Fdr.set_fdr_active Fdr.set_fdr_file].
  repeat (split; [first [reflexivity | assumption]|]).
  intros Hroom.
  assert (Hn : n = List.length buf).
  { subst n. unfold Fdr.file_write.
    replace (Z.max 0 (Z.min (Fdr.write_room e) (Fdr.blen buf)))
      with (Fdr.blen buf) by (unfold Fdr.blen in *; lia).
    unfold Fdr.blen. apply Nat2Z.id. }
  rewrite Hflush_flash, Hflush_buf, Hn, firstn_all, skipn_all.
  split; reflexivity.
Qed.

(** X3. Stopping a session whose file is open appends to the file the
    bytes of the buffer that the store takes, keeps the rest in the
    buffer, closes the file, makes the recorder idle, shows blue and puts
    the sensor back to high precision.  When the store takes the whole
    buffer, the file ends with it and the buffer is empty. *)
Theorem stop_flushes_and_closes (e : Fdr.env) (w : Fdr.system) (c : Fdr.bytes) :
  Fdr.fdr_active (Fdr.rec w) = true ->
  Fdr.fdr_file (Fdr.rec w) = true ->
  Fdr.flash (Fdr.rec w) = Some c ->
  let buf := Fdr.fdr_write_buffer (Fdr.rec w) in
  let n := Z.to_nat (Fdr.file_write e buf) in
  let w' := Fdr.fdr_stop e w in
  Fdr.fdr_active (Fdr.rec w') = false /\
  Fdr.fdr_file (Fdr.rec w') = false /\
  Fdr.flash (Fdr.rec w') = Some (c ++ firstn n buf) /\
  Fdr.fdr_write_buffer (Fdr.rec w') = skipn n buf /\
  Fdr.led w' = (0, 0, 255) /\
  Fdr.baro w' = Barometer.barometer_setFastMode false (Fdr.baro w) /\
  (Fdr.blen buf <= Fdr.write_room e ->
   Fdr.flash (Fdr.rec w') = Some (c ++ buf) /\
   Fdr.fdr_write_buffer (Fdr.rec w') = []).
Proof. exact (fdr_stop_result e w c). Qed.

Lemma stop_flushes_and_closes_witness :
  Fdr.flash (Fdr.rec (Fdr.fdr_stop (env_at 1200) one_sample_buffered)) =
    Some (Fdr.header ++ list_byte_of_string "0.100,1013.25" ++ [x0a]) /\
  Fdr.fdr_write_buffer (Fdr.rec (Fdr.fdr_stop (env_at 1200) one_sample_buffered))
    = [].
Proof.
  assert (Ha : Fdr.fdr_active (Fdr.rec one_sample_buffered) = true)
    by (vm_compute; reflexivity).
  assert (Hh : Fdr.fdr_file (Fdr.rec one_sample_buffered) = true)
    by (vm_compute; reflexivity).
  assert (Hf : Fdr.flash (Fdr.rec one_sample_buffered) = Some Fdr.header)
    by (vm_compute; reflexivity).
  destruct (stop_flushes_and_closes (env_at 1200) one_sample_buffered
              Fdr.header Ha Hh Hf) as (_ & _ & _ & _ & _ & _ & H).
  assert (Hb : Fdr.fdr_write_buffer (Fdr.rec one_sample_buffered) =
               list_byte_of_string "0.100,1013.25" ++ [x0a])
    by (vm_compute; reflexivity).
  rewrite Hb in H. apply H. vm_compute. discriminate.
Defined.

(** *** Which calls start and end a session *)

Lemma flush_active e s :
  Fdr.fdr_active (Fdr.flushBufferToFile e s) = Fdr.fdr_active s.
Proof.
  unfold Fdr.flushBufferToFile.
  destruct (_ =? 0); [reflexivity|].
  destruct (write_and_trim_flags e s) as [Ha _].
  destruct (Fdr.fdr_file s) eqn:Hf; cbn [negb]; [exact Ha|].
  rewrite ensureSpiffs_result.
  destruct (_ || _); cbn [negb]; [|reflexivity].
  unfold Fdr.openFdrFileForAppend.
  cbn [Fdr.fdr_file Fdr.set_spiffs_mounted]. rewrite Hf. cbn [negb].
  destruct (Fdr.open_append e); cbn [Fdr.fdr_file Fdr.set_fdr_file negb];
    [|reflexivity].
  destruct (write_and_trim_flags e
              (Fdr.set_fdr_file true
                 (if Fdr.spiffs_exists (Fdr.set_spiffs_mounted true s)
                  then Fdr.set_spiffs_mounted true s
                  else Fdr.set_flash (Some []) (Fdr.set_spiffs_mounted true s))))
    as [Ha' _].
  rewrite Ha'. destruct (Fdr.spiffs_exists _); reflexivity.
Qed.

Lemma streamFile_rec e w :
  exists s,
    Fdr.rec (snd (Fdr.fdr_streamFile e w)) = s /\
    (s = snd (Fdr.ensureSpiffs e (Fdr.rec w)) \/
     s = Fdr.flushBufferToFile e (snd (Fdr.ensureSpiffs e (Fdr.rec w)))).
Proof.
  unfold Fdr.fdr_streamFile.
  destruct (Fdr.ensureSpiffs e (Fdr.rec w)) as [mounted s0]. cbn [snd].
  destruct mounted; cbn [negb]; [|eexists; split; [reflexivity | left; reflexivity]].
  destruct (Fdr.spiffs_exists s0); cbn [negb];
    [|eexists; split; [reflexivity | left; reflexivity]].
  destruct (Fdr.fdr_active s0 && _);
    destruct (if Fdr.open_read e then _ else None);
    eexists; (split; [reflexivity|]); auto.
Qed.

Lemma streamFile_active e w :
  Fdr.fdr_active (Fdr.rec (snd (Fdr.fdr_streamFile e w))) =
  Fdr.fdr_active (Fdr.rec w).
Proof.
  destruct (streamFile_rec e w) as (s & -> & [-> | ->]);
    rewrite ?flush_active; apply ensureSpiffs_flash.
Qed.

Section SessionBounds.

Variable snprintf_line : float -> float -> Fdr.bytes.

Lemma fdr_step_activation (w : Fdr.system) (c : Fdr.env * fdr_op) :
  (Fdr.fdr_active (Fdr.rec (fdr_step snprintf_line w c)) = true ->
   Fdr.fdr_active (Fdr.rec w) = true \/
   exists d n, snd c = OpStart d n /\ fst (Fdr.fdr_start (fst c) d n w) = true) /\
  (Fdr.fdr_active (Fdr.rec w) = false ->
   Fdr.fdr_process snprintf_line (fst c) w = w).
Proof.
  split.
  - destruct c as [e o]. cbn [fst snd].
    destruct o as [d n| | | | |bus]; cbn [fdr_step].
    + intros Hact. destruct (fst (Fdr.fdr_start e d n w)) eqn:Hs.
      * right. exists d, n. split; [reflexivity | exact Hs].
      * left. revert Hact Hs. unfold Fdr.fdr_start.
        rewrite ensureSpiffs_result.
        destruct (_ || _); cbn [negb fst snd Fdr.set_rec Fdr.rec];
          [|intros H _; exact H].
        rewrite openFdrFileForWrite_result.
        destruct (Fdr.open_write e); cbn [negb fst snd Fdr.set_rec Fdr.rec];
          [discriminate | intros H _; exact H].
    + intros Hact. left. revert Hact. unfold Fdr.fdr_process.
      destruct (Fdr.fdr_active (Fdr.rec w)) eqn:Ha; [reflexivity|].
      cbn [negb]. intros H. rewrite Ha in H. discriminate H.
    + rewrite fdr_stop_idle. discriminate.
    + rewrite fdr_reset_active. intros H; left; exact H.
    + rewrite streamFile_active. intros H; left; exact H.
    + intros H; left; exact H.
  - intros Hidle. unfold Fdr.fdr_process. rewrite Hidle. reflexivity.
Qed.

(** X4. Only a start that succeeds makes the recorder active: after any
    other call, and after a start that fails, the recorder is active only
    if it was before.  In particular an idle recorder ignores its cycle
    altogether. *)
Theorem only_start_activates (w : Fdr.system) (c : Fdr.env * fdr_op) :
  (Fdr.fdr_active (Fdr.rec (fdr_step snprintf_line w c)) = true ->
   Fdr.fdr_active (Fdr.rec w) = true \/
   exists d n, snd c = OpStart d n /\ fst (Fdr.fdr_start (fst c) d n w) = true) /\
  (Fdr.fdr_active (Fdr.rec w) = false ->
   Fdr.fdr_process snprintf_line (fst c) w = w).
Proof. exact (fdr_step_activation w c). Qed.

End SessionBounds.

Lemma only_start_activates_witness :
  Fdr.fdr_process print_line (env_at 7000) idle_system = idle_system.
Proof.
  apply (proj2 (only_start_activates print_line idle_system
                  (env_at 7000, OpProcess))).
  reflexivity.
Defined.

(** *** Timing of a session *)

Lemma write_and_trim_schedule e s : same_schedule s (Fdr.write_and_trim e s).
Proof.
  unfold Fdr.write_and_trim, same_schedule.
  destruct (_ =? _); [repeat split|]. destruct (_ && _); repeat split.
Qed.

Lemma flush_schedule e s : same_schedule s (Fdr.flushBufferToFile e s).
Proof.
  unfold Fdr.flushBufferToFile.
  destruct (_ =? 0); [repeat split|].
  destruct (Fdr.fdr_file s) eqn:Hf; cbn [negb]; [apply write_and_trim_schedule|].
  rewrite ensureSpiffs_result.
  destruct (_ || _); cbn [negb]; [|repeat split].
  unfold Fdr.openFdrFileForAppend.
  cbn [Fdr.fdr_file Fdr.set_spiffs_mounted]. rewrite Hf. cbn [negb].
  destruct (Fdr.open_append e); cbn [Fdr.fdr_file Fdr.set_fdr_file negb];
    [|repeat split].
  match goal with
  | |- same_schedule _ (Fdr.write_and_trim e ?s1) =>
    pose proof (write_and_trim_schedule e s1) as H
  end.
  destruct (Fdr.spiffs_exists _); exact H.
Qed.

Section SessionTiming.

Variable snprintf_line : float -> float -> Fdr.bytes.

(** X5. A running session ends at its end time and not before: the first
    cycle at or after [fdr_end_ms] does what [fdr_stop] does and leaves the
    recorder idle; a cycle before it leaves the recorder active with the
    same start time, end time and interval. *)
Theorem session_ends_on_time (e : Fdr.env) (w : Fdr.system) :
  Fdr.fdr_active (Fdr.rec w) = true ->
  let w' := Fdr.fdr_process snprintf_line e w in
  (Fdr.fdr_end_ms (Fdr.rec w) <= Fdr.millis e ->
   w' = Fdr.fdr_stop e w /\ Fdr.fdr_isActive w' = false) /\
  (Fdr.millis e < Fdr.fdr_end_ms (Fdr.rec w) ->
   Fdr.fdr_isActive w' = true /\
   Fdr.fdr_end_ms (Fdr.rec w') = Fdr.fdr_end_ms (Fdr.rec w) /\
   Fdr.fdr_start_ms (Fdr.rec w') = Fdr.fdr_start_ms (Fdr.rec w) /\
   Fdr.fdr_sample_interval_ms (Fdr.rec w') =
     Fdr.fdr_sample_interval_ms (Fdr.rec w)).
Proof.
  intros Hact w'. subst w'. unfold Fdr.fdr_process, Fdr.fdr_isActive.
  rewrite Hact. cbn [negb]. split.
  - intros Hend.
    destruct (Z.geb_spec (Fdr.millis e) (Fdr.fdr_end_ms (Fdr.rec w))); [|lia].
    split; [reflexivity | apply fdr_stop_idle].
  - intros Hend.
    destruct (Z.geb_spec (Fdr.millis e) (Fdr.fdr_end_ms (Fdr.rec w))); [lia|].
    destruct (Fdr.sample_due _ _); [|repeat split; assumption].
    destruct (Barometer.barometer_isReady _); cbn [negb];
      [|repeat split; assumption].
    destruct (_ || _); cbn [Fdr.set_rec Fdr.rec]; [|repeat split; assumption].
    match goal with
    | |- context [Fdr.flushBufferToFile e ?s1] =>
      destruct (flush_schedule e s1) as (Ha & He & Hs & _ & Hi)
    end.
    rewrite Ha, He, Hs, Hi. repeat split; assumption.
Qed.

End SessionTiming.

Lemma session_ends_on_time_witness :
  Fdr.fdr_isActive (Fdr.fdr_process print_line (env_at 3000) one_sample_buffered)
    = false /\
  Fdr.fdr_isActive (Fdr.fdr_process print_line (env_at 2999) one_sample_buffered)
    = true.
Proof.
  assert (Ha : Fdr.fdr_active (Fdr.rec one_sample_buffered) = true)
    by (vm_compute; reflexivity).
  split.
  - apply (session_ends_on_time print_line (env_at 3000) one_sample_buffered Ha).
    vm_compute. discriminate.
  - apply (session_ends_on_time print_line (env_at 2999) one_sample_buffered Ha).
    vm_compute. reflexivity.
Defined.

Section StartTimes.

Variable snprintf_line : float -> float -> Fdr.bytes.

(** X6. A start that succeeds sets the end time to the start time plus the
    duration in milliseconds, reduced modulo 2^32; without overflow that is
    the exact sum.  With a duration of 0 the first cycle ends the session
    before any sample is taken, and the file holds what the store took of
    the header line at the start, the header line alone when it had room
    for it. *)
Theorem start_end_time (e : Fdr.env) (d n : Z) (w : Fdr.system) :
  store_mounts e (Fdr.rec w) = true ->
  Fdr.open_write e = true ->
  0 <= d -> 0 <= Fdr.millis_later e ->
  let w1 := snd (Fdr.fdr_start e d n w) in
  Fdr.fdr_end_ms (Fdr.rec w1) = (Fdr.millis_later e + d * 1000) mod 2 ^ 32 /\
  (Fdr.millis_later e + d * 1000 < 2 ^ 32 ->
   Fdr.fdr_end_ms (Fdr.rec w1) = Fdr.fdr_start_ms (Fdr.rec w1) + d * 1000) /\
  (d = 0 -> Fdr.millis_later e < 2 ^ 32 ->
   forall e', Fdr.millis_later e <= Fdr.millis e' ->
     let w2 := Fdr.fdr_process snprintf_line e' w1 in
     Fdr.fdr_isActive w2 = false /\
     Fdr.flash (Fdr.rec w2) = Some (header_taken e) /\
     (takes_header e = true -> Fdr.flash (Fdr.rec w2) = Some Fdr.header) /\
     Fdr.fdr_write_buffer (Fdr.rec w2) = []).
Proof.
  intros Hm Ho Hd Ht w1. subst w1. rewrite <- ensureSpiffs_fst in Hm.
  rewrite (fdr_start_success e d n w Hm Ho). cbn [snd Fdr.rec Fdr.fdr_end_ms
    Fdr.fdr_start_ms].
  split; [|split].
  - unfold u32. rewrite Z.add_mod_idemp_r by lia. reflexivity.
  - intros Hno. unfold u32.
    rewrite (Z.mod_small (d * 1000)) by lia. apply Z.mod_small. lia.
  - intros -> Hlt e' Hmono. unfold Fdr.fdr_process, Fdr.fdr_isActive.
    cbn [Fdr.rec Fdr.fdr_active Fdr.fdr_end_ms negb].
    change (u32 (0 * 1000)) with 0. rewrite Z.add_0_r. unfold u32.
    rewrite Z.mod_small by lia.
    destruct (Z.geb_spec (Fdr.millis e') (Fdr.millis_later e)); [|lia].
    unfold Fdr.fdr_stop. cbn [Fdr.rec Fdr.fdr_active negb].
    rewrite closeFdrFileIfOpen_result. unfold Fdr.flushBufferToFile.
    cbn [Fdr.fdr_write_buffer Fdr.blen List.length Z.of_nat Z.eqb Fdr.rec
         Fdr.fdr_active Fdr.set_fdr_active Fdr.set_fdr_file Fdr.flash].
    split; [reflexivity|]. split; [reflexivity|].
    split; [intros Hh; rewrite (takes_header_all e Hh)|]; reflexivity.
Qed.

End StartTimes.

Lemma start_end_time_witness :
  Fdr.fdr_end_ms (Fdr.rec (snd (Fdr.fdr_start (env_at 1000) 2 10 idle_system)))
  = Fdr.fdr_start_ms
      (Fdr.rec (snd (Fdr.fdr_start (env_at 1000) 2 10 idle_system))) + 2 * 1000.
Proof.
  apply (start_end_time print_line (env_at 1000) 2 10 idle_system);
    try reflexivity; try (vm_compute; discriminate).
Defined.

(** *** What a tick does *)

Section Ticks.

Variable snprintf_line : float -> float -> Fdr.bytes.

Lemma sample_line_length now w :
  Fdr.blen (Fdr.sample_line snprintf_line now w) <= 63.
Proof.
  unfold Fdr.sample_line, Fdr.blen.
  pose proof (firstn_le_length 63
    (snprintf_line
       (of_Z (u32 (now - Fdr.fdr_start_ms (Fdr.rec w))) / Num 1000)%flt
       (Barometer.barometer_getPressure (Fdr.baro w)))) as H.
  lia.
Qed.


End Ticks.


Section IdleCycles.

Variable snprintf_line : float -> float -> Fdr.bytes.

(** X21. Flushing is tied to sampling.  During a session, a cycle before
    the end time that accepts no sample, because no tick is due or because
    the sensor is not ready, writes nothing and leaves the buffer as it
    is, however long ago the last flush was; the only variable it can
    change is the time of the last tick. *)
Theorem no_flush_without_sample (e : Fdr.env) (w : Fdr.system) :
  Fdr.fdr_active (Fdr.rec w) = true ->
  Fdr.millis e < Fdr.fdr_end_ms (Fdr.rec w) ->
  accepts e w = false ->
  let w' := Fdr.fdr_process snprintf_line e w in
  Fdr.flash (Fdr.rec w') = Fdr.flash (Fdr.rec w) /\
  Fdr.fdr_write_buffer (Fdr.rec w') = Fdr.fdr_write_buffer (Fdr.rec w) /\
  Fdr.last_flush_ms (Fdr.rec w') = Fdr.last_flush_ms (Fdr.rec w) /\
  Fdr.fdr_file (Fdr.rec w') = Fdr.fdr_file (Fdr.rec w) /\
  (Fdr.sample_due (Fdr.millis e) (Fdr.rec w) = false -> w' = w).
Proof.
  intros Hact Hend Hacc w'. subst w'. unfold accepts in Hacc.
  rewrite Hact in Hacc. cbn [andb] in Hacc.
  unfold Fdr.fdr_process. rewrite Hact. cbn [negb].
  destruct (Z.geb_spec (Fdr.millis e) (Fdr.fdr_end_ms (Fdr.rec w))); [lia|].
  cbn [negb andb] in Hacc.
  destruct (Fdr.sample_due (Fdr.millis e) (Fdr.rec w)); cbn [andb] in Hacc.
  - rewrite Hacc. cbn [negb]. repeat split. discriminate.
  - repeat split.
Qed.

End IdleCycles.

Lemma no_flush_without_sample_witness :
  Fdr.fdr_write_buffer
    (Fdr.rec (Fdr.fdr_process print_line (env_at 2900) sensor_lost_in_session)) =
  Fdr.fdr_write_buffer (Fdr.rec sensor_lost_in_session) /\
  Fdr.flash
    (Fdr.rec (Fdr.fdr_process print_line (env_at 2900) sensor_lost_in_session)) =
  Some Fdr.header.
Proof.
  destruct (no_flush_without_sample print_line (env_at 2900)
              sensor_lost_in_session) as (Hf & Hb & _);
    try (vm_compute; reflexivity).
  split; [exact Hb|]. rewrite Hf. vm_compute. reflexivity.
Defined.

(** *** The buffer stays bounded *)

Lemma flush_takes_all e s :
  store_takes_all e = true ->
  Fdr.blen (Fdr.fdr_write_buffer s) <= Fdr.BUFFER_FLUSH_THRESHOLD + 63 ->
  Fdr.fdr_write_buffer (Fdr.flushBufferToFile e s) = [].
Proof.
  unfold store_takes_all. intros Hst Hlen.
  apply andb_true_iff in Hst. destruct Hst as [Hst Hroom].
  apply andb_true_iff in Hst. destruct Hst as [Hbegin Happ].
  apply Z.leb_le in Hroom.
  assert (Hall : forall s1,
             Fdr.fdr_write_buffer s1 = Fdr.fdr_write_buffer s ->
             Fdr.fdr_write_buffer (Fdr.write_and_trim e s1) = []).
  { intros s1 H1. rewrite write_and_trim_buffer, H1. unfold Fdr.file_write.
    replace (Z.max 0 (Z.min (Fdr.write_room e) (Fdr.blen (Fdr.fdr_write_buffer s))))
      with (Fdr.blen (Fdr.fdr_write_buffer s)) by (unfold Fdr.blen in *; lia).
    apply skipn_blen. }
  unfold Fdr.flushBufferToFile.
  destruct (Z.eqb_spec (Fdr.blen (Fdr.fdr_write_buffer s)) 0) as [Hz|Hz].
  { destruct (Fdr.fdr_write_buffer s); [reflexivity|].
    unfold Fdr.blen in Hz. cbn in Hz. lia. }
  destruct (Fdr.fdr_file s) eqn:Hf; cbn [negb]; [apply Hall; reflexivity|].
  rewrite ensureSpiffs_result, Hbegin, orb_true_r. cbn [orb negb].
  unfold Fdr.openFdrFileForAppend.
  cbn [Fdr.fdr_file Fdr.set_spiffs_mounted]. rewrite Hf, Happ.
  cbn [negb Fdr.fdr_file Fdr.set_fdr_file].
  apply Hall. destruct (Fdr.spiffs_exists _); reflexivity.
Qed.

Section BoundedBuffer.

Variable snprintf_line : float -> float -> Fdr.bytes.

Lemma fdr_step_buffer_bound w c :
  store_takes_all (fst c) = true ->
  Fdr.blen (Fdr.fdr_write_buffer (Fdr.rec w)) < Fdr.BUFFER_FLUSH_THRESHOLD ->
  Fdr.blen (Fdr.fdr_write_buffer (Fdr.rec (fdr_step snprintf_line w c)))
  < Fdr.BUFFER_FLUSH_THRESHOLD.
Proof.
  intros Hst Hlen. destruct c as [e o]. cbn [fst] in Hst.
  assert (Hflush : forall s1,
            Fdr.blen (Fdr.fdr_write_buffer s1) <= Fdr.BUFFER_FLUSH_THRESHOLD + 63 ->
            Fdr.blen (Fdr.fdr_write_buffer (Fdr.flushBufferToFile e s1))
            < Fdr.BUFFER_FLUSH_THRESHOLD).
  { intros s1 H1. rewrite (flush_takes_all e s1 Hst H1).
    unfold Fdr.BUFFER_FLUSH_THRESHOLD. cbn. lia. }
  assert (Hstop : Fdr.blen (Fdr.fdr_write_buffer (Fdr.rec (Fdr.fdr_stop e w)))
                  < Fdr.BUFFER_FLUSH_THRESHOLD).
  { unfold Fdr.fdr_stop. destruct (Fdr.fdr_active (Fdr.rec w)); cbn [negb];
      [|exact Hlen].
    rewrite closeFdrFileIfOpen_result. cbn [Fdr.rec].
    apply (Hflush (Fdr.rec w)). lia. }
  destruct o as [d n| | | | |bus]; cbn [fdr_step].
  - unfold Fdr.fdr_start. rewrite ensureSpiffs_result.
    destruct (_ || _); cbn [negb snd Fdr.set_rec Fdr.rec]; [|exact Hlen].
    rewrite openFdrFileForWrite_result.
    destruct (Fdr.open_write e); cbn [negb snd Fdr.set_rec Fdr.rec];
      [unfold Fdr.BUFFER_FLUSH_THRESHOLD; cbn; lia | exact Hlen].
  - unfold Fdr.fdr_process.
    destruct (Fdr.fdr_active (Fdr.rec w)); cbn [negb]; [|exact Hlen].
    destruct (_ >=? _); [exact Hstop|].
    destruct (Fdr.sample_due _ _); [|exact Hlen].
    destruct (Barometer.barometer_isReady _); cbn [negb]; [|exact Hlen].
    set (line := Fdr.sample_line snprintf_line (Fdr.millis e) w).
    pose proof (sample_line_length snprintf_line (Fdr.millis e) w) as Hline.
    fold line in Hline.
    set (s1 := Fdr.set_fdr_write_buffer _ _).
    assert (Hs1 : Fdr.blen (Fdr.fdr_write_buffer s1) =
                  Fdr.blen (Fdr.fdr_write_buffer (Fdr.rec w)) + Fdr.blen line).
    { subst s1. cbn [Fdr.fdr_write_buffer Fdr.set_fdr_write_buffer
        Fdr.set_last_sample_ms]. unfold Fdr.blen. rewrite length_app. lia. }
    destruct (Z.geb_spec (u32 (Fdr.blen (Fdr.fdr_write_buffer s1)))
                Fdr.BUFFER_FLUSH_THRESHOLD) as [Hge|Hlt]; cbn [orb].
    + cbn [Fdr.set_rec Fdr.rec]. apply Hflush. lia.
    + destruct (_ >=? Fdr.BUFFER_FLUSH_INTERVAL_MS);
        cbn [Fdr.set_rec Fdr.rec]; [apply Hflush; lia|].
      unfold u32 in Hlt. rewrite Z.mod_small in Hlt; [exact Hlt|].
      unfold Fdr.BUFFER_FLUSH_THRESHOLD in *. unfold Fdr.blen in *. lia.
  - exact Hstop.
  - unfold Fdr.fdr_reset. rewrite ensureSpiffs_result.
    destruct (_ || _); cbn [negb snd Fdr.set_rec Fdr.rec]; [|exact Hlen].
    rewrite closeFdrFileIfOpen_result.
    unfold Fdr.spiffs_remove_if_exists.
    destruct (Fdr.spiffs_exists _); exact Hlen.
  - destruct (streamFile_rec e w) as (s & -> & [-> | ->]).
    + rewrite ensureSpiffs_result. exact Hlen.
    + apply Hflush. rewrite ensureSpiffs_result.
      cbn [snd Fdr.fdr_write_buffer Fdr.set_spiffs_mounted]. lia.
  - exact Hlen.
Qed.

(** X8. On a store that lets every flush through (it mounts, opens the
    file for appending and has room for a full buffer plus one line), the
    buffer is bounded: starting below the flush threshold of 1024 bytes,
    it is below 1024 bytes after every call of every run. *)
Theorem buffer_stays_below_threshold (cs : list (Fdr.env * fdr_op))
  (w : Fdr.system) :
  Forall (fun c => store_takes_all (fst c) = true) cs ->
  Fdr.blen (Fdr.fdr_write_buffer (Fdr.rec w)) < Fdr.BUFFER_FLUSH_THRESHOLD ->
  Fdr.blen (Fdr.fdr_write_buffer (Fdr.rec (fdr_run snprintf_line cs w)))
  < Fdr.BUFFER_FLUSH_THRESHOLD.
Proof.
  intros Hall. revert w. induction Hall as [|c cs Hc _ IH]; intros w Hlen.
  - exact Hlen.
  - cbn [fdr_run fold_left]. apply IH, fdr_step_buffer_bound; assumption.
Qed.

End BoundedBuffer.

Lemma buffer_stays_below_threshold_witness :
  Fdr.blen (Fdr.fdr_write_buffer
              (Fdr.rec (fdr_run print_line three_samples idle_system)))
  < Fdr.BUFFER_FLUSH_THRESHOLD.
Proof.
  apply (buffer_stays_below_threshold print_line three_samples idle_system).
  - repeat constructor.
  - vm_compute. reflexivity.
Defined.

(** *** Reset and failed starts *)

(** X9. A reset on a store that mounts closes the file handle and removes
    the file and touches nothing else: the session flag, the buffer, the
    times, the light and the sensor stay as they are.  An export right
    after it answers NoData, and a second reset changes nothing more.  A
    reset on a store that cannot be mounted changes nothing at all. *)
Theorem reset_removes_file (e e' : Fdr.env) (w : Fdr.system) :
  (fst (Fdr.ensureSpiffs e (Fdr.rec w)) = true ->
   let w' := Fdr.fdr_reset e w in
   w' = Fdr.set_rec
          (Fdr.set_flash None
             (Fdr.set_fdr_file false (Fdr.set_spiffs_mounted true (Fdr.rec w)))) w /\
   fst (Fdr.fdr_streamFile e' w') = (false, NoData) /\
   Fdr.fdr_reset e' w' = w') /\
  (fst (Fdr.ensureSpiffs e (Fdr.rec w)) = false -> Fdr.fdr_reset e w = w).
Proof.
  split.
  - intros Hm w'.
    assert (Hw' : w' = Fdr.set_rec
              (Fdr.set_flash None
                 (Fdr.set_fdr_file false
                    (Fdr.set_spiffs_mounted true (Fdr.rec w)))) w).
    { subst w'. unfold Fdr.fdr_reset.
      rewrite (ensureSpiffs_mounted _ _ Hm). cbn [negb].
      rewrite closeFdrFileIfOpen_result.
      unfold Fdr.spiffs_remove_if_exists, Fdr.spiffs_exists.
      destruct w as [s b l]. destruct s as [a en st ls iv m f buf lf fl].
      destruct fl; reflexivity. }
    split; [exact Hw'|]. rewrite Hw'. split.
    + unfold Fdr.fdr_streamFile, Fdr.ensureSpiffs.
      cbn [Fdr.rec Fdr.set_rec Fdr.spiffs_mounted Fdr.set_flash Fdr.set_fdr_file
           Fdr.set_spiffs_mounted negb Fdr.spiffs_exists Fdr.flash fst].
      reflexivity.
    + unfold Fdr.fdr_reset, Fdr.ensureSpiffs.
      cbn [Fdr.rec Fdr.set_rec Fdr.spiffs_mounted Fdr.set_flash Fdr.set_fdr_file
           Fdr.set_spiffs_mounted negb].
      reflexivity.
  - intros Hm. unfold Fdr.fdr_reset.
    rewrite ensureSpiffs_result in Hm |- *. cbn [fst] in Hm. rewrite Hm.
    cbn [negb].
    apply orb_false_iff in Hm. destruct Hm as [Hm _].
    apply orb_false_iff in Hm. destruct Hm as [Hm _].
    rewrite <- Hm at 1. rewrite set_spiffs_mounted_same. apply set_rec_same.
Qed.

Lemma reset_removes_file_witness :
  Fdr.flash (Fdr.rec (Fdr.fdr_reset (env_at 1150) one_sample_buffered)) = None /\
  Fdr.fdr_active (Fdr.rec (Fdr.fdr_reset (env_at 1150) one_sample_buffered))
    = true /\
  fst (Fdr.fdr_streamFile (env_at 1160)
         (Fdr.fdr_reset (env_at 1150) one_sample_buffered)) = (false, NoData).
Proof.
  assert (Hm : fst (Fdr.ensureSpiffs (env_at 1150) (Fdr.rec one_sample_buffered))
               = true) by (vm_compute; reflexivity).
  destruct (proj1 (reset_removes_file (env_at 1150) (env_at 1160)
                     one_sample_buffered) Hm) as (Hw & Hexp & _).
  split; [|split; [|exact Hexp]]; rewrite Hw; vm_compute; reflexivity.
Defined.

(** X10. A start that mounts the store but cannot create the file returns
    false after it has already removed the previous file and set the new
    interval: the earlier recording is gone, the handle is closed, and the
    session flag, buffer, times, light and sensor mode are as before. *)
Theorem failed_start_discards_file (e : Fdr.env) (d n : Z) (w : Fdr.system) :
  fst (Fdr.ensureSpiffs e (Fdr.rec w)) = true ->
  Fdr.open_write e = false ->
  Fdr.fdr_start e d n w =
  (false,
   Fdr.set_rec
     (Fdr.set_flash None
        (Fdr.set_fdr_file false
           (Fdr.set_fdr_sample_interval_ms (1000 / effective_rate n)
              (Fdr.set_spiffs_mounted true (Fdr.rec w))))) w).
Proof.
  intros Hm Ho. rewrite fdr_start_effective_rate.
  pose proof (effective_rate_bounds_any n) as Hr.
  unfold Fdr.fdr_start. rewrite (ensureSpiffs_mounted _ _ Hm). cbn [negb].
  rewrite openFdrFileForWrite_result, Ho. cbn [negb].
  destruct (Z.eqb_spec (effective_rate n) 0); [lia|].
  unfold Fdr.MAX_SAMPLES_PER_SEC.
  destruct (Z.gtb_spec (effective_rate n) 50); [lia|].
  reflexivity.
Qed.

Lemma failed_start_discards_file_witness :
  fst (Fdr.fdr_start (Fdr.mkEnv 1150 1150 (fun _ => true) false true true 0 0)
         2 10 one_sample_buffered) = false /\
  Fdr.flash
    (Fdr.rec (snd (Fdr.fdr_start
                     (Fdr.mkEnv 1150 1150 (fun _ => true) false true true 0 0)
                     2 10 one_sample_buffered))) = None.
Proof.
  rewrite (failed_start_discards_file
             (Fdr.mkEnv 1150 1150 (fun _ => true) false true true 0 0)
             2 10 one_sample_buffered);
    [split; reflexivity | vm_compute; reflexivity | reflexivity].
Defined.

(** *** The sample interval *)

Section Intervals.

Variable snprintf_line : float -> float -> Fdr.bytes.

Lemma fdr_step_interval w c :
  (forall d n, snd c = OpStart d n -> 0 <= n) ->
  20 <= Fdr.fdr_sample_interval_ms (Fdr.rec w) <= 1000 ->
  20 <= Fdr.fdr_sample_interval_ms (Fdr.rec (fdr_step snprintf_line w c)) <= 1000.
Proof.
  intros Hn Hiv. destruct c as [e o]. cbn [snd] in Hn.
  assert (Hstop : Fdr.fdr_sample_interval_ms (Fdr.rec (Fdr.fdr_stop e w)) =
                  Fdr.fdr_sample_interval_ms (Fdr.rec w)).
  { unfold Fdr.fdr_stop. destruct (Fdr.fdr_active (Fdr.rec w)); cbn [negb];
      [|reflexivity].
    rewrite closeFdrFileIfOpen_result. cbn [Fdr.rec].
    destruct (flush_schedule e (Fdr.rec w)) as (_ & _ & _ & _ & Hi).
    exact Hi. }
  destruct o as [d n| | | | |bus]; cbn [fdr_step].
  - destruct (fst (Fdr.ensureSpiffs e (Fdr.rec w))) eqn:Hm.
    + rewrite fdr_start_interval by assumption.
      pose proof (effective_rate_bounds n (Hn d n eq_refl)) as Hr.
      split.
      * apply Z.div_le_lower_bound; lia.
      * apply Z.div_le_upper_bound; lia.
    + rewrite (fdr_start_not_mounted e d n w Hm).
      cbn [snd Fdr.set_rec Fdr.rec]. rewrite ensureSpiffs_result.
      exact Hiv.
  - unfold Fdr.fdr_process.
    destruct (Fdr.fdr_active (Fdr.rec w)); cbn [negb]; [|exact Hiv].
    destruct (_ >=? _); [rewrite Hstop; exact Hiv|].
    destruct (Fdr.sample_due _ _); [|exact Hiv].
    destruct (Barometer.barometer_isReady _); cbn [negb]; [|exact Hiv].
    destruct (_ || _); cbn [Fdr.set_rec Fdr.rec]; [|exact Hiv].
    match goal with
    | |- context [Fdr.flushBufferToFile e ?s1] =>
      destruct (flush_schedule e s1) as (_ & _ & _ & _ & Hi)
    end.
    rewrite Hi. exact Hiv.
  - rewrite Hstop. exact Hiv.
  - unfold Fdr.fdr_reset. rewrite ensureSpiffs_result.
    destruct (_ || _); cbn [negb snd Fdr.set_rec Fdr.rec]; [|exact Hiv].
    rewrite closeFdrFileIfOpen_result. unfold Fdr.spiffs_remove_if_exists.
    destruct (Fdr.spiffs_exists _); exact Hiv.
  - destruct (streamFile_rec e w) as (s & -> & [-> | ->]).
    + rewrite ensureSpiffs_result. exact Hiv.
    + destruct (flush_schedule e (snd (Fdr.ensureSpiffs e (Fdr.rec w))))
        as (_ & _ & _ & _ & Hi).
      rewrite Hi, ensureSpiffs_result. exact Hiv.
  - exact Hiv.
Qed.

(** X11. The sample interval is always between 20 ms and 1000 ms: it is
    1000 ms at boot, and no run of calls whose start requests carry an
    unsigned rate takes it out of that range; in particular it is never
    0. *)
Theorem interval_in_range (cs : list (Fdr.env * fdr_op)) (w : Fdr.system) :
  Forall (fun c => forall d n, snd c = OpStart d n -> 0 <= n) cs ->
  20 <= Fdr.fdr_sample_interval_ms (Fdr.rec w) <= 1000 ->
  20 <= Fdr.fdr_sample_interval_ms (Fdr.rec (fdr_run snprintf_line cs w)) <= 1000.
Proof.
  intros Hall. revert w. induction Hall as [|c cs Hc _ IH]; intros w Hiv.
  - exact Hiv.
  - cbn [fdr_run fold_left]. apply IH, fdr_step_interval; assumption.
Qed.

End Intervals.

Lemma interval_in_range_witness :
  20 <= Fdr.fdr_sample_interval_ms
          (Fdr.rec (fdr_run print_line
                      [(env_at 1000, OpStart 2 4000000000)] idle_system)) <= 1000.
Proof.
  apply (interval_in_range print_line
           [(env_at 1000, OpStart 2 4000000000)] idle_system).
  - repeat constructor. intros d n H. injection H as _ <-. lia.
  - vm_compute. split; discriminate.
Defined.

(** *** From recording to export *)

Section RoundTrip.

Variable snprintf_line : float -> float -> Fdr.bytes.

Lemma fdr_run_active_mounted cs :
  forall w,
    (Fdr.fdr_active (Fdr.rec w) = true -> Fdr.spiffs_mounted (Fdr.rec w) = true) ->
    Fdr.fdr_active (Fdr.rec (fdr_run snprintf_line cs w)) = true ->
    Fdr.spiffs_mounted (Fdr.rec (fdr_run snprintf_line cs w)) = true.
Proof.
  induction cs as [|c cs IH]; intros w Hw; [exact Hw|].
  cbn [fdr_run fold_left]. apply IH. intros Hact.
  destruct (proj1 (fdr_step_activation snprintf_line w c) Hact)
    as [Hbefore | (d & n & Hc & Hs)].
  - apply fdr_step_mounted, Hw, Hbefore.
  - destruct c as [e o]. cbn [fst snd] in Hc, Hs. subst o. cbn [fdr_step].
    revert Hs. unfold Fdr.fdr_start. rewrite ensureSpiffs_result.
    destruct (_ || _); cbn [negb fst]; [|discriminate].
    rewrite openFdrFileForWrite_result.
    destruct (Fdr.open_write e); cbn [negb fst]; [|discriminate].
    intros _. reflexivity.
Qed.

(** X12. Nothing recorded is lost on the way to the export.  From an idle
    recorder, after any run in which no call takes the file away from the
    running session, stopping the session on a store that takes the rest
    of the buffer and then exporting streams the header line followed by
    every sample line of the session, in the order of the ticks, whatever
    short writes happened in between. *)
Theorem recording_round_trip (cs : list (Fdr.env * fdr_op)) (w : Fdr.system)
  (e_stop e_export : Fdr.env) :
  Fdr.fdr_active (Fdr.rec w) = false ->
  keeps_file snprintf_line cs w = true ->
  let w1 := fdr_run snprintf_line cs w in
  Fdr.fdr_active (Fdr.rec w1) = true ->
  Fdr.blen (Fdr.fdr_write_buffer (Fdr.rec w1)) <= Fdr.write_room e_stop ->
  Fdr.open_read e_export = true ->
  fst (Fdr.fdr_streamFile e_export (Fdr.fdr_stop e_stop w1)) =
  (true, Fdr.StreamFile
           (Fdr.header ++ List.concat (session_lines snprintf_line cs w []))).
Proof.
  intros Hidle Hkeep w1 Hact Hroom Hread.
  destruct (fdr_run_session snprintf_line cs w [] (session_inv_idle [] _ Hidle)
              Hkeep Hact) as (Hfile & written & Hflash & Hcat).
  fold w1 in Hfile, Hflash, Hcat.
  assert (Hmounted : Fdr.spiffs_mounted (Fdr.rec w1) = true).
  { apply fdr_run_active_mounted; [|exact Hact]. rewrite Hidle. discriminate. }
  destruct (fdr_stop_result e_stop w1 (Fdr.header ++ written) Hact Hfile Hflash)
    as (Hidle2 & _ & _ & _ & _ & _ & Hall).
  destruct (Hall Hroom) as [Hflash2 _].
  set (w2 := Fdr.fdr_stop e_stop w1) in *.
  assert (Hm2 : Fdr.spiffs_mounted (Fdr.rec w2) = true)
    by (apply fdr_stop_mounted, Hmounted).
  assert (He2 : Fdr.ensureSpiffs e_export (Fdr.rec w2) = (true, Fdr.rec w2)).
  { unfold Fdr.ensureSpiffs. rewrite Hm2. reflexivity. }
  assert (Hfst : fst (Fdr.ensureSpiffs e_export (Fdr.rec w2)) = true)
    by (rewrite He2; reflexivity).
  rewrite (streamFile_unfold e_export w2 Hfst _ Hflash2).
  rewrite He2. cbn [snd]. rewrite Hidle2. cbn [andb]. rewrite Hread, Hflash2.
  rewrite <- app_assoc, Hcat. reflexivity.
Qed.

(** X13. An export never changes an idle recorder: the light, the sensor
    and every recorder variable are as before, except that the store may
    have become mounted; on a store that is already mounted the whole
    system is unchanged.  In every state the export leaves the session
    flag as it is. *)
Theorem export_leaves_idle_recorder (e : Fdr.env) (w : Fdr.system) :
  (Fdr.fdr_active (Fdr.rec w) = false ->
   snd (Fdr.fdr_streamFile e w) =
     Fdr.set_rec (snd (Fdr.ensureSpiffs e (Fdr.rec w))) w /\
   (Fdr.spiffs_mounted (Fdr.rec w) = true -> snd (Fdr.fdr_streamFile e w) = w)) /\
  Fdr.fdr_active (Fdr.rec (snd (Fdr.fdr_streamFile e w))) =
  Fdr.fdr_active (Fdr.rec w).
Proof.
  split; [|apply streamFile_active].
  intros Hidle.
  assert (H : snd (Fdr.fdr_streamFile e w) =
              Fdr.set_rec (snd (Fdr.ensureSpiffs e (Fdr.rec w))) w).
  { unfold Fdr.fdr_streamFile.
    destruct (ensureSpiffs_flash e (Fdr.rec w)) as (_ & _ & Ha & _).
    destruct (Fdr.ensureSpiffs e (Fdr.rec w)) as [mounted s0].
    cbn [snd] in Ha |- *. rewrite Ha, Hidle. cbn [andb].
    destruct mounted; cbn [negb]; [|reflexivity].
    destruct (Fdr.spiffs_exists s0); cbn [negb]; [|reflexivity].
    destruct (if Fdr.open_read e then Fdr.flash s0 else None); reflexivity. }
  split; [exact H|].
  intros Hm. rewrite H. unfold Fdr.ensureSpiffs. rewrite Hm. cbn [snd].
  apply set_rec_same.
Qed.

End RoundTrip.

Lemma recording_round_trip_witness :
  fst (Fdr.fdr_streamFile (env_at 1400)
         (Fdr.fdr_stop (env_at 1350)
            (fdr_run print_line three_samples idle_system))) =
  (true, Fdr.StreamFile
           (Fdr.header ++
            List.concat (session_lines print_line three_samples idle_system []))).
Proof.
  apply (recording_round_trip print_line three_samples idle_system
           (env_at 1350) (env_at 1400));
    try (vm_compute; reflexivity).
  vm_compute. discriminate.
Defined.

Lemma export_leaves_idle_recorder_witness :
  snd (Fdr.fdr_streamFile (env_at 9000)
         (Fdr.fdr_stop (env_at 1350) one_sample_buffered)) =
  Fdr.fdr_stop (env_at 1350) one_sample_buffered.
Proof.
  apply (export_leaves_idle_recorder (env_at 9000)
           (Fdr.fdr_stop (env_at 1350) one_sample_buffered));
    vm_compute; reflexivity.
Defined.

(* ====================================================================== *)
(** * Further properties of the sensor side *)

(** X14. [validateSensorReadings] accepts exactly the readings whose
    temperature is a number in [-40, 85] and whose pressure is a number in
    [300, 1100], bounds included; a NaN on either side is rejected. *)
Theorem validation_decides_range (t p : float) :
  (Barometer.validateSensorReadings t p = true <-> in_range t p) /\
  Barometer.validateSensorReadings NaN p = false /\
  Barometer.validateSensorReadings t NaN = false /\
  Barometer.validateSensorReadings (Num (-40)) (Num 300) = true /\
  Barometer.validateSensorReadings (Num 85) (Num 1100) = true.
Proof.
  split; [apply validate_in_range|].
  split; [reflexivity|]. split; [|split; reflexivity].
  unfold Barometer.validateSensorReadings.
  replace (fge NaN Barometer.PRESSURE_MIN) with false by reflexivity.
  cbn [andb]. apply andb_false_r.
Qed.

Lemma validation_decides_range_witness :
  Barometer.validateSensorReadings (Num 20) (Num 1013) = true.
Proof.
  apply (proj1 (validation_decides_range (Num 20) (Num 1013))).
  exists 20%Q, 1013%Q. repeat split; discriminate.
Defined.

(** *** What the accessors return *)

Lemma read_cycle_published bus s :
  Barometer.lastTemp (Barometer.read_cycle bus s) = Barometer.read_temperature bus s /\
  Barometer.lastPressure (Barometer.read_cycle bus s) =
  Barometer.pressure_ema (Barometer.read_cycle bus s).
Proof.
  unfold Barometer.read_cycle.
  set (s1 := Barometer.updatePressureEMA _ _).
  destruct (Barometer.validateSensorReadings _ _); [split; reflexivity|].
  cbv zeta. destruct (_ >=? _); split; reflexivity.
Qed.

Lemma baro_step_published s o :
  Barometer.lastPressure s = NaN \/
  Barometer.lastPressure s = Barometer.pressure_ema s ->
  Barometer.lastPressure (baro_step s o) = NaN \/
  Barometer.lastPressure (baro_step s o) = Barometer.pressure_ema (baro_step s o).
Proof.
  intros H. destruct o as [bus|bus|fast]; cbn [baro_step].
  - left. unfold Barometer.barometer_init.
    destruct (Barometer.bme_begin bus [] Barometer.BME280_ADDRESS_PRIMARY);
      reflexivity.
  - destruct (Barometer.bme_ok s) eqn:Hok.
    + right. rewrite baro_cycle_active by assumption. apply read_cycle_published.
    + unfold baro_cycle, Barometer.barometer_process. rewrite Hok. cbn [negb].
      destruct (scan_same_readings bus s []) as (He & Hp & _).
      rewrite He, Hp. exact H.
  - unfold Barometer.barometer_setFastMode.
    destruct (Barometer.bme_ok s), (Barometer.bmp_used s), fast; exact H.
Qed.

(** X15. Every cycle with a sensor active publishes what it has just read,
    whether or not the reading is in range: the temperature accessor
    returns the raw temperature and the pressure accessor returns the
    filter value that this cycle has computed.  In every state the module
    reaches, the published pressure is either NaN (nothing read since
    initialisation) or the current filter value. *)
Theorem published_reading (bus : Barometer.Bus) (s : Barometer.state)
  (ops : list baro_op) :
  (Barometer.bme_ok s = true ->
   let s' := baro_cycle bus s in
   Barometer.barometer_getTemperature s' = Barometer.read_temperature bus s /\
   Barometer.barometer_getPressure s' = Barometer.pressure_ema s') /\
  (Barometer.barometer_getPressure (baro_run ops Barometer.boot) = NaN \/
   Barometer.barometer_getPressure (baro_run ops Barometer.boot) =
   Barometer.pressure_ema (baro_run ops Barometer.boot)).
Proof.
  split.
  - intros Hok s'. subst s'. rewrite baro_cycle_active by assumption.
    unfold Barometer.barometer_getTemperature, Barometer.barometer_getPressure.
    apply read_cycle_published.
  - unfold Barometer.barometer_getPressure.
    assert (Hgen : forall s0,
              Barometer.lastPressure s0 = NaN \/
              Barometer.lastPressure s0 = Barometer.pressure_ema s0 ->
              Barometer.lastPressure (baro_run ops s0) = NaN \/
              Barometer.lastPressure (baro_run ops s0) =
              Barometer.pressure_ema (baro_run ops s0)).
    { induction ops as [|o ops IH]; intros s0 H0; [exact H0|].
      cbn [baro_run fold_left]. apply IH, baro_step_published, H0. }
    apply Hgen. left. reflexivity.
Qed.

Lemma published_reading_witness :
  Barometer.barometer_getTemperature
    (baro_cycle (bus_reading (Num 95) (Num 200000)) sensor_ready) = Num 95 /\
  Barometer.barometer_getPressure
    (baro_cycle (bus_reading (Num 95) (Num 200000)) sensor_ready) =
  Barometer.pressure_ema
    (baro_cycle (bus_reading (Num 95) (Num 200000)) sensor_ready).
Proof.
  apply (proj1 (published_reading (bus_reading (Num 95) (Num 200000))
                  sensor_ready [])).
  reflexivity.
Defined.

(** *** Sampling profiles *)

Lemma scan_loop_profile bus l :
  forall count chipid s log,
    Barometer.bme_ok s = false ->
    let s' := snd (fst (Barometer.scan_loop bus l count chipid s log)) in
    Barometer.bme_ok s' = true -> read_profile s' = Barometer.HighPrecision.
Proof.
  induction l as [|i l IH]; intros count chipid s log Hok; cbv zeta.
  - cbn. rewrite Hok. discriminate.
  - cbn [Barometer.scan_loop].
    unfold Barometer.bind, Barometer.call, Barometer.ret. cbv beta.
    destruct (Barometer.wire_ack bus log i); [|apply IH; assumption].
    destruct ((i =? Barometer.BME280_ADDRESS_PRIMARY) &&
              negb (Barometer.bme_ok s)); [|apply IH; assumption].
    rewrite attemptBME280Init_run.
    destruct (Barometer.bme_begin bus _ _); [reflexivity|].
    cbv iota beta. rewrite readChipID_run.
    destruct (Barometer.wire_read_id bus _ _); cbv iota beta;
      rewrite attemptBME280Init_run;
      (destruct (Barometer.bme_begin bus _ _); [reflexivity|]);
      cbv iota beta; rewrite attemptBME280Init_run;
      (destruct (Barometer.bme_begin bus _ _); [reflexivity|]);
      cbv iota beta;
      (destruct (_ =? Barometer.BME280_CHIP_ID); [|apply IH; assumption]);
      rewrite attemptBMP280Init_run;
      (destruct (Barometer.bmp_begin bus _ _); [reflexivity|]);
      cbv iota beta; apply IH; assumption.
Qed.

Lemma setFastMode_profile fast s :
  Barometer.bme_ok s = true ->
  read_profile (Barometer.barometer_setFastMode fast s) =
  if fast then Barometer.Fast else Barometer.HighPrecision.
Proof.
  intros Hok. unfold Barometer.barometer_setFastMode, read_profile.
  rewrite Hok. cbn [negb].
  destruct (Barometer.bmp_used s) eqn:Hu, fast; cbn; rewrite ?Hu; reflexivity.
Qed.

Lemma setFastMode_only_profile fast s :
  only_read_profile_differs s (Barometer.barometer_setFastMode fast s).
Proof.
  unfold Barometer.barometer_setFastMode, only_read_profile_differs,
    same_readings.
  destruct (Barometer.bme_ok s) eqn:Hok, (Barometer.bmp_used s) eqn:Hu, fast;
    cbn; rewrite ?Hu, ?Hok; repeat split.
Qed.

(** X16. The sensor's sampling profile follows the session only for a
    sensor that is active when the session starts or stops.  A start that
    succeeds calls the mode switch for the fast profile and the stop calls
    it for high precision, and that is all either does to the sensor
    module; with a sensor active the profile of the driver that is read
    becomes fast, respectively high precision.  The mode switch changes
    nothing but that profile: the readings, the filter, the counter, the
    two flags, the device count and the other driver's profile stay.  With
    no sensor active it does nothing at all, and a sensor that a scan finds
    afterwards, also during a session, is in high precision. *)
Theorem sensor_profile_follows_session (e : Fdr.env) (d n : Z) (w : Fdr.system)
  (bus : Barometer.Bus) :
  (store_mounts e (Fdr.rec w) = true -> Fdr.open_write e = true ->
   Fdr.baro (snd (Fdr.fdr_start e d n w)) =
     Barometer.barometer_setFastMode true (Fdr.baro w) /\
   (Barometer.bme_ok (Fdr.baro w) = true ->
    read_profile (Fdr.baro (snd (Fdr.fdr_start e d n w))) = Barometer.Fast)) /\
  (Fdr.fdr_active (Fdr.rec w) = true ->
   Fdr.baro (Fdr.fdr_stop e w) =
     Barometer.barometer_setFastMode false (Fdr.baro w) /\
   (Barometer.bme_ok (Fdr.baro w) = true ->
    read_profile (Fdr.baro (Fdr.fdr_stop e w)) = Barometer.HighPrecision)) /\
  (forall fast,
     Barometer.bme_ok (Fdr.baro w) = false ->
     Barometer.barometer_setFastMode fast (Fdr.baro w) = Fdr.baro w) /\
  (forall fast,
     only_read_profile_differs (Fdr.baro w)
       (Barometer.barometer_setFastMode fast (Fdr.baro w))) /\
  (Barometer.bme_ok (Fdr.baro w) = false ->
   Barometer.bme_ok (baro_cycle bus (Fdr.baro w)) = true ->
   read_profile (baro_cycle bus (Fdr.baro w)) = Barometer.HighPrecision).
Proof.
  split; [|split; [|split; [|split]]].
  - intros Hm Ho. rewrite <- ensureSpiffs_fst in Hm.
    rewrite (fdr_start_success e d n w Hm Ho). cbn [snd Fdr.baro].
    split; [reflexivity|]. intros Hok. apply setFastMode_profile, Hok.
  - intros Hact. unfold Fdr.fdr_stop. rewrite Hact. cbn [negb Fdr.baro].
    split; [reflexivity|]. intros Hok. apply setFastMode_profile, Hok.
  - intros fast Hok. unfold Barometer.barometer_setFastMode. rewrite Hok.
    reflexivity.
  - intros fast. apply setFastMode_only_profile.
  - intros Hok. unfold baro_cycle, Barometer.barometer_process.
    rewrite Hok. cbn [negb].
    unfold Barometer.scanAndTryInit, Barometer.bind, Barometer.ret.
    pose proof (scan_loop_profile bus Barometer.scan_addresses 0 0
                  (Fdr.baro w) [] Hok) as H.
    destruct (Barometer.scan_loop bus Barometer.scan_addresses 0 0
                (Fdr.baro w) []) as [[count s'] log'].
    exact H.
Qed.

Lemma sensor_profile_follows_session_witness :
  read_profile (Fdr.baro (snd (Fdr.fdr_start (env_at 1000) 2 10 idle_system)))
    = Barometer.Fast /\
  read_profile (Fdr.baro (Fdr.fdr_stop (env_at 1200) one_sample_buffered))
    = Barometer.HighPrecision.
Proof.
  split.
  - destruct (proj1 (sensor_profile_follows_session (env_at 1000) 2 10
                       idle_system bus_primary)) as [_ H];
      [vm_compute; reflexivity | reflexivity |].
    apply H. vm_compute. reflexivity.
  - destruct (proj1 (proj2 (sensor_profile_follows_session (env_at 1200) 2 10
                              one_sample_buffered bus_primary))) as [_ H];
      [vm_compute; reflexivity |].
    apply H. vm_compute. reflexivity.
Defined.

(** *** A scan that finds no sensor *)

Lemma answering_bounds bus l :
  forall log, 0 <= answering bus log l <= Z.of_nat (List.length l).
Proof.
  induction l as [|i l IH]; intros log; cbn [answering List.length]; [lia|].
  specialize (IH (log ++ [Barometer.WireProbe i])).
  destruct (Barometer.wire_ack bus log i); lia.
Qed.

Lemma answering_app bus l1 l2 :
  forall log,
    answering bus log (l1 ++ l2) =
    answering bus log l1 + answering bus (log ++ probes l1) l2.
Proof.
  induction l1 as [|i l1 IH]; intros log.
  - cbn. rewrite app_nil_r. reflexivity.
  - cbn [app answering probes map]. rewrite IH, <- app_assoc. cbn [app].
    unfold probes. lia.
Qed.

Lemma scan_loop_counts bus l :
  Forall (fun i => i <> Barometer.BME280_ADDRESS_PRIMARY) l ->
  forall rest count chipid s log,
    0 <= count -> count + Z.of_nat (List.length l) < 256 ->
    Barometer.scan_loop bus (l ++ rest) count chipid s log =
    Barometer.scan_loop bus rest (count + answering bus log l) chipid s
      (log ++ probes l).
Proof.
  induction 1 as [|i l Hi _ IH]; intros rest count chipid s log H0 Hlt.
  - cbn. rewrite app_nil_r, Z.add_0_r. reflexivity.
  - cbn [app Barometer.scan_loop answering probes map List.length] in *.
    unfold Barometer.bind at 1, Barometer.call at 1.
    apply Z.eqb_neq in Hi. rewrite Hi. cbn [andb].
    pose proof (answering_bounds bus l (log ++ [Barometer.WireProbe i])) as Hb.
    destruct (Barometer.wire_ack bus log i).
    + replace (u8 (count + 1)) with (count + 1)
        by (unfold u8; rewrite Z.mod_small; lia).
      rewrite IH by lia. rewrite <- app_assoc. cbn [app].
      f_equal. lia.
    + rewrite IH by lia. rewrite <- app_assoc. cbn [app].
      f_equal.
Qed.

(** X17. When nothing answers at the primary address, a scan probes the
    addresses 1 to 119 once each in increasing order, starts no driver,
    reads no identity register, and changes nothing but the device count,
    which becomes the number of addresses that answered: the sensor stays
    Unconfigured and the next cycle scans again. *)
Theorem scan_without_primary (bus : Barometer.Bus) (s : Barometer.state) :
  Barometer.wire_ack bus (probes addresses_before_primary)
    Barometer.BME280_ADDRESS_PRIMARY = false ->
  Barometer.scanAndTryInit bus s [] =
  (Barometer.set_deviceCount (answering bus [] Barometer.scan_addresses) s,
   probes Barometer.scan_addresses) /\
  0 <= answering bus [] Barometer.scan_addresses <= 118 /\
  (Barometer.bme_ok s = false ->
   sensor_state (baro_cycle bus s) = Unconfigured).
Proof.
  intros Hack.
  assert (Hscan : Barometer.scanAndTryInit bus s [] =
    (Barometer.set_deviceCount (answering bus [] Barometer.scan_addresses) s,
     probes Barometer.scan_addresses)).
  { unfold Barometer.scanAndTryInit, Barometer.bind at 1.
    rewrite scan_addresses_split.
    rewrite (scan_loop_counts bus addresses_before_primary
               addresses_before_primary_other) by (cbn; lia).
    change ([] ++ probes addresses_before_primary)
      with (probes addresses_before_primary).
    rewrite answering_app.
    change ([] ++ probes addresses_before_primary)
      with (probes addresses_before_primary).
    pose proof (answering_bounds bus addresses_before_primary []) as Hb1.
    set (c1 := answering bus [] addresses_before_primary) in *.
    set (log1 := probes addresses_before_primary) in *.
    cbn [answering]. rewrite Hack.
    pose proof (answering_bounds bus addresses_after_primary
                  (log1 ++ [Barometer.WireProbe Barometer.BME280_ADDRESS_PRIMARY]))
      as Hb2.
    set (c2 := answering bus _ addresses_after_primary) in *.
    remember addresses_after_primary as tail eqn:Htail.
    cbn [Barometer.scan_loop].
    unfold Barometer.bind at 1, Barometer.call at 1. rewrite Hack.
    pose proof (scan_loop_counts bus tail) as Hcount.
    rewrite Htail in Hcount.
    specialize (Hcount addresses_after_primary_other [] (0 + c1) 0 s
                  (log1 ++ [Barometer.WireProbe Barometer.BME280_ADDRESS_PRIMARY])).
    rewrite app_nil_r in Hcount. rewrite <- Htail in Hcount.
    rewrite Hcount.
    2:{ lia. }
    2:{ assert (Ht : Z.of_nat (List.length tail) = 1)
          by (rewrite Htail; reflexivity).
        change (Z.of_nat (List.length addresses_before_primary)) with 117 in Hb1.
        lia. }
    cbn [Barometer.scan_loop Barometer.ret].
    change (answering bus
              (log1 ++ [Barometer.WireProbe Barometer.BME280_ADDRESS_PRIMARY]) tail)
      with c2.
    unfold Barometer.ret.
    replace (0 + c1 + c2) with (c1 + (0 + c2)) by lia.
    unfold log1, probes. rewrite map_app. cbn [map].
    rewrite <- app_assoc. reflexivity. }
  split; [exact Hscan|]. split.
  - rewrite scan_addresses_split, answering_app.
    change ([] ++ probes addresses_before_primary)
      with (probes addresses_before_primary).
    cbn [answering]. rewrite Hack.
    pose proof (answering_bounds bus addresses_before_primary []) as Hb1.
    pose proof (answering_bounds bus addresses_after_primary
                  (probes addresses_before_primary ++
                   [Barometer.WireProbe Barometer.BME280_ADDRESS_PRIMARY])) as Hb2.
    change (Z.of_nat (List.length addresses_after_primary)) with 1 in Hb2.
    change (Z.of_nat (List.length addresses_before_primary)) with 117 in Hb1.
    lia.
  - intros Hok. unfold baro_cycle, Barometer.barometer_process.
    rewrite Hok. cbn [negb]. rewrite Hscan. cbn [fst].
    unfold sensor_state. cbn. rewrite Hok. reflexivity.
Qed.

Lemma scan_without_primary_witness :
  Barometer.deviceCount
    (fst (Barometer.scanAndTryInit
            (Barometer.mkBus (fun _ a => (a =? 0x3C) || (a =? 0x68))
               (fun _ _ => true) (fun _ _ => None) (fun _ _ => true)
               (fun _ => NaN) (fun _ => NaN))
            Barometer.boot [])) = 2.
Proof.
  rewrite (proj1 (scan_without_primary
             (Barometer.mkBus (fun _ a => (a =? 0x3C) || (a =? 0x68))
                (fun _ _ => true) (fun _ _ => None) (fun _ _ => true)
                (fun _ => NaN) (fun _ => NaN))
             Barometer.boot eq_refl)).
  reflexivity.
Defined.

(* ====================================================================== *)
(** * Properties of the entry points *)

(** X18. The reply to a start request does not tell what the recorder
    did.  It is always "started", with the interval computed from the
    requested frequency; that is the interval the recorder uses only for
    frequencies up to 50.  Above 50 the recorder samples every 20 ms while
    the reply states a shorter interval, and when the store cannot be
    mounted the reply is the same although an idle recorder stays idle. *)
Theorem start_reply_interval (e : Fdr.env) (dur : option Z) (f : Z)
  (w : Fdr.system) :
  0 <= f < 2 ^ 32 ->
  let r := Main.handle e (Main.FdrStart dur (Some f)) w in
  let d := match dur with Some v => u32 v | None => 180 end in
  fst r = Main.Started d f (if f >? 0 then 1000 / f else 1000) /\
  (fst (Fdr.ensureSpiffs e (Fdr.rec w)) = true ->
   let actual := Fdr.fdr_sample_interval_ms (Fdr.rec (snd r)) in
   (f <= 50 -> actual = (if f >? 0 then 1000 / f else 1000)) /\
   (50 < f -> actual = 20 /\ 1000 / f < 20)) /\
  (fst (Fdr.ensureSpiffs e (Fdr.rec w)) = false ->
   Fdr.fdr_active (Fdr.rec w) = false ->
   Fdr.fdr_isActive (snd r) = false).
Proof.
  intros Hf r d. subst r d. unfold Main.handle. cbn [fst snd].
  assert (Hu : u32 f = f) by (unfold u32; apply Z.mod_small; lia).
  rewrite Hu. split; [reflexivity|]. split.
  - intros Hm. cbv zeta. rewrite fdr_start_interval by assumption.
    unfold effective_rate. split.
    + intros Hle. destruct (Z.eqb_spec f 0) as [->|Hnz]; [reflexivity|].
      destruct (Z.gtb_spec f 50); [lia|].
      destruct (Z.gtb_spec f 0); [reflexivity | lia].
    + intros Hgt. destruct (Z.eqb_spec f 0); [lia|].
      destruct (Z.gtb_spec f 50); [|lia].
      split; [reflexivity|]. apply Z.div_lt_upper_bound; lia.
  - intros Hm Hidle. rewrite (fdr_start_not_mounted e _ _ w Hm).
    unfold Fdr.fdr_isActive. cbn [snd Fdr.set_rec Fdr.rec].
    destruct (ensureSpiffs_flash e (Fdr.rec w)) as (_ & _ & Ha & _).
    rewrite Ha. exact Hidle.
Qed.

Lemma start_reply_interval_witness :
  fst (Main.handle (env_at 1000) (Main.FdrStart (Some 2) (Some 100)) idle_system)
    = Main.Started 2 100 10 /\
  Fdr.fdr_sample_interval_ms
    (Fdr.rec (snd (Main.handle (env_at 1000)
                     (Main.FdrStart (Some 2) (Some 100)) idle_system))) = 20.
Proof.
  destruct (start_reply_interval (env_at 1000) (Some 2) 100 idle_system)
    as (Hr & Ha & _); [lia|].
  split; [exact Hr|].
  destruct (Ha eq_refl) as [_ Hgt]. apply Hgt. lia.
Defined.

Section LoopPass.

Variable snprintf_line : float -> float -> Fdr.bytes.

(** X19. In a pass of the main loop the recorder samples what the sensor
    cycle of the same pass has just published.  With a sensor active and
    no request, when the recorder's tick is accepted the line it appends
    is the text for the elapsed time, converted to a float and divided by
    1000 in single precision, and for the filter value that the sensor
    cycle of this pass has computed, also when the raw reading is out of
    range; and the request-free pass is the sensor cycle followed by the
    recorder cycle. *)
Theorem loop_records_current_reading (bus : Barometer.Bus)
  (e_req e_rec : Fdr.env) (w : Fdr.system) :
  Barometer.bme_ok (Fdr.baro w) = true ->
  let w0 := Fdr.mkSystem (Fdr.rec w) (baro_cycle bus (Fdr.baro w)) (Fdr.led w) in
  accepts e_rec w0 = true ->
  snd (Main.loop snprintf_line bus e_req None e_rec w) =
    Fdr.fdr_process snprintf_line e_rec w0 /\
  Fdr.sample_line snprintf_line (Fdr.millis e_rec) w0 =
    firstn 63
      (snprintf_line
         (of_Z (u32 (Fdr.millis e_rec - Fdr.fdr_start_ms (Fdr.rec w))) / Num 1000)%flt
         (Barometer.pressure_ema (baro_cycle bus (Fdr.baro w)))) /\
  exists s',
    Fdr.rec (snd (Main.loop snprintf_line bus e_req None e_rec w)) = s' /\
    let s1 := Fdr.set_fdr_write_buffer
                (Fdr.fdr_write_buffer (Fdr.rec w) ++
                 Fdr.sample_line snprintf_line (Fdr.millis e_rec) w0)
                (Fdr.set_last_sample_ms (Fdr.millis e_rec) (Fdr.rec w)) in
    (s' = s1 \/ s' = Fdr.flushBufferToFile e_rec s1).
Proof.
  intros Hok w0 Hacc. split; [reflexivity|]. split.
  - unfold Fdr.sample_line. subst w0. cbn [Fdr.rec Fdr.baro].
    unfold Barometer.barometer_getPressure.
    rewrite baro_cycle_active by assumption.
    destruct (read_cycle_published bus (Fdr.baro w)) as [_ Hp].
    rewrite Hp. reflexivity.
  - unfold Main.loop. cbn [snd]. fold w0.
    unfold accepts in Hacc.
    apply andb_true_iff in Hacc. destruct Hacc as [Hacc Hready].
    apply andb_true_iff in Hacc. destruct Hacc as [Hacc Hdue].
    apply andb_true_iff in Hacc. destruct Hacc as [Hact Hend].
    apply negb_true_iff in Hend.
    unfold Fdr.fdr_process. rewrite Hact, Hend, Hdue, Hready. cbn [negb].
    destruct (_ || _); cbn [Fdr.set_rec Fdr.rec]; eexists;
      (split; [reflexivity|]); [right | left]; reflexivity.
Qed.

End LoopPass.

Lemma loop_records_current_reading_witness :
  Fdr.fdr_write_buffer
    (Fdr.rec (snd (Main.loop print_line (bus_reading (Num 20) (Num 200000))
                     (env_at 1200) None (env_at 1200) one_sample_buffered))) =
  list_byte_of_string "0.100,1013.25" ++ [x0a] ++
  list_byte_of_string "0.200,1259.94" ++ [x0a].
Proof.
  assert (Hok : Barometer.bme_ok (Fdr.baro one_sample_buffered) = true)
    by (vm_compute; reflexivity).
  assert (Hacc : accepts (env_at 1200)
            (Fdr.mkSystem (Fdr.rec one_sample_buffered)
               (baro_cycle (bus_reading (Num 20) (Num 200000))
                  (Fdr.baro one_sample_buffered))
               (Fdr.led one_sample_buffered)) = true)
    by (vm_compute; reflexivity).
  destruct (loop_records_current_reading print_line
              (bus_reading (Num 20) (Num 200000)) (env_at 1200) (env_at 1200)
              one_sample_buffered Hok Hacc) as (Hloop & _ & _).
  rewrite Hloop. vm_compute. reflexivity.
Defined.

(** More than nine hours into a session the time stamp is no longer exact:
    32768001 ms is converted to the float 32768000 and printed as
    32768.000 s. *)
Example late_time_stamp_is_rounded :
  Fdr.fdr_active (Fdr.rec long_session) = true /\
  Fdr.fdr_start_ms (Fdr.rec long_session) = 1000 /\
  Fdr.sample_line print_line (1000 + 32768001) long_session =
    list_byte_of_string "32768.000,1013.25" ++ [x0a].
Proof. repeat split; vm_compute; reflexivity. Qed.

(** *** The status light *)

Section Light.

Variable snprintf_line : float -> float -> Fdr.bytes.

Lemma fdr_stop_light e w : light_matches w -> light_matches (Fdr.fdr_stop e w).
Proof.
  unfold light_matches, Fdr.fdr_stop. intros H.
  destruct (Fdr.fdr_active (Fdr.rec w)) eqn:Ha; cbn [negb].
  - reflexivity.
  - rewrite Ha. exact H.
Qed.

Lemma fdr_step_light w c :
  light_matches w -> light_matches (fdr_step snprintf_line w c).
Proof.
  intros H. destruct c as [e o].
  destruct o as [d n| | | | |bus]; cbn [fdr_step].
  - unfold Fdr.fdr_start. rewrite ensureSpiffs_result.
    destruct (_ || _); cbn [negb snd]; [|exact H].
    rewrite openFdrFileForWrite_result.
    destruct (Fdr.open_write e); cbn [negb snd]; [reflexivity | exact H].
  - unfold Fdr.fdr_process.
    destruct (Fdr.fdr_active (Fdr.rec w)) eqn:Ha; cbn [negb]; [|exact H].
    destruct (_ >=? _); [apply fdr_stop_light, H|].
    destruct (Fdr.sample_due _ _); [|exact H].
    unfold light_matches in *. rewrite Ha in H.
    destruct (Barometer.barometer_isReady _); cbn [negb];
      [|cbn; rewrite Ha; exact H].
    destruct (_ || _); cbn [Fdr.set_rec Fdr.rec Fdr.led];
      [rewrite flush_active|]; cbn; rewrite Ha; exact H.
  - apply fdr_stop_light, H.
  - unfold light_matches in *. rewrite fdr_reset_active.
    unfold Fdr.fdr_reset.
    destruct (Fdr.ensureSpiffs e (Fdr.rec w)) as [mounted s].
    destruct mounted; exact H.
  - unfold light_matches in *. rewrite streamFile_active.
    unfold Fdr.fdr_streamFile.
    destruct (Fdr.ensureSpiffs e (Fdr.rec w)) as [mounted s].
    destruct mounted; cbn [negb snd]; [|exact H].
    destruct (Fdr.spiffs_exists s); cbn [negb snd]; [|exact H].
    destruct (if Fdr.open_read e then _ else None); exact H.
  - exact H.
Qed.

(** X20. The status light tells whether a session is running.  After
    [setup] the light is blue and the recorder idle, and after every run
    of calls from there the light is green exactly when the recorder is
    active: a start that succeeds turns it green, a stop or the end of the
    session turns it blue, and no other call changes it. *)
Theorem light_follows_session (bus : Barometer.Bus) (cs : list (Fdr.env * fdr_op)) :
  light_matches (Main.setup bus) /\
  Fdr.fdr_isActive (Main.setup bus) = false /\
  light_matches (fdr_run snprintf_line cs (Main.setup bus)).
Proof.
  split; [reflexivity|]. split; [reflexivity|].
  assert (Hgen : forall w, light_matches w ->
                           light_matches (fdr_run snprintf_line cs w)).
  { induction cs as [|c cs' IH]; intros w Hw; [exact Hw|].
    cbn [fdr_run fold_left]. apply IH, fdr_step_light, Hw. }
  apply Hgen. reflexivity.
Qed.

End Light.
